(** * gecko-b2g glue code: Radio HAL forwarder, Wi-Fi orchestrator and
      cell-broadcast channel configurator

    A shallow embedding of
    - [GonkCellBroadcastConfigService] / [GonkCellBroadcastConfigHandler]
      (the script part of [dom/wifi/nsWifiEvent.cpp]),
    - [nsRilWorker] (first half of [dom/system/gonk/radio/nsRilWorker.cpp]),
    - [WifiNative] (second half of the same file),
    followed by the properties established about them. *)

From Stdlib Require Import ZArith List String Ascii Bool Lia.
From Stdlib Require Import DecimalString DecimalZ DecimalFacts.
Import ListNotations.

#[local] Set Warnings "-register-all".
#[local] Open Scope string_scope.
#[local] Open Scope list_scope.
#[local] Open Scope Z_scope.

(* ===================================================================== *)
(** * Part I: the embedding                                               *)
(* ===================================================================== *)

(* --------------------------------------------------------------------- *)
(** ** C strings                                                          *)
(* --------------------------------------------------------------------- *)

(** A string read through a [const char*]: what [std::string::c_str()] and
    [NS_ConvertUTF16toUTF8(x).get()] hand to a constructor or an assignment
    that takes a C string.  The text ends at the first zero character. *)
Fixpoint c_str (s : string) : string :=
  match s with
  | EmptyString => EmptyString
  | String c rest =>
    if Ascii.eqb c Ascii.zero then EmptyString else String c (c_str rest)
  end.

(* --------------------------------------------------------------------- *)
(** ** Cell-broadcast channel configurator (script side)                  *)
(* --------------------------------------------------------------------- *)

Module CellBroadcast.

(** The constants of [Ci.nsIGonkCellBroadcastConfigService].  The interface
    declaration is not part of the sources at hand, so the embedding is
    parametric in the numeric values. *)
Record IdlConstants : Type := {
  SERVICE_CATEGORY_CMAS_PRESIDENTIAL_LEVEL_ALERT : Z;
  SERVICE_CATEGORY_CMAS_EXTREME_THREAT : Z;
  SERVICE_CATEGORY_CMAS_SEVERE_THREAT : Z;
  SERVICE_CATEGORY_CMAS_CHILD_ABDUCTION_EMERGENCY : Z;
  SERVICE_CATEGORY_CMAS_TEST_MESSAGE : Z;
  MESSAGE_ID_ETWS_EARTHQUAKE_WARNING : Z;
  MESSAGE_ID_ETWS_EARTHQUAKE_AND_TSUNAMI_WARNING : Z;
  MESSAGE_ID_ETWS_TEST_MESSAGE : Z;
  MESSAGE_ID_ETWS_OTHER_EMERGENCY_TYPE : Z;
  MESSAGE_ID_CMAS_ALERT_PRESIDENTIAL_LEVEL : Z;
  MESSAGE_ID_CMAS_ALERT_EXTREME_IMMEDIATE_OBSERVED : Z;
  MESSAGE_ID_CMAS_ALERT_EXTREME_IMMEDIATE_LIKELY : Z;
  MESSAGE_ID_CMAS_ALERT_EXTREME_EXPECTED_OBSERVED : Z;
  MESSAGE_ID_CMAS_ALERT_SEVERE_EXPECTED_LIKELY : Z;
  MESSAGE_ID_CMAS_ALERT_CHILD_ABDUCTION_EMERGENCY : Z;
  MESSAGE_ID_CMAS_ALERT_REQUIRED_MONTHLY_TEST : Z;
  MESSAGE_ID_CMAS_ALERT_OPERATOR_DEFINED_USE : Z;
  MESSAGE_ID_CMAS_ALERT_PRESIDENTIAL_LEVEL_LANGUAGE : Z;
  MESSAGE_ID_CMAS_ALERT_EXTREME_IMMEDIATE_OBSERVED_LANGUAGE : Z;
  MESSAGE_ID_CMAS_ALERT_EXTREME_IMMEDIATE_LIKELY_LANGUAGE : Z;
  MESSAGE_ID_CMAS_ALERT_EXTREME_EXPECTED_OBSERVED_LANGUAGE : Z;
  MESSAGE_ID_CMAS_ALERT_SEVERE_EXPECTED_LIKELY_LANGUAGE : Z;
  MESSAGE_ID_CMAS_ALERT_CHILD_ABDUCTION_EMERGENCY_LANGUAGE : Z;
  MESSAGE_ID_CMAS_ALERT_REQUIRED_MONTHLY_TEST_LANGUAGE : Z;
  MESSAGE_ID_CMAS_ALERT_OPERATOR_DEFINED_USE_LANGUAGE : Z
}.

(** One assignment of the constants, with the numbers quoted in the comments
    of [_getCellBroadcastConfig] (4352~4354, 4356, 4370, 4371~4372, 4379,
    4380~4382, 4383, 4384~4385, 4386~4391, 4392, 4393~4395) and the usual
    CDMA service categories.  Used only to run the code on concrete inputs. *)
Definition sample_constants : IdlConstants := {|
  SERVICE_CATEGORY_CMAS_PRESIDENTIAL_LEVEL_ALERT := 4096;
  SERVICE_CATEGORY_CMAS_EXTREME_THREAT := 4097;
  SERVICE_CATEGORY_CMAS_SEVERE_THREAT := 4098;
  SERVICE_CATEGORY_CMAS_CHILD_ABDUCTION_EMERGENCY := 4099;
  SERVICE_CATEGORY_CMAS_TEST_MESSAGE := 4100;
  MESSAGE_ID_ETWS_EARTHQUAKE_WARNING := 4352;
  MESSAGE_ID_ETWS_EARTHQUAKE_AND_TSUNAMI_WARNING := 4354;
  MESSAGE_ID_ETWS_TEST_MESSAGE := 4355;
  MESSAGE_ID_ETWS_OTHER_EMERGENCY_TYPE := 4356;
  MESSAGE_ID_CMAS_ALERT_PRESIDENTIAL_LEVEL := 4370;
  MESSAGE_ID_CMAS_ALERT_EXTREME_IMMEDIATE_OBSERVED := 4371;
  MESSAGE_ID_CMAS_ALERT_EXTREME_IMMEDIATE_LIKELY := 4372;
  MESSAGE_ID_CMAS_ALERT_EXTREME_EXPECTED_OBSERVED := 4373;
  MESSAGE_ID_CMAS_ALERT_SEVERE_EXPECTED_LIKELY := 4378;
  MESSAGE_ID_CMAS_ALERT_CHILD_ABDUCTION_EMERGENCY := 4379;
  MESSAGE_ID_CMAS_ALERT_REQUIRED_MONTHLY_TEST := 4380;
  MESSAGE_ID_CMAS_ALERT_OPERATOR_DEFINED_USE := 4382;
  MESSAGE_ID_CMAS_ALERT_PRESIDENTIAL_LEVEL_LANGUAGE := 4383;
  MESSAGE_ID_CMAS_ALERT_EXTREME_IMMEDIATE_OBSERVED_LANGUAGE := 4384;
  MESSAGE_ID_CMAS_ALERT_EXTREME_IMMEDIATE_LIKELY_LANGUAGE := 4385;
  MESSAGE_ID_CMAS_ALERT_EXTREME_EXPECTED_OBSERVED_LANGUAGE := 4386;
  MESSAGE_ID_CMAS_ALERT_SEVERE_EXPECTED_LIKELY_LANGUAGE := 4391;
  MESSAGE_ID_CMAS_ALERT_CHILD_ABDUCTION_EMERGENCY_LANGUAGE := 4392;
  MESSAGE_ID_CMAS_ALERT_REQUIRED_MONTHLY_TEST_LANGUAGE := 4393;
  MESSAGE_ID_CMAS_ALERT_OPERATOR_DEFINED_USE_LANGUAGE := 4395
|}.

(** Keys of [SMSCB] read by the handler. *)
Inductive CustomizationKey : Type :=
| KEY_ENABLE_EMERGENCY_ALERTS
| KEY_ENABLE_CMAS_EXTREME_THREAT_ALERTS
| KEY_ENABLE_CMAS_SEVERE_THREAT_ALERTS
| KEY_ENABLE_CMAS_AMBER_ALERTS
| KEY_CARRIER_FORCE_DISABLE_ETWS_CMAS_TEST_BOOL
| KEY_ENABLE_ETWS_TEST_ALERTS
| KEY_ENABLE_CMAS_TEST_ALERTS.

(** The platform services the handler talks to:
    [gCustomizationInfo.getCustomizedValue(clientId, key, default)] and
    [gRadioInterfaceLayer.getRadioInterface(clientId)] (is the result
    non-null?). *)
Record Services : Type := {
  getCustomizedValue : Z -> CustomizationKey -> bool -> bool;
  getRadioInterface : Z -> bool
}.

(** [{cdma: [], gsm: []}] *)
Record Config : Type := { cdma : list Z; gsm : list Z }.

(** [config.cdma.push(x)] and [config.gsm.push(x)]. *)
Definition cdma_push (config : Config) (x : Z) : Config :=
  {| cdma := cdma config ++ [x]; gsm := gsm config |}.

Definition gsm_push (config : Config) (x : Z) : Config :=
  {| cdma := cdma config; gsm := gsm config ++ [x] |}.

(** [GonkCellBroadcastConfigHandler]: the fields the configuration logic
    uses. *)
Record Handler : Type := {
  _clientId : Z;
  _mccmnc : option string;
  _config : Config
}.

(** [if (condition) { body }] on the configuration being built. *)
Definition when (condition : bool) (body : Config -> Config) (config : Config)
  : Config :=
  if condition then body config else config.

Section GetConfig.

Variable K : IdlConstants.
Variable svc : Services.

(** [_getCellBroadcastConfig], statement by statement. *)
Definition _getCellBroadcastConfig (this : Handler) : Config :=
  let enableEmergencyAlerts :=
    getCustomizedValue svc (_clientId this) KEY_ENABLE_EMERGENCY_ALERTS true in
  let enableEtwsAlerts := enableEmergencyAlerts in
  let enableCmasExtremeAlerts := enableEmergencyAlerts &&
    getCustomizedValue svc (_clientId this) KEY_ENABLE_CMAS_EXTREME_THREAT_ALERTS true in
  let enableCmasSevereAlerts := enableEmergencyAlerts &&
    getCustomizedValue svc (_clientId this) KEY_ENABLE_CMAS_SEVERE_THREAT_ALERTS true in
  let enableCmasAmberAlerts := enableEmergencyAlerts &&
    getCustomizedValue svc (_clientId this) KEY_ENABLE_CMAS_AMBER_ALERTS true in
  let forceDisableEtwsCmasTest :=
    getCustomizedValue svc (_clientId this) KEY_CARRIER_FORCE_DISABLE_ETWS_CMAS_TEST_BOOL false in
  let enableEtwsTestAlerts := negb forceDisableEtwsCmasTest && enableEmergencyAlerts &&
    getCustomizedValue svc (_clientId this) KEY_ENABLE_ETWS_TEST_ALERTS false in
  let enableCmasTestAlerts := negb forceDisableEtwsCmasTest && enableEmergencyAlerts &&
    getCustomizedValue svc (_clientId this) KEY_ENABLE_CMAS_TEST_ALERTS false in
  let config := {| cdma := []; gsm := [] |} in
  (* Always enable CDMA Presidential messages. *)
  let config := cdma_push config (SERVICE_CATEGORY_CMAS_PRESIDENTIAL_LEVEL_ALERT K) in
  let config := cdma_push config (SERVICE_CATEGORY_CMAS_PRESIDENTIAL_LEVEL_ALERT K + 1) in
  (* CDMA CMAS extreme. *)
  let config :=
    when enableCmasExtremeAlerts (fun config =>
      let config := cdma_push config (SERVICE_CATEGORY_CMAS_EXTREME_THREAT K) in
      cdma_push config (SERVICE_CATEGORY_CMAS_EXTREME_THREAT K + 1)) config in
  (* CDMA CMAS severe. *)
  let config :=
    when enableCmasSevereAlerts (fun config =>
      let config := cdma_push config (SERVICE_CATEGORY_CMAS_SEVERE_THREAT K) in
      cdma_push config (SERVICE_CATEGORY_CMAS_SEVERE_THREAT K + 1)) config in
  (* CDMA CMAS amber. *)
  let config :=
    when enableCmasAmberAlerts (fun config =>
      let config := cdma_push config (SERVICE_CATEGORY_CMAS_CHILD_ABDUCTION_EMERGENCY K) in
      cdma_push config (SERVICE_CATEGORY_CMAS_CHILD_ABDUCTION_EMERGENCY K + 1)) config in
  (* CDMA CMAS test. *)
  let config :=
    when enableCmasTestAlerts (fun config =>
      let config := cdma_push config (SERVICE_CATEGORY_CMAS_TEST_MESSAGE K) in
      cdma_push config (SERVICE_CATEGORY_CMAS_TEST_MESSAGE K + 1)) config in
  (* GSM ETWS (4352~4354). *)
  let config :=
    when enableEtwsAlerts (fun config =>
      let config := gsm_push config (MESSAGE_ID_ETWS_EARTHQUAKE_WARNING K) in
      gsm_push config (MESSAGE_ID_ETWS_EARTHQUAKE_AND_TSUNAMI_WARNING K + 1)) config in
  (* GSM ETWS (4356). *)
  let config :=
    when enableEtwsAlerts (fun config =>
      let config := gsm_push config (MESSAGE_ID_ETWS_OTHER_EMERGENCY_TYPE K) in
      gsm_push config (MESSAGE_ID_ETWS_OTHER_EMERGENCY_TYPE K + 1)) config in
  (* GSM ETWS test. *)
  let config :=
    when enableEtwsTestAlerts (fun config =>
      let config := gsm_push config (MESSAGE_ID_ETWS_TEST_MESSAGE K) in
      gsm_push config (MESSAGE_ID_ETWS_TEST_MESSAGE K + 1)) config in
  (* GSM CMAS presidential (4370). *)
  let config := gsm_push config (MESSAGE_ID_CMAS_ALERT_PRESIDENTIAL_LEVEL K) in
  let config := gsm_push config (MESSAGE_ID_CMAS_ALERT_PRESIDENTIAL_LEVEL K + 1) in
  (* GSM CMAS extreme, commented (4371~4372) in the source. *)
  let config :=
    when enableCmasExtremeAlerts (fun config =>
      let config := gsm_push config (MESSAGE_ID_CMAS_ALERT_EXTREME_EXPECTED_OBSERVED K) in
      gsm_push config (MESSAGE_ID_CMAS_ALERT_SEVERE_EXPECTED_LIKELY K + 1)) config in
  (* GSM CMAS amber (4379). *)
  let config :=
    when enableCmasAmberAlerts (fun config =>
      let config := gsm_push config (MESSAGE_ID_CMAS_ALERT_CHILD_ABDUCTION_EMERGENCY K) in
      gsm_push config (MESSAGE_ID_CMAS_ALERT_CHILD_ABDUCTION_EMERGENCY K + 1)) config in
  (* GSM CMAS test (4380~4382). *)
  let config :=
    when enableCmasTestAlerts (fun config =>
      let config := gsm_push config (MESSAGE_ID_CMAS_ALERT_REQUIRED_MONTHLY_TEST K) in
      gsm_push config (MESSAGE_ID_CMAS_ALERT_OPERATOR_DEFINED_USE K + 1)) config in
  (* GSM CMAS presidential, additional languages (4383). *)
  let config := gsm_push config (MESSAGE_ID_CMAS_ALERT_PRESIDENTIAL_LEVEL_LANGUAGE K) in
  let config := gsm_push config (MESSAGE_ID_CMAS_ALERT_PRESIDENTIAL_LEVEL_LANGUAGE K + 1) in
  (* GSM CMAS extreme, additional languages (4384~4385). *)
  let config :=
    when enableCmasExtremeAlerts (fun config =>
      let config := gsm_push config (MESSAGE_ID_CMAS_ALERT_EXTREME_IMMEDIATE_OBSERVED_LANGUAGE K) in
      gsm_push config (MESSAGE_ID_CMAS_ALERT_EXTREME_IMMEDIATE_LIKELY_LANGUAGE K + 1)) config in
  (* GSM CMAS severe, additional languages (4386~4391). *)
  let config :=
    when enableCmasSevereAlerts (fun config =>
      let config := gsm_push config (MESSAGE_ID_CMAS_ALERT_EXTREME_EXPECTED_OBSERVED_LANGUAGE K) in
      gsm_push config (MESSAGE_ID_CMAS_ALERT_SEVERE_EXPECTED_LIKELY_LANGUAGE K + 1)) config in
  (* GSM CMAS amber, additional languages (4392). *)
  let config :=
    when enableCmasAmberAlerts (fun config =>
      let config := gsm_push config (MESSAGE_ID_CMAS_ALERT_CHILD_ABDUCTION_EMERGENCY_LANGUAGE K) in
      gsm_push config (MESSAGE_ID_CMAS_ALERT_CHILD_ABDUCTION_EMERGENCY_LANGUAGE K + 1)) config in
  (* GSM CMAS test, additional languages (4393~4395). *)
  let config :=
    when enableCmasTestAlerts (fun config =>
      let config := gsm_push config (MESSAGE_ID_CMAS_ALERT_REQUIRED_MONTHLY_TEST_LANGUAGE K) in
      gsm_push config (MESSAGE_ID_CMAS_ALERT_OPERATOR_DEFINED_USE_LANGUAGE K + 1)) config in
  config.

(** *** The documented range table

    The table the documentation describes: one row per alert class, each
    row a closed range [first ~ last] that is switched by one flag, written
    to the list in half-open form [first, last + 1].  The rows follow the
    comments of the source (and, for the GSM severe row, the layout of the
    additional-language rows). *)
Record Row : Type := { row_on : bool; row_first : Z; row_last : Z }.

Definition rows_to_list (t : list Row) : list Z :=
  flat_map (fun r => if row_on r then [row_first r; row_last r + 1] else []) t.

(** The flags as the documentation gates them. *)
Record AlertFlags : Type := {
  etws : bool;
  etws_test : bool;
  cmas_extreme : bool;
  cmas_severe : bool;
  cmas_amber : bool;
  cmas_test : bool
}.

Definition alert_flags (this : Handler) : AlertFlags :=
  let get := getCustomizedValue svc (_clientId this) in
  let master := get KEY_ENABLE_EMERGENCY_ALERTS true in
  let force_off := get KEY_CARRIER_FORCE_DISABLE_ETWS_CMAS_TEST_BOOL false in
  {| etws := master;
     etws_test := negb force_off && master && get KEY_ENABLE_ETWS_TEST_ALERTS false;
     cmas_extreme := master && get KEY_ENABLE_CMAS_EXTREME_THREAT_ALERTS true;
     cmas_severe := master && get KEY_ENABLE_CMAS_SEVERE_THREAT_ALERTS true;
     cmas_amber := master && get KEY_ENABLE_CMAS_AMBER_ALERTS true;
     cmas_test := negb force_off && master && get KEY_ENABLE_CMAS_TEST_ALERTS false |}.

Definition documented_cdma_table (f : AlertFlags) : list Row :=
  [ {| row_on := true;
       row_first := SERVICE_CATEGORY_CMAS_PRESIDENTIAL_LEVEL_ALERT K;
       row_last := SERVICE_CATEGORY_CMAS_PRESIDENTIAL_LEVEL_ALERT K |};
    {| row_on := cmas_extreme f;
       row_first := SERVICE_CATEGORY_CMAS_EXTREME_THREAT K;
       row_last := SERVICE_CATEGORY_CMAS_EXTREME_THREAT K |};
    {| row_on := cmas_severe f;
       row_first := SERVICE_CATEGORY_CMAS_SEVERE_THREAT K;
       row_last := SERVICE_CATEGORY_CMAS_SEVERE_THREAT K |};
    {| row_on := cmas_amber f;
       row_first := SERVICE_CATEGORY_CMAS_CHILD_ABDUCTION_EMERGENCY K;
       row_last := SERVICE_CATEGORY_CMAS_CHILD_ABDUCTION_EMERGENCY K |};
    {| row_on := cmas_test f;
       row_first := SERVICE_CATEGORY_CMAS_TEST_MESSAGE K;
       row_last := SERVICE_CATEGORY_CMAS_TEST_MESSAGE K |} ].

Definition documented_gsm_table (f : AlertFlags) : list Row :=
  [ (* ETWS 4352~4354 *)
    {| row_on := etws f;
       row_first := MESSAGE_ID_ETWS_EARTHQUAKE_WARNING K;
       row_last := MESSAGE_ID_ETWS_EARTHQUAKE_AND_TSUNAMI_WARNING K |};
    (* ETWS 4356 *)
    {| row_on := etws f;
       row_first := MESSAGE_ID_ETWS_OTHER_EMERGENCY_TYPE K;
       row_last := MESSAGE_ID_ETWS_OTHER_EMERGENCY_TYPE K |};
    (* ETWS test *)
    {| row_on := etws_test f;
       row_first := MESSAGE_ID_ETWS_TEST_MESSAGE K;
       row_last := MESSAGE_ID_ETWS_TEST_MESSAGE K |};
    (* CMAS presidential 4370 *)
    {| row_on := true;
       row_first := MESSAGE_ID_CMAS_ALERT_PRESIDENTIAL_LEVEL K;
       row_last := MESSAGE_ID_CMAS_ALERT_PRESIDENTIAL_LEVEL K |};
    (* CMAS extreme 4371~4372 *)
    {| row_on := cmas_extreme f;
       row_first := MESSAGE_ID_CMAS_ALERT_EXTREME_IMMEDIATE_OBSERVED K;
       row_last := MESSAGE_ID_CMAS_ALERT_EXTREME_IMMEDIATE_LIKELY K |};
    (* CMAS severe 4373~4378 *)
    {| row_on := cmas_severe f;
       row_first := MESSAGE_ID_CMAS_ALERT_EXTREME_EXPECTED_OBSERVED K;
       row_last := MESSAGE_ID_CMAS_ALERT_SEVERE_EXPECTED_LIKELY K |};
    (* CMAS amber 4379 *)
    {| row_on := cmas_amber f;
       row_first := MESSAGE_ID_CMAS_ALERT_CHILD_ABDUCTION_EMERGENCY K;
       row_last := MESSAGE_ID_CMAS_ALERT_CHILD_ABDUCTION_EMERGENCY K |};
    (* CMAS test 4380~4382 *)
    {| row_on := cmas_test f;
       row_first := MESSAGE_ID_CMAS_ALERT_REQUIRED_MONTHLY_TEST K;
       row_last := MESSAGE_ID_CMAS_ALERT_OPERATOR_DEFINED_USE K |};
    (* presidential, additional languages 4383 *)
    {| row_on := true;
       row_first := MESSAGE_ID_CMAS_ALERT_PRESIDENTIAL_LEVEL_LANGUAGE K;
       row_last := MESSAGE_ID_CMAS_ALERT_PRESIDENTIAL_LEVEL_LANGUAGE K |};
    (* extreme, additional languages 4384~4385 *)
    {| row_on := cmas_extreme f;
       row_first := MESSAGE_ID_CMAS_ALERT_EXTREME_IMMEDIATE_OBSERVED_LANGUAGE K;
       row_last := MESSAGE_ID_CMAS_ALERT_EXTREME_IMMEDIATE_LIKELY_LANGUAGE K |};
    (* severe, additional languages 4386~4391 *)
    {| row_on := cmas_severe f;
       row_first := MESSAGE_ID_CMAS_ALERT_EXTREME_EXPECTED_OBSERVED_LANGUAGE K;
       row_last := MESSAGE_ID_CMAS_ALERT_SEVERE_EXPECTED_LIKELY_LANGUAGE K |};
    (* amber, additional languages 4392 *)
    {| row_on := cmas_amber f;
       row_first := MESSAGE_ID_CMAS_ALERT_CHILD_ABDUCTION_EMERGENCY_LANGUAGE K;
       row_last := MESSAGE_ID_CMAS_ALERT_CHILD_ABDUCTION_EMERGENCY_LANGUAGE K |};
    (* test, additional languages 4393~4395 *)
    {| row_on := cmas_test f;
       row_first := MESSAGE_ID_CMAS_ALERT_REQUIRED_MONTHLY_TEST_LANGUAGE K;
       row_last := MESSAGE_ID_CMAS_ALERT_OPERATOR_DEFINED_USE_LANGUAGE K |} ].

Definition documented_config (this : Handler) : Config :=
  {| cdma := rows_to_list (documented_cdma_table (alert_flags this));
     gsm := rows_to_list (documented_gsm_table (alert_flags this)) |}.

(** The GSM rows the code does write: the documented ones without the
    severe row, and with the extreme flag switching the range from
    "extreme expected observed" to "severe expected likely". *)
Definition written_gsm_table (f : AlertFlags) : list Row :=
  [ {| row_on := etws f;
       row_first := MESSAGE_ID_ETWS_EARTHQUAKE_WARNING K;
       row_last := MESSAGE_ID_ETWS_EARTHQUAKE_AND_TSUNAMI_WARNING K |};
    {| row_on := etws f;
       row_first := MESSAGE_ID_ETWS_OTHER_EMERGENCY_TYPE K;
       row_last := MESSAGE_ID_ETWS_OTHER_EMERGENCY_TYPE K |};
    {| row_on := etws_test f;
       row_first := MESSAGE_ID_ETWS_TEST_MESSAGE K;
       row_last := MESSAGE_ID_ETWS_TEST_MESSAGE K |};
    {| row_on := true;
       row_first := MESSAGE_ID_CMAS_ALERT_PRESIDENTIAL_LEVEL K;
       row_last := MESSAGE_ID_CMAS_ALERT_PRESIDENTIAL_LEVEL K |};
    {| row_on := cmas_extreme f;
       row_first := MESSAGE_ID_CMAS_ALERT_EXTREME_EXPECTED_OBSERVED K;
       row_last := MESSAGE_ID_CMAS_ALERT_SEVERE_EXPECTED_LIKELY K |};
    {| row_on := cmas_amber f;
       row_first := MESSAGE_ID_CMAS_ALERT_CHILD_ABDUCTION_EMERGENCY K;
       row_last := MESSAGE_ID_CMAS_ALERT_CHILD_ABDUCTION_EMERGENCY K |};
    {| row_on := cmas_test f;
       row_first := MESSAGE_ID_CMAS_ALERT_REQUIRED_MONTHLY_TEST K;
       row_last := MESSAGE_ID_CMAS_ALERT_OPERATOR_DEFINED_USE K |};
    {| row_on := true;
       row_first := MESSAGE_ID_CMAS_ALERT_PRESIDENTIAL_LEVEL_LANGUAGE K;
       row_last := MESSAGE_ID_CMAS_ALERT_PRESIDENTIAL_LEVEL_LANGUAGE K |};
    {| row_on := cmas_extreme f;
       row_first := MESSAGE_ID_CMAS_ALERT_EXTREME_IMMEDIATE_OBSERVED_LANGUAGE K;
       row_last := MESSAGE_ID_CMAS_ALERT_EXTREME_IMMEDIATE_LIKELY_LANGUAGE K |};
    {| row_on := cmas_severe f;
       row_first := MESSAGE_ID_CMAS_ALERT_EXTREME_EXPECTED_OBSERVED_LANGUAGE K;
       row_last := MESSAGE_ID_CMAS_ALERT_SEVERE_EXPECTED_LIKELY_LANGUAGE K |};
    {| row_on := cmas_amber f;
       row_first := MESSAGE_ID_CMAS_ALERT_CHILD_ABDUCTION_EMERGENCY_LANGUAGE K;
       row_last := MESSAGE_ID_CMAS_ALERT_CHILD_ABDUCTION_EMERGENCY_LANGUAGE K |};
    {| row_on := cmas_test f;
       row_first := MESSAGE_ID_CMAS_ALERT_REQUIRED_MONTHLY_TEST_LANGUAGE K;
       row_last := MESSAGE_ID_CMAS_ALERT_OPERATOR_DEFINED_USE_LANGUAGE K |} ].

(** *** Comparing configurations *)

(** [Number.prototype.toString] on the integers the lists hold. *)
Definition number_toString (z : Z) : string :=
  NilZero.string_of_int (Z.to_int z).

(** [Array.prototype.toString], i.e. [join(",")]. *)
Fixpoint array_toString (l : list Z) : string :=
  match l with
  | [] => ""
  | x :: rest =>
    match rest with
    | [] => number_toString x
    | _ :: _ => (number_toString x ++ "," ++ array_toString rest)%string
    end
  end.

(** What a function of the script hands back when it either executes
    [return true] or runs off its end. *)
Inductive JsReturn : Type := JsTrue | JsUndefined.

Definition ToBoolean (v : JsReturn) : bool :=
  match v with JsTrue => true | JsUndefined => false end.

(** [_isDifferentConfig] *)
Definition _isDifferentConfig (aOld aNew : Config) : JsReturn :=
  if negb (Nat.eqb (List.length (gsm aOld)) (List.length (gsm aNew))) then JsTrue
  else if negb (Nat.eqb (List.length (cdma aOld)) (List.length (cdma aNew))) then JsTrue
  else if negb (String.eqb (array_toString (gsm aOld)) (array_toString (gsm aNew)))
  then JsTrue
  else if negb (String.eqb (array_toString (cdma aOld)) (array_toString (cdma aNew)))
  then JsTrue
  else JsUndefined.

(** Calls made on [gCellBroadcastService]. *)
Inductive ServiceCall : Type :=
| setCBSearchList (clientId : Z) (gsmCount : nat) (gsms : list Z)
                  (cdmaCount : nat) (cdmas : list Z).

Definition set_config (this : Handler) (config : Config) : Handler :=
  {| _clientId := _clientId this; _mccmnc := _mccmnc this; _config := config |}.

Definition set_mccmnc (this : Handler) (mccmnc : string) : Handler :=
  {| _clientId := _clientId this; _mccmnc := Some mccmnc; _config := _config this |}.

(** [_updateCellBroadcastConfig]: the handler afterwards and the calls it
    made on the broadcast service. *)
Definition _updateCellBroadcastConfig (this : Handler) : Handler * list ServiceCall :=
  match _mccmnc this with
  | None => (this, [])
  | Some _ =>
    if negb (getRadioInterface svc (_clientId this)) then (this, [])
    else
      let config := _getCellBroadcastConfig this in
      if ToBoolean (_isDifferentConfig (_config this) config) then
        (set_config this config,
         [setCBSearchList (_clientId this) (List.length (gsm config)) (gsm config)
                          (List.length (cdma config)) (cdma config)])
      else (this, [])
  end.

(** [this._icc.iccInfo] *)
Record IccInfo : Type := { mcc : string; mnc : string }.

Definition truthy_string (s : string) : bool := negb (String.eqb s "").

Definition same_mccmnc (old : option string) (mccmnc : string) : bool :=
  match old with
  | None => false
  | Some s => String.eqb s mccmnc
  end.

(** [notifyIccInfoChanged] *)
Definition notifyIccInfoChanged (iccInfo : option IccInfo) (this : Handler)
  : Handler * list ServiceCall :=
  match iccInfo with
  | None => (this, [])
  | Some info =>
    if truthy_string (mcc info) && truthy_string (mnc info) then
      let mccmnc := (mcc info ++ mnc info)%string in
      if negb (same_mccmnc (_mccmnc this) mccmnc) then
        _updateCellBroadcastConfig (set_mccmnc this mccmnc)
      else (this, [])
    else (this, [])
  end.

End GetConfig.

(** *** [GonkCellBroadcastConfigService] *)

Record Service : Type := { _handlers : list Handler }.

(** [getConfig] *)
Definition getConfig (this : Handler) : Config := _config this.

Inductive JsError : Type :=
| ReferenceError (name : string)
| NS_ERROR_NOT_AVAILABLE.

Inductive Completion (A : Type) : Type :=
| Normal (a : A)
| Throw (e : JsError).

Arguments Normal {A} a.
Arguments Throw {A} e.

(** Values bound to the identifiers a function body may mention. *)
Inductive JsValue : Type :=
| JsNumber (n : Z)
| JsObject.

Definition Environment : Type := list (string * JsValue).

Fixpoint lookup_binding (env : Environment) (name : string) : option JsValue :=
  match env with
  | [] => None
  | (n, v) :: rest => if String.eqb n name then Some v else lookup_binding rest name
  end.

(** Reading an identifier: a name with no binding in any enclosing scope
    is an unresolvable reference and reading it throws. *)
Definition ResolveBinding (env : Environment) (name : string) : Completion JsValue :=
  match lookup_binding env name with
  | Some v => Normal v
  | None => Throw (ReferenceError name)
  end.

(** The names bound at the top level of the script, or supplied by the
    component loader, for every function of the file. *)
Definition file_scope : list string :=
  [ "Components"; "Cc"; "Ci"; "Cu"; "Cr"; "XPCOMUtils"; "Services";
    "RIL"; "SMSCB";
    "GONK_CELLBROADCASTCONFIGSERVICE_CONTRACTID";
    "GONK_CELLBROADCASTCONFIGSERVICE_CID";
    "GONK_CELLBROADCASTCONFIGHANDLER_CID";
    "NS_XPCOM_SHUTDOWN_OBSERVER_ID"; "NS_PREFBRANCH_PREFCHANGE_TOPIC_ID";
    "gRadioInterfaceLayer"; "gCellBroadcastService"; "gCustomizationInfo";
    "gIccService"; "gSettingsService";
    "DEBUG"; "debug"; "dump"; "JSON";
    "GonkCellBroadcastConfigService"; "GonkCellBroadcastConfigHandler";
    "NSGetFactory" ].

(** [this._handlers[key]] *)
Definition handlers_get (handlers : list Handler) (key : JsValue) : option Handler :=
  match key with
  | JsNumber n => if n <? 0 then None else nth_error handlers (Z.to_nat n)
  | JsObject => None
  end.

(** The [.value] slots of the four out-parameters. *)
Record OutParams : Type := {
  aGsmCount_value : option nat;
  aGsms_value : option (list Z);
  aCdmaCount_value : option nat;
  aCdmas_value : option (list Z)
}.

(** The bindings of [file_scope]; their values play no part here. *)
Definition file_environment : Environment :=
  map (fun n => (n, JsObject)) file_scope.

(** [getCBSearchList(aClientId, aGsmCount, aGsms, aCdmaCount, aCdmas)]:
    how the call completes and the out-parameters afterwards.  [outer] is
    the environment that encloses the function. *)
Definition getCBSearchList (outer : Environment) (this : Service) (aClientId : Z)
                           (outs : OutParams)
  : Completion unit * OutParams :=
  let env : Environment :=
    [ ("aClientId", JsNumber aClientId); ("aGsmCount", JsObject);
      ("aGsms", JsObject); ("aCdmaCount", JsObject); ("aCdmas", JsObject) ]
    ++ outer in
  (* let handler = this._handlers[aCLientId]; *)
  match ResolveBinding env "aCLientId" with
  | Throw e => (Throw e, outs)
  | Normal key =>
    match handlers_get (_handlers this) key with
    | None => (Throw NS_ERROR_NOT_AVAILABLE, outs)
    | Some handler =>
      let config := getConfig handler in
      (Normal tt,
       {| aGsmCount_value := Some (List.length (gsm config));
          aGsms_value := Some (gsm config);
          aCdmaCount_value := Some (List.length (cdma config));
          aCdmas_value := Some (cdma config) |})
    end
  end.

(** [getCBDisabled] *)
Definition getCBDisabled (aClientId : Z) : bool := false.

End CellBroadcast.

(* --------------------------------------------------------------------- *)
(** ** Radio HAL request forwarder ([nsRilWorker])                         *)
(* --------------------------------------------------------------------- *)

Module Ril.

(** The only status the methods of [nsRilWorker] ever hand back is
    [NS_OK]; a second constructor stands for the failure codes of the
    platform. *)
Inductive nsresult : Type := NS_OK | NS_ERROR_FAILURE.

Definition INT32_MAX : Z := 2147483647.

(** [HIDL_SERVICE_NAME] *)
Definition HIDL_SERVICE_NAME : list string := ["slot1"; "slot2"; "slot3"].

Inductive MvnoType : Type := MvnoNONE | MvnoIMSI | MvnoGID | MvnoSPN.

(** A marshalled argument of a HAL call. *)
Inductive HalArg : Type :=
| AInt (z : Z)
| ABool (b : bool)
| AStr (s : string)
| ANull
| AUninit
| AMvno (m : MvnoType)
| AStruct (fields : list HalArg)
| AVec (elems : list HalArg).

(** A call on the [IRadio] proxy: the method and its arguments in order
    (the serial first, where the method has one). *)
Record HalCall : Type := { hal_method : string; hal_args : list HalArg }.

Definition hal (method : string) (args : list HalArg) : HalCall :=
  {| hal_method := method; hal_args := args |}.

Inductive LogLevel : Type := LvlINFO | LvlERROR.

(** A log line: level and format string (the formatted arguments are left
    out). *)
Record LogLine : Type := { lvl : LogLevel; fmt : string }.

(** What surrounds the worker: does [IRadio::getService(name)] hand out a
    proxy, does [linkToDeath] succeed, does the transport of a given proxy
    call succeed ([Return<>::isOk]), and what does the read
    [HIDL_SERVICE_NAME[i]] yield for an index [i] that is not one of the
    three entries (the code reads without a check and uses what it
    finds). *)
Record RadioHal : Type := {
  getService : string -> bool;
  linkToDeath : bool;
  transport_ok : HalCall -> bool;
  beyond_HIDL_SERVICE_NAME : Z -> string
}.

(** The members of [nsRilWorker]; a null pointer is [None] / [false]. *)
Record nsRilWorker : Type := {
  mRadioProxy : option string;
  mDeathRecipient : bool;
  mRilCallback : bool;
  mClientId : Z
}.

(** The worker together with what it has done so far: the log and the
    proxy calls that went out, each with the transport status it got. *)
Record State : Type := {
  self : nsRilWorker;
  log : list LogLine;
  sent : list (HalCall * bool)
}.

(** What stops a method half way: a call through a null proxy handle. *)
Inductive Fault : Type :=
| NullProxyCall (c : HalCall).

Inductive Outcome (A : Type) : Type :=
| Returned (a : A)
| Crashed (f : Fault).

Arguments Returned {A} a.
Arguments Crashed {A} f.

Definition M (A : Type) : Type := State -> Outcome A * State.

Definition ret {A : Type} (a : A) : M A := fun s => (Returned a, s).

Definition bind {A B : Type} (m : M A) (k : A -> M B) : M B :=
  fun s =>
    match m s with
    | (Returned a, s') => k a s'
    | (Crashed f, s') => (Crashed f, s')
    end.

#[local] Notation "x <- c ;; k" := (bind c (fun x => k))
  (at level 61, c at next level, right associativity).
#[local] Notation "c ;;; k" := (bind c (fun _ => k))
  (at level 61, right associativity).

Definition write_log (l : LogLevel) (text : string) : M unit :=
  fun s => (Returned tt,
            {| self := self s;
               log := log s ++ [ {| lvl := l; fmt := text |} ];
               sent := sent s |}).

Definition INFO : string -> M unit := write_log LvlINFO.
Definition ERROR : string -> M unit := write_log LvlERROR.

Definition get_self : M nsRilWorker := fun s => (Returned (self s), s).

Definition put_self (w : nsRilWorker) : M unit :=
  fun s => (Returned tt, {| self := w; log := log s; sent := sent s |}).

Definition set_mRadioProxy (p : option string) : M unit :=
  w <- get_self ;;
  put_self {| mRadioProxy := p; mDeathRecipient := mDeathRecipient w;
              mRilCallback := mRilCallback w; mClientId := mClientId w |}.

Definition set_mDeathRecipient (d : bool) : M unit :=
  w <- get_self ;;
  put_self {| mRadioProxy := mRadioProxy w; mDeathRecipient := d;
              mRilCallback := mRilCallback w; mClientId := mClientId w |}.

Definition set_mRilCallback (c : bool) : M unit :=
  w <- get_self ;;
  put_self {| mRadioProxy := mRadioProxy w; mDeathRecipient := mDeathRecipient w;
              mRilCallback := c; mClientId := mClientId w |}.

Definition is_null {A : Type} (p : option A) : bool :=
  match p with None => true | Some _ => false end.

(** What the getters of an [nsIDataProfile] answer. *)
Record DataProfile : Type := {
  profileId : Z;
  apn : string;
  protocol : string;
  roamingProtocol : string;
  authType : Z;
  user : string;
  password : string;
  type : Z;
  maxConnsTime : Z;
  maxConns : Z;
  waitTime : Z;
  enabled : bool;
  supportedApnTypesBitmap : Z;
  bearerBitmap : Z;
  mtu : Z;
  mvnoType : string;
  mvnoMatchData : string;
  modemCognitive : bool
}.

(** [nsRilWorker::convertToHalMvnoType] *)
Definition convertToHalMvnoType (mvnoType : string) : MvnoType :=
  if String.eqb "imsi" mvnoType then MvnoIMSI
  else if String.eqb "gid" mvnoType then MvnoGID
  else if String.eqb "spn" mvnoType then MvnoSPN
  else MvnoNONE.

(** [nsRilWorker::convertToHalDataProfile]: the fields of the
    [DataProfileInfo] in the order they are filled; the strings go through
    [NS_ConvertUTF16toUTF8(x).get()]. *)
Definition convertToHalDataProfile (profile : DataProfile) : HalArg :=
  AStruct
    [ AInt (profileId profile);
      AStr (c_str (apn profile));
      AStr (c_str (protocol profile));
      AStr (c_str (roamingProtocol profile));
      AInt (authType profile);
      AStr (c_str (user profile));
      AStr (c_str (password profile));
      AInt (type profile);
      AInt (maxConnsTime profile);
      AInt (maxConns profile);
      AInt (waitTime profile);
      ABool (enabled profile);
      AInt (supportedApnTypesBitmap profile);
      AInt (bearerBitmap profile);
      AInt (mtu profile);
      AMvno (convertToHalMvnoType (mvnoType profile));
      AStr (c_str (mvnoMatchData profile)) ].

(** The methods of [nsIRilWorker] the class implements, as data: one
    constructor per method, carrying the arguments of the call. *)
Inductive Request : Type :=
| SendRilRequest
| InitRil (callback : bool)
| SetRadioPower (serial : Z) (enabled : bool)
| GetDeviceIdentity (serial : Z)
| GetVoiceRegistrationState (serial : Z)
| GetDataRegistrationState (serial : Z)
| GetOperator (serial : Z)
| GetNetworkSelectionMode (serial : Z)
| GetSignalStrength (serial : Z)
| GetVoiceRadioTechnology (serial : Z)
| GetIccCardStatus (serial : Z)
| ReportSmsMemoryStatus (serial : Z) (available : bool)
| SetCellInfoListRate (serial : Z) (rateInMillis : Z)
| SetDataAllowed (serial : Z) (allowed : bool)
| GetBasebandVersion (serial : Z)
| SetUiccSubscription (serial slotId appIndex subId subStatus : Z)
| SetMute (serial : Z) (enableMute : bool)
| GetMute (serial : Z)
| GetSmscAddress (serial : Z)
| RequestDial (serial : Z) (address : string) (clirMode uusType uusDcs : Z)
              (uusData : string)
| GetCurrentCalls (serial : Z)
| HangupConnection (serial callIndex : Z)
| HangupWaitingOrBackground (serial : Z)
| HangupForegroundResumeBackground (serial : Z)
| SwitchWaitingOrHoldingAndActive (serial : Z)
| Conference (serial : Z)
| GetLastCallFailCause (serial : Z)
| AcceptCall (serial : Z)
| SetPreferredNetworkType (serial networkType : Z)
| GetPreferredNetworkType (serial : Z)
| SetNetworkSelectionModeAutomatic (serial : Z)
| SetNetworkSelectionModeManual (serial : Z) (operatorNumeric : string)
| GetAvailableNetworks (serial : Z)
| SetInitialAttachApn (serial : Z) (profile : DataProfile) (isRoaming : bool)
| SetupDataCall (serial radioTechnology : Z) (profile : DataProfile)
                (isRoaming allowRoaming : bool)
| DeactivateDataCall (serial cid reason : Z)
| GetDataCallList (serial : Z)
| GetCellInfoList (serial : Z)
| GetIMSI (serial : Z) (aid : string)
| IccIOForApp (serial command fileId : Z) (path : string) (p1 p2 p3 : Z)
              (data pin2 aid : string)
| GetClir (serial : Z)
| SetClir (serial clirMode : Z)
| SendDtmf (serial : Z) (dtmfChar : string)
| StartDtmf (serial : Z) (dtmfChar : string)
| StopDtmf (serial : Z)
| RejectCall (serial : Z)
| SendUssd (serial : Z) (ussd : string)
| CancelPendingUssd (serial : Z)
| GetCallForwardStatus (serial cfReason serviceClass : Z) (number : string)
                       (toaNumber : Z)
| SetCallForwardStatus (serial action cfReason serviceClass : Z)
                       (number : string) (toaNumber : Z)
| GetCallWaiting (serial serviceClass : Z)
| SetCallWaiting (serial : Z) (enable : bool) (serviceClass : Z)
| SetBarringPassword (serial : Z) (facility oldPwd newPwd : string)
| SeparateConnection (serial gsmIndex : Z)
| GetClip (serial : Z)
| ExplicitCallTransfer (serial : Z)
| GetNeighboringCids (serial : Z)
| SetTTYMode (serial ttyMode : Z)
| QueryTTYMode (serial : Z)
| ExitEmergencyCallbackMode (serial : Z)
| SupplyIccPinForApp (serial : Z) (pin aid : string)
| SupplyIccPin2ForApp (serial : Z) (pin aid : string)
| SupplyIccPukForApp (serial : Z) (puk newPin aid : string)
| SupplyIccPuk2ForApp (serial : Z) (puk newPin aid : string)
| SetFacilityLockForApp (serial : Z) (facility : string) (lockState : bool)
                        (password : string) (serviceClass : Z) (aid : string)
| GetFacilityLockForApp (serial : Z) (facility password : string)
                        (serviceClass : Z) (aid : string)
| ChangeIccPinForApp (serial : Z) (oldPin newPin aid : string)
| ChangeIccPin2ForApp (serial : Z) (oldPin newPin aid : string)
| ReportStkServiceIsRunning (serial : Z)
| SetGsmBroadcastActivation (serial : Z) (activate : bool)
| SetGsmBroadcastConfig (serial : Z) (ranges : list Z).

(** The methods whose body reaches for the Radio HAL proxy to pass the
    request on; the other four never touch the proxy call path. *)
Definition is_forwarder (r : Request) : bool :=
  match r with
  | SendRilRequest | InitRil _
  | SetGsmBroadcastActivation _ _ | SetGsmBroadcastConfig _ _ => false
  | _ => true
  end.

Section WithHal.

Variable radio : RadioHal.

(** [mRadioProxy->method(args)]: through a null handle the call faults;
    otherwise it goes out and its transport status comes back. *)
Definition proxy_call (c : HalCall) : M bool :=
  fun s =>
    match mRadioProxy (self s) with
    | None => (Crashed (NullProxyCall c), s)
    | Some _ =>
      (Returned (transport_ok radio c),
       {| self := self s; log := log s;
          sent := sent s ++ [(c, transport_ok radio c)] |})
    end.

(** [HIDL_SERVICE_NAME[mClientId]]: the index is not checked. *)
Definition service_name (clientId : Z) : M string :=
  fun s =>
    if clientId <? 0 then (Returned (beyond_HIDL_SERVICE_NAME radio clientId), s)
    else match nth_error HIDL_SERVICE_NAME (Z.to_nat clientId) with
         | Some n => (Returned n, s)
         | None => (Returned (beyond_HIDL_SERVICE_NAME radio clientId), s)
         end.

(** [nsRilWorker::GetRadioProxy] *)
Definition GetRadioProxy : M unit :=
  w <- get_self ;;
  if negb (is_null (mRadioProxy w)) then ret tt
  else
    INFO "GetRadioProxy" ;;;
    name <- service_name (mClientId w) ;;
    set_mRadioProxy (if getService radio name then Some name else None) ;;;
    w <- get_self ;;
    if negb (is_null (mRadioProxy w)) then
      (if negb (mDeathRecipient w) then set_mDeathRecipient true else ret tt) ;;;
      w <- get_self ;;
      (if mDeathRecipient w then
         linked <- proxy_call (hal "linkToDeath" [AInt 0]) ;;
         if negb (linkToDeath radio) || negb linked
         then ERROR "Failed to link to radio hal death notifications"
         else ret tt
       else ret tt) ;;;
      INFO "setResponseFunctions" ;;;
      _ <- proxy_call (hal "setResponseFunctions" []) ;;
      ret tt
    else
      ERROR "Get Radio hal failed".

(** The body every forwarding method shares: log the request, fetch the
    proxy, log an error when there is none, make the call, drop the
    [Return<>] it yields and answer [NS_OK]. *)
Definition forward (info : string) (c : HalCall) : M nsresult :=
  INFO info ;;;
  GetRadioProxy ;;;
  w <- get_self ;;
  (if is_null (mRadioProxy w) then ERROR "No Radio HAL exist" else ret tt) ;;;
  _ <- proxy_call c ;;
  ret NS_OK.

(** [nsRilWorker::sendAck] *)
Definition sendAck : M unit :=
  INFO "sendAck" ;;;
  GetRadioProxy ;;;
  w <- get_self ;;
  if negb (is_null (mRadioProxy w)) then
    _ <- proxy_call (hal "responseAcknowledgement" []) ;;
    ret tt
  else
    ERROR "sendAck mRadioProxy == nullptr".

Inductive RadioIndicationType : Type := UNSOLICITED | UNSOLICITED_ACK_EXP.
Inductive RadioResponseType : Type := SOLICITED | SOLICITED_ACK | SOLICITED_ACK_EXP.

(** [nsRilWorker::processIndication] *)
Definition processIndication (indicationType : RadioIndicationType) : M unit :=
  INFO "processIndication, type= %d" ;;;
  match indicationType with
  | UNSOLICITED_ACK_EXP =>
    sendAck ;;; INFO "Unsol response received; Sending ack to ril.cpp"
  | UNSOLICITED => ret tt
  end.

(** [nsRilWorker::processResponse] *)
Definition processResponse (responseType : RadioResponseType) : M unit :=
  INFO "processResponse, type= %d" ;;;
  match responseType with
  | SOLICITED_ACK_EXP =>
    sendAck ;;; INFO "Solicited response received; Sending ack to ril.cpp"
  | _ => ret tt
  end.

(** The HAL call a forwarding method marshals its arguments into.  Every
    string argument is handed over as [NS_ConvertUTF16toUTF8(x).get()]. *)
Definition marshal (r : Request) : option HalCall :=
  match r with
  | SendRilRequest => None
  | InitRil _ => None
  | SetRadioPower serial enabled =>
    Some (hal "setRadioPower" [AInt serial; ABool enabled])
  | GetDeviceIdentity serial => Some (hal "getDeviceIdentity" [AInt serial])
  | GetVoiceRegistrationState serial =>
    Some (hal "getVoiceRegistrationState" [AInt serial])
  | GetDataRegistrationState serial =>
    Some (hal "getDataRegistrationState" [AInt serial])
  | GetOperator serial => Some (hal "getOperator" [AInt serial])
  | GetNetworkSelectionMode serial =>
    Some (hal "getNetworkSelectionMode" [AInt serial])
  | GetSignalStrength serial => Some (hal "getSignalStrength" [AInt serial])
  | GetVoiceRadioTechnology serial =>
    Some (hal "getVoiceRadioTechnology" [AInt serial])
  | GetIccCardStatus serial => Some (hal "getIccCardStatus" [AInt serial])
  | ReportSmsMemoryStatus serial available =>
    Some (hal "reportSmsMemoryStatus" [AInt serial; ABool available])
  | SetCellInfoListRate serial rateInMillis =>
    let rateInMillis := if rateInMillis =? 0 then INT32_MAX else rateInMillis in
    Some (hal "setCellInfoListRate" [AInt serial; AInt rateInMillis])
  | SetDataAllowed serial allowed =>
    Some (hal "setDataAllowed" [AInt serial; ABool allowed])
  | GetBasebandVersion serial => Some (hal "getBasebandVersion" [AInt serial])
  | SetUiccSubscription serial slotId appIndex subId subStatus =>
    let info := AStruct [AInt slotId; AInt appIndex; AInt subId; AInt subStatus] in
    Some (hal "setUiccSubscription" [AInt serial; info])
  | SetMute serial enableMute =>
    Some (hal "setMute" [AInt serial; ABool enableMute])
  | GetMute serial => Some (hal "getMute" [AInt serial])
  | GetSmscAddress serial => Some (hal "getSmscAddress" [AInt serial])
  | RequestDial serial address clirMode uusType uusDcs uusData =>
    let info :=
      AStruct [AInt uusType; AInt uusDcs;
               if (String.length uusData =? 0)%nat then ANull else AStr (c_str uusData)] in
    let uusInfo := AVec [info] in
    let dialInfo := AStruct [AStr (c_str address); AInt clirMode; uusInfo] in
    Some (hal "dial" [AInt serial; dialInfo])
  | GetCurrentCalls serial => Some (hal "getCurrentCalls" [AInt serial])
  | HangupConnection serial callIndex =>
    Some (hal "hangup" [AInt serial; AInt callIndex])
  | HangupWaitingOrBackground serial =>
    Some (hal "hangupWaitingOrBackground" [AInt serial])
  | HangupForegroundResumeBackground serial =>
    Some (hal "hangupForegroundResumeBackground" [AInt serial])
  | SwitchWaitingOrHoldingAndActive serial =>
    Some (hal "switchWaitingOrHoldingAndActive" [AInt serial])
  | Conference serial => Some (hal "conference" [AInt serial])
  | GetLastCallFailCause serial =>
    Some (hal "getLastCallFailCause" [AInt serial])
  | AcceptCall serial => Some (hal "acceptCall" [AInt serial])
  | SetPreferredNetworkType serial networkType =>
    Some (hal "setPreferredNetworkType" [AInt serial; AInt networkType])
  | GetPreferredNetworkType serial =>
    Some (hal "getPreferredNetworkType" [AInt serial])
  | SetNetworkSelectionModeAutomatic serial =>
    Some (hal "setNetworkSelectionModeAutomatic" [AInt serial])
  | SetNetworkSelectionModeManual serial operatorNumeric =>
    Some (hal "setNetworkSelectionModeManual" [AInt serial; AStr (c_str operatorNumeric)])
  | GetAvailableNetworks serial =>
    Some (hal "getAvailableNetworks" [AInt serial])
  | SetInitialAttachApn serial profile isRoaming =>
    Some (hal "setInitialAttachApn"
              [AInt serial; convertToHalDataProfile profile;
               ABool (modemCognitive profile); ABool isRoaming])
  | SetupDataCall serial radioTechnology profile isRoaming allowRoaming =>
    Some (hal "setupDataCall"
              [AInt serial; AInt radioTechnology; convertToHalDataProfile profile;
               ABool (modemCognitive profile); ABool allowRoaming; ABool isRoaming])
  | DeactivateDataCall serial cid reason =>
    Some (hal "deactivateDataCall"
              [AInt serial; AInt cid; ABool (if reason =? 0 then false else true)])
  | GetDataCallList serial => Some (hal "getDataCallList" [AInt serial])
  | GetCellInfoList serial => Some (hal "getCellInfoList" [AInt serial])
  | GetIMSI serial aid => Some (hal "getImsiForApp" [AInt serial; AStr (c_str aid)])
  | IccIOForApp serial command fileId path p1 p2 p3 data pin2 aid =>
    let iccIo :=
      AStruct [AInt command; AInt fileId; AStr (c_str path); AInt p1; AInt p2; AInt p3;
               AStr (c_str data); AStr (c_str pin2); AStr (c_str aid)] in
    Some (hal "iccIOForApp" [AInt serial; iccIo])
  | GetClir serial => Some (hal "getClir" [AInt serial])
  | SetClir serial clirMode => Some (hal "setClir" [AInt serial; AInt clirMode])
  | SendDtmf serial dtmfChar => Some (hal "sendDtmf" [AInt serial; AStr (c_str dtmfChar)])
  | StartDtmf serial dtmfChar => Some (hal "startDtmf" [AInt serial; AStr (c_str dtmfChar)])
  | StopDtmf serial => Some (hal "stopDtmf" [AInt serial])
  | RejectCall serial => Some (hal "rejectCall" [AInt serial])
  | SendUssd serial ussd => Some (hal "sendUssd" [AInt serial; AStr (c_str ussd)])
  | CancelPendingUssd serial => Some (hal "cancelPendingUssd" [AInt serial])
  | GetCallForwardStatus serial cfReason serviceClass number toaNumber =>
    (* cfInfo.status is left unset *)
    let cfInfo :=
      AStruct [AUninit; AInt cfReason; AInt serviceClass; AInt toaNumber;
               AStr (c_str number); AInt 0] in
    Some (hal "getCallForwardStatus" [AInt serial; cfInfo])
  | SetCallForwardStatus serial action cfReason serviceClass number toaNumber =>
    let cfInfo :=
      AStruct [AInt action; AInt cfReason; AInt serviceClass; AInt toaNumber;
               AStr (c_str number); AInt 0] in
    Some (hal "getCallForwardStatus" [AInt serial; cfInfo])
  | GetCallWaiting serial serviceClass =>
    Some (hal "getCallWaiting" [AInt serial; AInt serviceClass])
  | SetCallWaiting serial enable serviceClass =>
    Some (hal "setCallWaiting" [AInt serial; ABool enable; AInt serviceClass])
  | SetBarringPassword serial facility oldPwd newPwd =>
    Some (hal "setBarringPassword"
              [AInt serial; AStr (c_str facility); AStr (c_str oldPwd); AStr (c_str newPwd)])
  | SeparateConnection serial gsmIndex =>
    Some (hal "separateConnection" [AInt serial; AInt gsmIndex])
  | GetClip serial => Some (hal "getClip" [AInt serial])
  | ExplicitCallTransfer serial =>
    Some (hal "explicitCallTransfer" [AInt serial])
  | GetNeighboringCids serial => Some (hal "getNeighboringCids" [AInt serial])
  | SetTTYMode serial ttyMode =>
    Some (hal "setTTYMode" [AInt serial; AInt ttyMode])
  | QueryTTYMode serial => Some (hal "getTTYMode" [AInt serial])
  | ExitEmergencyCallbackMode serial =>
    Some (hal "exitEmergencyCallbackMode" [AInt serial])
  | SupplyIccPinForApp serial pin aid =>
    Some (hal "supplyIccPinForApp" [AInt serial; AStr (c_str pin); AStr (c_str aid)])
  | SupplyIccPin2ForApp serial pin aid =>
    Some (hal "supplyIccPin2ForApp" [AInt serial; AStr (c_str pin); AStr (c_str aid)])
  | SupplyIccPukForApp serial puk newPin aid =>
    Some (hal "supplyIccPukForApp" [AInt serial; AStr (c_str puk); AStr (c_str newPin); AStr (c_str aid)])
  | SupplyIccPuk2ForApp serial puk newPin aid =>
    Some (hal "supplyIccPuk2ForApp" [AInt serial; AStr (c_str puk); AStr (c_str newPin); AStr (c_str aid)])
  | SetFacilityLockForApp serial facility lockState password serviceClass aid =>
    Some (hal "setFacilityLockForApp"
              [AInt serial; AStr (c_str facility); ABool lockState; AStr (c_str password);
               AInt serviceClass; AStr (c_str aid)])
  | GetFacilityLockForApp serial facility password serviceClass aid =>
    Some (hal "getFacilityLockForApp"
              [AInt serial; AStr (c_str facility); AStr (c_str password); AInt serviceClass;
               AStr (c_str aid)])
  | ChangeIccPinForApp serial oldPin newPin aid =>
    Some (hal "changeIccPinForApp"
              [AInt serial; AStr (c_str oldPin); AStr (c_str newPin); AStr (c_str aid)])
  | ChangeIccPin2ForApp serial oldPin newPin aid =>
    Some (hal "changeIccPin2ForApp"
              [AInt serial; AStr (c_str oldPin); AStr (c_str newPin); AStr (c_str aid)])
  | ReportStkServiceIsRunning serial =>
    Some (hal "reportStkServiceIsRunning" [AInt serial])
  | SetGsmBroadcastActivation _ _ => None
  | SetGsmBroadcastConfig _ _ => None
  end.

(** The request line each method logs first. *)
Definition request_line (r : Request) : string :=
  match r with
  | SendRilRequest | InitRil _ => ""
  | SetRadioPower _ _ => "nsRilWorker: [%d] > RIL_REQUEST_RADIO_POWER on = %d"
  | GetDeviceIdentity _ => "nsRilWorker: [%d] > RIL_REQUEST_DEVICE_IDENTITY"
  | GetVoiceRegistrationState _ =>
    "nsRilWorker: [%d] > RIL_REQUEST_VOICE_REGISTRATION_STATE"
  | GetDataRegistrationState _ =>
    "nsRilWorker: [%d] > RIL_REQUEST_DATA_REGISTRATION_STATE"
  | GetOperator _ => "nsRilWorker: [%d] > RIL_REQUEST_OPERATOR"
  | GetNetworkSelectionMode _ =>
    "nsRilWorker: [%d] > RIL_REQUEST_QUERY_NETWORK_SELECTION_MODE"
  | GetSignalStrength _ => "nsRilWorker: [%d] > RIL_REQUEST_SIGNAL_STRENGTH"
  | GetVoiceRadioTechnology _ => "nsRilWorker: [%d] > RIL_REQUEST_VOICE_RADIO_TECH"
  | GetIccCardStatus _ => "nsRilWorker: [%d] > RIL_REQUEST_GET_SIM_STATUS"
  | ReportSmsMemoryStatus _ _ =>
    "nsRilWorker: [%d] > RIL_REQUEST_REPORT_SMS_MEMORY_STATUS available = %d"
  | SetCellInfoListRate _ _ =>
    "nsRilWorker: [%d] > RIL_REQUEST_SET_CELL_INFO_LIST_RATE rateInMillis = %d"
  | SetDataAllowed _ _ => "nsRilWorker: [%d] > RIL_REQUEST_ALLOW_DATA allowed = %d"
  | GetBasebandVersion _ => "nsRilWorker: [%d] > RIL_REQUEST_BASEBAND_VERSION"
  | SetUiccSubscription _ _ _ _ _ =>
    "nsRilWorker: [%d] > RIL_REQUEST_SET_UICC_SUBSCRIPTION slotId = %d appIndex = %d subId = %d subStatus = %d"
  | SetMute _ _ => "nsRilWorker: [%d] > RIL_REQUEST_SET_MUTE enableMute = %d"
  | GetMute _ => "nsRilWorker: [%d] > RIL_REQUEST_GET_MUTE "
  | GetSmscAddress _ => "nsRilWorker: [%d] > RIL_REQUEST_GET_SMSC_ADDRESS"
  | RequestDial _ _ _ _ _ _ => "nsRilWorker: [%d] > RIL_REQUEST_DIAL"
  | GetCurrentCalls _ => "nsRilWorker: [%d] > RIL_REQUEST_GET_CURRENT_CALLS"
  | HangupConnection _ _ => "nsRilWorker: [%d] > RIL_REQUEST_HANGUP callIndex = %d"
  | HangupWaitingOrBackground _ =>
    "nsRilWorker: [%d] > RIL_REQUEST_HANGUP_WAITING_OR_BACKGROUND"
  | HangupForegroundResumeBackground _ =>
    "nsRilWorker: [%d] > RIL_REQUEST_HANGUP_FOREGROUND_RESUME_BACKGROUND"
  | SwitchWaitingOrHoldingAndActive _ =>
    "nsRilWorker: [%d] > RIL_REQUEST_SWITCH_WAITING_OR_HOLDING_AND_ACTIVE"
  | Conference _ => "nsRilWorker: [%d] > RIL_REQUEST_CONFERENCE"
  | GetLastCallFailCause _ => "nsRilWorker: [%d] > RIL_REQUEST_LAST_CALL_FAIL_CAUSE"
  | AcceptCall _ => "nsRilWorker: [%d] > RIL_REQUEST_ANSWER"
  | SetPreferredNetworkType _ _ =>
    "nsRilWorker: [%d] > RIL_REQUEST_SET_PREFERRED_NETWORK_TYPE networkType=%d"
  | GetPreferredNetworkType _ =>
    "nsRilWorker: [%d] > RIL_REQUEST_GET_PREFERRED_NETWORK_TYPE"
  | SetNetworkSelectionModeAutomatic _ =>
    "nsRilWorker: [%d] > RIL_REQUEST_SET_NETWORK_SELECTION_AUTOMATIC"
  | SetNetworkSelectionModeManual _ _ =>
    "nsRilWorker: [%d] > RIL_REQUEST_SET_NETWORK_SELECTION_MANUAL operatorNumeric = %s"
  | GetAvailableNetworks _ =>
    "nsRilWorker: [%d] > RIL_REQUEST_QUERY_AVAILABLE_NETWORKS"
  | SetInitialAttachApn _ _ _ =>
    "nsRilWorker: [%d] > RIL_REQUEST_SET_INITIAL_ATTACH_APN"
  | SetupDataCall _ _ _ _ _ => "nsRilWorker: [%d] > RIL_REQUEST_SETUP_DATA_CALL"
  | DeactivateDataCall _ _ _ =>
    "nsRilWorker: [%d] > RIL_REQUEST_DEACTIVATE_DATA_CALL"
  | GetDataCallList _ => "nsRilWorker: [%d] > RIL_REQUEST_DATA_CALL_LIST"
  | GetCellInfoList _ => "nsRilWorker: [%d] > RIL_REQUEST_GET_CELL_INFO_LIST"
  | GetIMSI _ _ => "nsRilWorker: [%d] > RIL_REQUEST_GET_IMSI aid = %s"
  | IccIOForApp _ _ _ _ _ _ _ _ _ _ =>
    "nsRilWorker: [%d] > RIL_REQUEST_SIM_IO command = %d, fileId = %d, path = %s, p1 = %d, p2 = %d, p3 = %d, data = %s, pin2 = %s, aid = %s"
  | GetClir _ => "nsRilWorker: [%d] > RIL_REQUEST_GET_CLIR"
  | SetClir _ _ => "nsRilWorker: [%d] > RIL_REQUEST_SET_CLIR clirMode = %d"
  | SendDtmf _ _ => "nsRilWorker: [%d] > RIL_REQUEST_DTMF dtmfChar = %s"
  | StartDtmf _ _ => "nsRilWorker: [%d] > RIL_REQUEST_DTMF_START dtmfChar = %s"
  | StopDtmf _ => "nsRilWorker: [%d] > RIL_REQUEST_DTMF_STOP"
  | RejectCall _ => "nsRilWorker: [%d] > RIL_REQUEST_UDUB"
  | SendUssd _ _ => "nsRilWorker: [%d] > RIL_REQUEST_SEND_USSD ussd = %s"
  | CancelPendingUssd _ => "nsRilWorker: [%d] > RIL_REQUEST_CANCEL_USSD"
  | GetCallForwardStatus _ _ _ _ _ =>
    "nsRilWorker: [%d] > RIL_REQUEST_QUERY_CALL_FORWARD_STATUS cfReason = %d , serviceClass = %d, number = %s"
  | SetCallForwardStatus _ _ _ _ _ _ =>
    "nsRilWorker: [%d] > RIL_REQUEST_SET_CALL_FORWARD action = %d, cfReason = %d , serviceClass = %d, number = %s"
  | GetCallWaiting _ _ =>
    "nsRilWorker: [%d] > RIL_REQUEST_QUERY_CALL_WAITING serviceClass = %d"
  | SetCallWaiting _ _ _ =>
    "nsRilWorker: [%d] > RIL_REQUEST_SET_CALL_WAITING enable = %d, serviceClass = %d"
  | SetBarringPassword _ _ _ _ =>
    "nsRilWorker: [%d] > RIL_REQUEST_CHANGE_BARRING_PASSWORD facility = %s, oldPwd = %s, newPwd = %s"
  | SeparateConnection _ _ =>
    "nsRilWorker: [%d] > RIL_REQUEST_SEPARATE_CONNECTION gsmIndex = %d"
  | GetClip _ => "nsRilWorker: [%d] > RIL_REQUEST_QUERY_CLIP"
  | ExplicitCallTransfer _ =>
    "nsRilWorker: [%d] > RIL_REQUEST_EXPLICIT_CALL_TRANSFER"
  | GetNeighboringCids _ =>
    "nsRilWorker: [%d] > RIL_REQUEST_GET_NEIGHBORING_CELL_IDS"
  | SetTTYMode _ _ => "nsRilWorker: [%d] > RIL_REQUEST_SET_TTY_MODE ttyMode = %d"
  | QueryTTYMode _ => "nsRilWorker: [%d] > RIL_REQUEST_QUERY_TTY_MODE "
  | ExitEmergencyCallbackMode _ =>
    "nsRilWorker: [%d] > RIL_REQUEST_EXIT_EMERGENCY_CALLBACK_MODE "
  | SupplyIccPinForApp _ _ _ =>
    "nsRilWorker: [%d] > RIL_REQUEST_ENTER_SIM_PIN pin = %s , aid = %s"
  | SupplyIccPin2ForApp _ _ _ =>
    "nsRilWorker: [%d] > RIL_REQUEST_ENTER_SIM_PIN2 pin = %s , aid = %s"
  | SupplyIccPukForApp _ _ _ _ =>
    "nsRilWorker: [%d] > RIL_REQUEST_ENTER_SIM_PUK puk = %s , newPin = %s ,aid = %s"
  | SupplyIccPuk2ForApp _ _ _ _ =>
    "nsRilWorker: [%d] > RIL_REQUEST_ENTER_SIM_PUK2 puk = %s , newPin = %s ,aid = %s"
  | SetFacilityLockForApp _ _ _ _ _ _ =>
    "nsRilWorker: [%d] > RIL_REQUEST_SET_FACILITY_LOCK "
  | GetFacilityLockForApp _ _ _ _ _ =>
    "nsRilWorker: [%d] > RIL_REQUEST_GET_FACILITY_LOCK "
  | ChangeIccPinForApp _ _ _ _ =>
    "nsRilWorker: [%d] > RIL_REQUEST_CHANGE_SIM_PIN oldPin = %s , newPin = %s ,aid = %s"
  | ChangeIccPin2ForApp _ _ _ _ =>
    "nsRilWorker: [%d] > RIL_REQUEST_CHANGE_SIM_PIN2 oldPin = %s , newPin = %s ,aid = %s"
  | ReportStkServiceIsRunning _ =>
    "nsRilWorker: [%d] > RIL_REQUEST_REPORT_STK_SERVICE_IS_RUNNING "
  | SetGsmBroadcastActivation _ _ =>
    "nsRilWorker: [%d] > RIL_REQUEST_GSM_BROADCAST_ACTIVATION "
  | SetGsmBroadcastConfig _ _ =>
    "nsRilWorker: [%d] > RIL_REQUEST_GSM_SET_BROADCAST_CONFIG "
  end.

(** Running a method of the worker. *)
Definition invoke (r : Request) : M nsresult :=
  match r with
  | SendRilRequest => ret NS_OK
  | InitRil callback =>
    set_mRilCallback callback ;;;
    GetRadioProxy ;;;
    ret NS_OK
  | SetGsmBroadcastActivation _ _ | SetGsmBroadcastConfig _ _ =>
    INFO (request_line r) ;;;
    ret NS_OK
  | _ =>
    match marshal r with
    | Some c => forward (request_line r) c
    | None => ret NS_OK
    end
  end.

End WithHal.

(** The serial number a request method is handed, for the methods that
    take one. *)
Definition serial_of (r : Request) : option Z :=
  match r with
  | SendRilRequest | InitRil _ => None
  | SetRadioPower serial _ | GetDeviceIdentity serial
  | GetVoiceRegistrationState serial | GetDataRegistrationState serial
  | GetOperator serial | GetNetworkSelectionMode serial
  | GetSignalStrength serial | GetVoiceRadioTechnology serial
  | GetIccCardStatus serial | ReportSmsMemoryStatus serial _
  | SetCellInfoListRate serial _ | SetDataAllowed serial _
  | GetBasebandVersion serial | SetUiccSubscription serial _ _ _ _
  | SetMute serial _ | GetMute serial | GetSmscAddress serial
  | RequestDial serial _ _ _ _ _ | GetCurrentCalls serial
  | HangupConnection serial _ | HangupWaitingOrBackground serial
  | HangupForegroundResumeBackground serial
  | SwitchWaitingOrHoldingAndActive serial | Conference serial
  | GetLastCallFailCause serial | AcceptCall serial
  | SetPreferredNetworkType serial _ | GetPreferredNetworkType serial
  | SetNetworkSelectionModeAutomatic serial
  | SetNetworkSelectionModeManual serial _ | GetAvailableNetworks serial
  | SetInitialAttachApn serial _ _ | SetupDataCall serial _ _ _ _
  | DeactivateDataCall serial _ _ | GetDataCallList serial
  | GetCellInfoList serial | GetIMSI serial _
  | IccIOForApp serial _ _ _ _ _ _ _ _ _ | GetClir serial | SetClir serial _
  | SendDtmf serial _ | StartDtmf serial _ | StopDtmf serial
  | RejectCall serial | SendUssd serial _ | CancelPendingUssd serial
  | GetCallForwardStatus serial _ _ _ _ | SetCallForwardStatus serial _ _ _ _ _
  | GetCallWaiting serial _ | SetCallWaiting serial _ _
  | SetBarringPassword serial _ _ _ | SeparateConnection serial _
  | GetClip serial | ExplicitCallTransfer serial | GetNeighboringCids serial
  | SetTTYMode serial _ | QueryTTYMode serial | ExitEmergencyCallbackMode serial
  | SupplyIccPinForApp serial _ _ | SupplyIccPin2ForApp serial _ _
  | SupplyIccPukForApp serial _ _ _ | SupplyIccPuk2ForApp serial _ _ _
  | SetFacilityLockForApp serial _ _ _ _ _ | GetFacilityLockForApp serial _ _ _ _
  | ChangeIccPinForApp serial _ _ _ | ChangeIccPin2ForApp serial _ _ _
  | ReportStkServiceIsRunning serial
  | SetGsmBroadcastActivation serial _ | SetGsmBroadcastConfig serial _ =>
    Some serial
  end.

(** *** Handing results to the main thread *)

(** What the response and indication sinks hand to the worker: the fields
    the worker itself reads. *)
Record nsRilIndicationResult : Type := { ind_mRilMessageType : string }.

Record nsRilResponseResult : Type := {
  mRilMessageToken : Z;
  resp_mRilMessageType : string
}.

(** [RilResultDispatcher]: the members a runnable carries; a null pointer
    is [None]. *)
Record RilResultDispatcher : Type := {
  mResponse : option nsRilResponseResult;
  mIndication : option nsRilIndicationResult
}.

(** Calls received by [mRilCallback]. *)
Inductive CallbackCall : Type :=
| HandleRilResponse (aResponse : nsRilResponseResult)
| HandleRilIndication (aIndication : nsRilIndicationResult).

(** The worker next to the main thread: the runnables that wait there, in
    the order they were dispatched, and what the callback has received. *)
Record Threads : Type := {
  worker : State;
  main_thread : list RilResultDispatcher;
  handled : list CallbackCall
}.

Definition log_line (l : LogLevel) (text : string) (th : Threads) : Threads :=
  {| worker := snd (write_log l text (worker th));
     main_thread := main_thread th;
     handled := handled th |}.

(** [NS_DispatchToMainThread(runnable)] *)
Definition NS_DispatchToMainThread (runnable : RilResultDispatcher) (th : Threads)
  : Threads :=
  {| worker := worker th;
     main_thread := main_thread th ++ [runnable];
     handled := handled th |}.

Definition callback_receives (c : CallbackCall) (th : Threads) : Threads :=
  {| worker := worker th;
     main_thread := main_thread th;
     handled := handled th ++ [c] |}.

(** The two constructors of [RilResultDispatcher]. *)
Definition RilResultDispatcher_indication (aIndication : nsRilIndicationResult)
                                          (th : Threads)
  : RilResultDispatcher * Threads :=
  ({| mResponse := None; mIndication := Some aIndication |},
   log_line LvlINFO "RilResultDispatcher nsRilIndicationResult" th).

Definition RilResultDispatcher_response (aResponse : nsRilResponseResult)
                                        (th : Threads)
  : RilResultDispatcher * Threads :=
  ({| mResponse := Some aResponse; mIndication := None |},
   log_line LvlINFO "RilResultDispatcher nsRilResponseResult" th).

(** [RilResultDispatcher::Run], on the main thread.  [mRil] is the worker
    that made the runnable and is not null there. *)
Definition Run (this : RilResultDispatcher) (th : Threads) : nsresult * Threads :=
  if mRilCallback (self (worker th)) then
    match mResponse this with
    | Some aResponse => (NS_OK, callback_receives (HandleRilResponse aResponse) th)
    | None =>
      match mIndication this with
      | Some aIndication =>
        (NS_OK, callback_receives (HandleRilIndication aIndication) th)
      | None => (NS_OK, log_line LvlINFO "RilIndicationResultDispatcher: no result" th)
      end
    end
  else
    (NS_OK, log_line LvlINFO "RilIndicationResultDispatcher: no mRIL or callback" th).

(** [nsRilWorker::sendRilIndicationResult] *)
Definition sendRilIndicationResult (aIndication : nsRilIndicationResult)
                                   (th : Threads) : Threads :=
  let th := log_line LvlINFO "nsRilWorker: [USOL]< %s" th in
  let (runnable, th) := RilResultDispatcher_indication aIndication th in
  let th := NS_DispatchToMainThread runnable th in
  log_line LvlINFO "IndicationResult.mRilMessageType done." th.

(** [nsRilWorker::sendRilResponseResult] *)
Definition sendRilResponseResult (aResponse : nsRilResponseResult)
                                 (th : Threads) : Threads :=
  let th := log_line LvlINFO "nsRilWorker: [%d] < %s" th in
  if 0 <? mRilMessageToken aResponse then
    let (runnable, th) := RilResultDispatcher_response aResponse th in
    let th := NS_DispatchToMainThread runnable th in
    log_line LvlINFO "ResponseResult.mRilMessageType done." th
  else
    log_line LvlINFO "ResponseResult internal reqeust." th.

(** The main thread of the platform, which runs the runnables it was
    handed one after the other in the order of their dispatch. *)
Definition main_thread_runs (th : Threads) : Threads :=
  fold_left (fun th runnable => snd (Run runnable th)) (main_thread th)
            {| worker := worker th; main_thread := []; handled := handled th |}.

End Ril.

(* --------------------------------------------------------------------- *)
(** ** Wi-Fi orchestrator ([WifiNative])                                   *)
(* --------------------------------------------------------------------- *)

Module Wifi.

(** Modelled from the spec: the result enum [nsIWifiResult] behind
    [Result_t], declared outside the sources at hand.  The spec names
    [SUCCESS], [ERROR_UNKNOWN] and [ERROR_COMMAND_FAILED] and leaves the
    other members of the "small fixed result enum" open; they are kept as
    [ERROR_OTHER] with their numeric code. *)
Inductive Result_t : Type :=
| SUCCESS
| ERROR_COMMAND_FAILED
| ERROR_UNKNOWN
| ERROR_OTHER (code : Z).

Definition Result_eqb (a b : Result_t) : bool :=
  match a, b with
  | SUCCESS, SUCCESS => true
  | ERROR_COMMAND_FAILED, ERROR_COMMAND_FAILED => true
  | ERROR_UNKNOWN, ERROR_UNKNOWN => true
  | ERROR_OTHER x, ERROR_OTHER y => x =? y
  | _, _ => false
  end.

Notation "a != b" := (negb (Result_eqb a b)) (at level 70, no associativity).

(** Modelled from the spec: the macro [CHECK_SUCCESS], defined outside the
    sources at hand; a true condition is [SUCCESS], "ran out of retries"
    is a failure, for which the command-failed member is taken. *)
Definition CHECK_SUCCESS (condition : bool) : Result_t :=
  if condition then SUCCESS else ERROR_COMMAND_FAILED.

Definition CONNECTION_RETRY_INTERVAL_US : Z := 100000.
Definition CONNECTION_RETRY_TIMES : Z := 50.

(** [wifiNameSpace::IfaceType] *)
Inductive IfaceType : Type := STA | AP.

(** Payload records, with the fields the orchestrator itself reads. *)
Record ConfigurationOptions : Type := { mSsid : string }.
Record SoftapConfigurationOptions : Type := { mSoftapCountryCode : string }.
Record ScanSettingsOptions : Type := { mScanType : Z }.
Record SupplicantDebugLevelOptions : Type := { mLogLevel : Z }.

(** A scan result as wificond reports it. *)
Record NativeScanResult : Type := {
  ssid : string;
  bssid : list Z;
  info_element : list Z;
  frequency : Z;
  signal_mbm : Z;
  tsf : Z;
  capability : Z;
  associated : bool
}.

(** [nsScanResult] *)
Record nsScanResult : Type := {
  sr_ssid : string;
  sr_bssid : string;
  sr_info_element : list Z;
  sr_frequency : Z;
  sr_tsf : Z;
  sr_capability : Z;
  sr_signal : Z;
  sr_associated : bool
}.

(** The calls the orchestrator makes on the layers below it, indexed by
    what they answer.  A reference parameter the callee fills is passed as
    its current value and comes back next to the status. *)
Inductive VendorCall : Type -> Type :=
(* WifiHal *)
| WifiHal_InitHalInterface : VendorCall Result_t
| WifiHal_GetCapabilities (aCapabilities : Z) : VendorCall (Result_t * Z)
| WifiHal_GetDriverModuleInfo (aDriverVersion aFirmwareVersion : string)
  : VendorCall (Result_t * (string * string))
| WifiHal_SetLowLatencyMode (aEnable : bool) : VendorCall Result_t
| WifiHal_StartWifiModule : VendorCall Result_t
| WifiHal_ConfigChipAndCreateIface (aType : IfaceType) (aIfaceName : string)
  : VendorCall (Result_t * string)
| WifiHal_TearDownInterface (aType : IfaceType) : VendorCall Result_t
| WifiHal_GetStaCapabilities (aStaCapabilities : Z) : VendorCall (Result_t * Z)
| WifiHal_SetSoftapCountryCode (aCountryCode : string) : VendorCall Result_t
(* WificondControl *)
| Wificond_InitWificondInterface : VendorCall Result_t
| Wificond_StartSupplicant : VendorCall Result_t
| Wificond_StopSupplicant : VendorCall Result_t
| Wificond_SetupClientIface (aIfaceName : string) : VendorCall Result_t
| Wificond_TearDownClientInterface (aIfaceName : string) : VendorCall Result_t
| Wificond_SetupApIface (aIfaceName : string) : VendorCall Result_t
| Wificond_TearDownSoftapInterface (aIfaceName : string) : VendorCall Result_t
| Wificond_StartSingleScan (aScanSettings : ScanSettingsOptions) : VendorCall Result_t
| Wificond_StopSingleScan : VendorCall Result_t
| Wificond_GetScanResults (aScanResults : list NativeScanResult)
  : VendorCall (Result_t * list NativeScanResult)
| Wificond_GetChannelsForBand (aBandMask : Z) (aChannels : list Z)
  : VendorCall (Result_t * list Z)
| Wificond_GetSoftapStations (aNumStations : Z) : VendorCall (Result_t * Z)
(* SupplicantStaManager *)
| Supplicant_IsInterfaceInitializing : VendorCall bool
| Supplicant_IsInterfaceReady : VendorCall bool
| Supplicant_InitInterface : VendorCall Result_t
| Supplicant_DeinitInterface : VendorCall Result_t
| Supplicant_RegisterDeathHandler : VendorCall unit
| Supplicant_UnregisterDeathHandler : VendorCall unit
| Supplicant_SetupStaInterface (aIfaceName : string) : VendorCall Result_t
| Supplicant_SetConcurrencyPriority (aEnable : bool) : VendorCall Result_t
| Supplicant_GetMacAddress (aMacAddress : string) : VendorCall (Result_t * string)
| Supplicant_GetSupplicantDebugLevel (aLevel : Z) : VendorCall (Result_t * Z)
| Supplicant_SetSupplicantDebugLevel (aLevel : SupplicantDebugLevelOptions)
  : VendorCall Result_t
| Supplicant_SetPowerSave (aEnable : bool) : VendorCall Result_t
| Supplicant_SetSuspendMode (aEnable : bool) : VendorCall Result_t
| Supplicant_SetExternalSim (aEnable : bool) : VendorCall Result_t
| Supplicant_SetAutoReconnect (aEnable : bool) : VendorCall Result_t
| Supplicant_SetBtCoexistenceMode (aMode : Z) : VendorCall Result_t
| Supplicant_SetBtCoexistenceScanMode (aEnable : bool) : VendorCall Result_t
| Supplicant_SetCountryCode (aCountryCode : string) : VendorCall Result_t
| Supplicant_ConnectToNetwork (aConfig : ConfigurationOptions) : VendorCall Result_t
| Supplicant_Reconnect : VendorCall Result_t
| Supplicant_Reassociate : VendorCall Result_t
| Supplicant_Disconnect : VendorCall Result_t
| Supplicant_RemoveNetworks : VendorCall Result_t
(* SoftapManager *)
| Softap_InitInterface : VendorCall Result_t
| Softap_IsInterfaceReady : VendorCall bool
| Softap_DeinitInterface : VendorCall Result_t
| Softap_StartSoftap (aIfaceName aCountryCode : string)
                     (aSoftapConfig : SoftapConfigurationOptions)
  : VendorCall Result_t
| Softap_StopSoftap (aIfaceName : string) : VendorCall Result_t
(* event services: [CreateService] answers whether the pointer is non-null *)
| WificondEventService_CreateService (aIfaceName : string) : VendorCall bool
| WificondEventService_RegisterEventCallback : VendorCall unit
| SoftapEventService_CreateService (aIfaceName : string) : VendorCall bool
| SoftapEventService_RegisterEventCallback : VendorCall unit
(* libc *)
| usleep (usec : Z) : VendorCall unit.

(** Orchestration code: a tree of vendor calls ending in a value. *)
Inductive Prog (A : Type) : Type :=
| Ret (a : A)
| Vis {R : Type} (c : VendorCall R) (k : R -> Prog A).

Arguments Ret {A} a.
Arguments Vis {A R} c k.

Fixpoint bind {A B : Type} (p : Prog A) (f : A -> Prog B) : Prog B :=
  match p with
  | Ret a => f a
  | Vis c k => Vis c (fun r => bind (k r) f)
  end.

Definition call {R : Type} (c : VendorCall R) : Prog R := Vis c Ret.

#[local] Notation "x <- c ;; k" := (bind c (fun x => k))
  (at level 61, c at next level, right associativity).
#[local] Notation "c ;;; k" := (bind c (fun _ => k))
  (at level 61, right associativity).

(** A vendor call together with the answer it got. *)
Inductive Event : Type :=
| Ev {R : Type} (c : VendorCall R) (r : R).

Section Run.

Variable W : Type.
Variable handle : forall R : Type, VendorCall R -> W -> R * W.

(** Running orchestration code against a vendor: the value, the vendor
    state afterwards and the calls made, in order. *)
Fixpoint run {A : Type} (p : Prog A) (w : W) : A * W * list Event :=
  match p with
  | Ret a => (a, w, [])
  | Vis c k =>
    let (r, w') := handle _ c w in
    let '(a, w'', tr) := run (k r) w' in
    (a, w'', Ev c r :: tr)
  end.

Definition result_of {A : Type} (p : Prog A) (w : W) : A := fst (fst (run p w)).
Definition state_after {A : Type} (p : Prog A) (w : W) : W := snd (fst (run p w)).
Definition trace_of {A : Type} (p : Prog A) (w : W) : list Event := snd (run p w).

End Run.

(** The members of [WifiNative] that change. *)
Record WifiNative : Type := {
  mStaInterfaceName : string;
  mApInterfaceName : string
}.

Definition set_mStaInterfaceName (self : WifiNative) (n : string) : WifiNative :=
  {| mStaInterfaceName := n; mApInterfaceName := mApInterfaceName self |}.

Definition set_mApInterfaceName (self : WifiNative) (n : string) : WifiNative :=
  {| mStaInterfaceName := mStaInterfaceName self; mApInterfaceName := n |}.

(** The polling loop of [StartSupplicant] and [StartAndConnectHostapd]:
    [tries] is the number of values [connectTries] still has to take
    below [CONNECTION_RETRY_TIMES]; the answer is [connected]. *)
Fixpoint wait_until_ready (IsInterfaceReady : VendorCall bool) (tries : nat)
  : Prog bool :=
  match tries with
  | O => Ret false
  | S tries' =>
    ready <- call IsInterfaceReady ;;
    if ready then Ret true
    else
      call (usleep CONNECTION_RETRY_INTERVAL_US) ;;;
      wait_until_ready IsInterfaceReady tries'
  end.

(** [WifiNative::InitHal] *)
Definition InitHal : Prog Result_t :=
  result <- call WifiHal_InitHalInterface ;;
  if result != SUCCESS then Ret result else
  result <- call Wificond_InitWificondInterface ;;
  if result != SUCCESS then Ret result else
  initializing <- call Supplicant_IsInterfaceInitializing ;;
  if negb initializing then
    result <- call Supplicant_InitInterface ;;
    if result != SUCCESS then Ret result else
    Ret SUCCESS
  else
    Ret SUCCESS.

(** [WifiNative::DeinitHal] *)
Definition DeinitHal : Prog Result_t := Ret SUCCESS.

(** [WifiNative::StartSupplicant] *)
Definition StartSupplicant : Prog Result_t :=
  let start_daemon_and_wait : Prog Result_t :=
    (* start supplicant from wificond. *)
    result <- call Wificond_StartSupplicant ;;
    if result != SUCCESS then Ret result else
    connected <- wait_until_ready Supplicant_IsInterfaceReady
                                  (Z.to_nat CONNECTION_RETRY_TIMES) ;;
    Ret (CHECK_SUCCESS connected) in
  (* start supplicant hal *)
  ready <- call Supplicant_IsInterfaceReady ;;
  if negb ready then
    result <- call Supplicant_InitInterface ;;
    if result != SUCCESS then Ret result else
    start_daemon_and_wait
  else
    start_daemon_and_wait.

(** [WifiNative::StopSupplicant] *)
Definition StopSupplicant : Prog Result_t :=
  result <- call Supplicant_DeinitInterface ;;
  if result != SUCCESS then Ret result else
  result <- call Wificond_StopSupplicant ;;
  if result != SUCCESS then Ret result else
  Ret SUCCESS.

(** [WifiNative::StartWifi]: the status, the object afterwards and the
    out-parameter [aIfaceName]. *)
Definition StartWifi (self : WifiNative) (aIfaceName : string)
  : Prog (Result_t * WifiNative * string) :=
  result <- call WifiHal_StartWifiModule ;;
  if result != SUCCESS then Ret (result, self, aIfaceName) else
  (* the status of this call is not kept *)
  created <- call (WifiHal_ConfigChipAndCreateIface STA (mStaInterfaceName self)) ;;
  let self := set_mStaInterfaceName self (snd created) in
  eventService <- call (WificondEventService_CreateService (mStaInterfaceName self)) ;;
  if negb eventService then Ret (ERROR_COMMAND_FAILED, self, aIfaceName) else
  call WificondEventService_RegisterEventCallback ;;;
  result <- StartSupplicant ;;
  if result != SUCCESS then Ret (result, self, aIfaceName) else
  call Supplicant_RegisterDeathHandler ;;;
  result <- call (Wificond_SetupClientIface (mStaInterfaceName self)) ;;
  if result != SUCCESS then
    call (Wificond_TearDownClientInterface (mStaInterfaceName self)) ;;;
    Ret (result, self, aIfaceName)
  else
  result <- call (Supplicant_SetupStaInterface (mStaInterfaceName self)) ;;
  if result != SUCCESS then Ret (result, self, aIfaceName) else
  let aIfaceName := c_str (mStaInterfaceName self) in
  Ret (CHECK_SUCCESS (0 <? Z.of_nat (String.length aIfaceName)), self, aIfaceName).

(** [WifiNative::StopWifi] *)
Definition StopWifi (self : WifiNative) : Prog Result_t :=
  result <- StopSupplicant ;;
  if result != SUCCESS then Ret result else
  result <- call (Wificond_TearDownClientInterface (mStaInterfaceName self)) ;;
  if result != SUCCESS then Ret result else
  call Supplicant_UnregisterDeathHandler ;;;
  result <- call (WifiHal_TearDownInterface STA) ;;
  if result != SUCCESS then Ret result else
  Ret SUCCESS.

(** [WifiNative::StartAndConnectHostapd] *)
Definition StartAndConnectHostapd : Prog Result_t :=
  result <- call Softap_InitInterface ;;
  if result != SUCCESS then Ret result else
  connected <- wait_until_ready Softap_IsInterfaceReady
                                (Z.to_nat CONNECTION_RETRY_TIMES) ;;
  Ret (CHECK_SUCCESS connected).

(** [WifiNative::StopHostapd] *)
Definition StopHostapd : Prog Result_t :=
  result <- call Softap_DeinitInterface ;;
  if result != SUCCESS then Ret result else
  Ret SUCCESS.

(** [WifiNative::StartSoftAp] *)
Definition StartSoftAp (self : WifiNative) (aSoftapConfig : SoftapConfigurationOptions)
                       (aIfaceName : string)
  : Prog (Result_t * WifiNative * string) :=
  result <- call WifiHal_StartWifiModule ;;
  if result != SUCCESS then Ret (result, self, aIfaceName) else
  result <- StartAndConnectHostapd ;;
  if result != SUCCESS then Ret (result, self, aIfaceName) else
  created <- call (WifiHal_ConfigChipAndCreateIface AP (mApInterfaceName self)) ;;
  let result := fst created in
  let self := set_mApInterfaceName self (snd created) in
  if result != SUCCESS then Ret (result, self, aIfaceName) else
  eventService <- call (SoftapEventService_CreateService (mApInterfaceName self)) ;;
  if negb eventService then Ret (ERROR_COMMAND_FAILED, self, aIfaceName) else
  call SoftapEventService_RegisterEventCallback ;;;
  result <- call (Wificond_SetupApIface (mApInterfaceName self)) ;;
  if result != SUCCESS then
    call (Wificond_TearDownSoftapInterface (mApInterfaceName self)) ;;;
    Ret (result, self, aIfaceName)
  else
  let countryCode := c_str (mSoftapCountryCode aSoftapConfig) in
  result <- call (WifiHal_SetSoftapCountryCode countryCode) ;;
  if result != SUCCESS then Ret (result, self, aIfaceName) else
  result <- call (Softap_StartSoftap (mApInterfaceName self) countryCode aSoftapConfig) ;;
  if result != SUCCESS then Ret (result, self, aIfaceName) else
  let aIfaceName := c_str (mApInterfaceName self) in
  Ret (CHECK_SUCCESS (0 <? Z.of_nat (String.length aIfaceName)), self, aIfaceName).

(** [WifiNative::StopSoftAp] *)
Definition StopSoftAp (self : WifiNative) : Prog Result_t :=
  result <- call (Softap_StopSoftap (mApInterfaceName self)) ;;
  if result != SUCCESS then Ret result else
  result <- call (Wificond_TearDownSoftapInterface (mApInterfaceName self)) ;;
  if result != SUCCESS then Ret result else
  result <- StopHostapd ;;
  if result != SUCCESS then Ret result else
  result <- call (WifiHal_TearDownInterface AP) ;;
  if result != SUCCESS then Ret result else
  Ret SUCCESS.

(** [WifiNative::Connect] *)
Definition Connect (aConfig : ConfigurationOptions) : Prog Result_t :=
  (* abort ongoing scan before connect *)
  call Wificond_StopSingleScan ;;;
  result <- call (Supplicant_ConnectToNetwork aConfig) ;;
  if result != SUCCESS then Ret result else
  Ret SUCCESS.

(** [WifiNative::GetClientInterfaceName] and [GetSoftApInterfaceName] *)
Definition GetClientInterfaceName (self : WifiNative) : Result_t * string :=
  let aIfaceName := c_str (mStaInterfaceName self) in
  (CHECK_SUCCESS (0 <? Z.of_nat (String.length aIfaceName)), aIfaceName).

Definition GetSoftApInterfaceName (self : WifiNative) : Result_t * string :=
  let aIfaceName := c_str (mApInterfaceName self) in
  (CHECK_SUCCESS (0 <? Z.of_nat (String.length aIfaceName)), aIfaceName).

(** The one-line methods that hand a call straight down. *)
Definition GetCapabilities (aCapabilities : Z) : Prog (Result_t * Z) :=
  call (WifiHal_GetCapabilities aCapabilities).
Definition GetDriverModuleInfo (aDriverVersion aFirmwareVersion : string)
  : Prog (Result_t * (string * string)) :=
  call (WifiHal_GetDriverModuleInfo aDriverVersion aFirmwareVersion).
Definition SetLowLatencyMode (aEnable : bool) : Prog Result_t :=
  call (WifiHal_SetLowLatencyMode aEnable).
Definition SetConcurrencyPriority (aEnable : bool) : Prog Result_t :=
  call (Supplicant_SetConcurrencyPriority aEnable).
Definition GetMacAddress (aMacAddress : string) : Prog (Result_t * string) :=
  call (Supplicant_GetMacAddress aMacAddress).
Definition GetStaCapabilities (aStaCapabilities : Z) : Prog (Result_t * Z) :=
  call (WifiHal_GetStaCapabilities aStaCapabilities).
Definition GetDebugLevel (aLevel : Z) : Prog (Result_t * Z) :=
  call (Supplicant_GetSupplicantDebugLevel aLevel).
Definition SetDebugLevel (aLevel : SupplicantDebugLevelOptions) : Prog Result_t :=
  call (Supplicant_SetSupplicantDebugLevel aLevel).
Definition SetPowerSave (aEnable : bool) : Prog Result_t :=
  call (Supplicant_SetPowerSave aEnable).
Definition SetSuspendMode (aEnable : bool) : Prog Result_t :=
  call (Supplicant_SetSuspendMode aEnable).
Definition SetExternalSim (aEnable : bool) : Prog Result_t :=
  call (Supplicant_SetExternalSim aEnable).
Definition SetAutoReconnect (aEnable : bool) : Prog Result_t :=
  call (Supplicant_SetAutoReconnect aEnable).
Definition SetBtCoexistenceMode (aMode : Z) : Prog Result_t :=
  call (Supplicant_SetBtCoexistenceMode aMode).
Definition SetBtCoexistenceScanMode (aEnable : bool) : Prog Result_t :=
  call (Supplicant_SetBtCoexistenceScanMode aEnable).
Definition SetCountryCode (aCountryCode : string) : Prog Result_t :=
  let countryCode := c_str aCountryCode in
  call (Supplicant_SetCountryCode countryCode).
Definition StartSingleScan (aScanSettings : ScanSettingsOptions) : Prog Result_t :=
  call (Wificond_StartSingleScan aScanSettings).
Definition StopSingleScan : Prog Result_t := call Wificond_StopSingleScan.
Definition StartPnoScan : Prog Result_t := Ret SUCCESS.
Definition StopPnoScan : Prog Result_t := Ret SUCCESS.
Definition GetScanResults (aScanResults : list NativeScanResult)
  : Prog (Result_t * list NativeScanResult) :=
  call (Wificond_GetScanResults aScanResults).
Definition GetPnoScanResults (aScanResults : list NativeScanResult)
  : Prog (Result_t * list NativeScanResult) :=
  Ret (SUCCESS, aScanResults).
Definition GetChannelsForBand (aBandMask : Z) (aChannels : list Z)
  : Prog (Result_t * list Z) :=
  call (Wificond_GetChannelsForBand aBandMask aChannels).
Definition Reconnect : Prog Result_t := call Supplicant_Reconnect.
Definition Reassociate : Prog Result_t := call Supplicant_Reassociate.
Definition Disconnect : Prog Result_t := call Supplicant_Disconnect.
Definition RemoveNetworks : Prog Result_t := call Supplicant_RemoveNetworks.
Definition GetSoftapStations (aNumStations : Z) : Prog (Result_t * Z) :=
  call (Wificond_GetSoftapStations aNumStations).

(** Modelled from the spec: the command constants of [nsIWifiCommand],
    declared outside the sources at hand ("an opaque command enum").  The
    members are the ones [ExecuteCommand] compares against; any other value
    of [mCmd] is [OTHER_COMMAND]. *)
Inductive nsIWifiCommand : Type :=
| INITIALIZE | GET_MODULE_VERSION | GET_CAPABILITIES | SET_LOW_LATENCY_MODE
| SET_CONCURRENCY_PRIORITY | START_WIFI | STOP_WIFI | GET_MAC_ADDRESS
| GET_STA_IFACE | GET_STA_CAPABILITIES | GET_DEBUG_LEVEL | SET_DEBUG_LEVEL
| SET_POWER_SAVE | SET_SUSPEND_MODE | SET_EXTERNAL_SIM | SET_AUTO_RECONNECT
| SET_COUNTRY_CODE | SET_BT_COEXIST_MODE | SET_BT_COEXIST_SCAN_MODE
| START_SINGLE_SCAN | STOP_SINGLE_SCAN | START_PNO_SCAN | STOP_PNO_SCAN
| GET_SCAN_RESULTS | GET_PNO_SCAN_RESULTS | GET_CHANNELS_FOR_BAND
| CONNECT | RECONNECT | REASSOCIATE | DISCONNECT | REMOVE_NETWORKS
| START_SOFTAP | STOP_SOFTAP | GET_AP_IFACE | GET_SOFTAP_STATION_NUMBER
| OTHER_COMMAND (code : Z).

(** [CommandOptions] *)
Record CommandOptions : Type := {
  mId : Z;
  mCmd : nsIWifiCommand;
  mEnabled : bool;
  mDebugLevel : SupplicantDebugLevelOptions;
  mCountryCode : string;
  mBtCoexistenceMode : Z;
  mScanSettings : ScanSettingsOptions;
  mBandMask : Z;
  mConfig : ConfigurationOptions;
  mSoftapConfig : SoftapConfigurationOptions
}.

(** [nsWifiResult] *)
Record nsWifiResult : Type := {
  res_mId : Z;
  mStatus : Result_t;
  mDriverVersion : string;
  mFirmwareVersion : string;
  mCapabilities : Z;
  mStaInterface : string;
  mMacAddress : string;
  mStaCapabilities : Z;
  res_mDebugLevel : Z;
  mApInterface : string;
  mNumStations : Z;
  mScanResults : list nsScanResult;
  mChannels : list Z
}.

Definition set_mId (r : nsWifiResult) (v : Z) : nsWifiResult :=
  {| res_mId := v; mStatus := mStatus r; mDriverVersion := mDriverVersion r;
     mFirmwareVersion := mFirmwareVersion r; mCapabilities := mCapabilities r;
     mStaInterface := mStaInterface r; mMacAddress := mMacAddress r;
     mStaCapabilities := mStaCapabilities r; res_mDebugLevel := res_mDebugLevel r;
     mApInterface := mApInterface r; mNumStations := mNumStations r;
     mScanResults := mScanResults r; mChannels := mChannels r |}.

Definition set_mStatus (r : nsWifiResult) (v : Result_t) : nsWifiResult :=
  {| res_mId := res_mId r; mStatus := v; mDriverVersion := mDriverVersion r;
     mFirmwareVersion := mFirmwareVersion r; mCapabilities := mCapabilities r;
     mStaInterface := mStaInterface r; mMacAddress := mMacAddress r;
     mStaCapabilities := mStaCapabilities r; res_mDebugLevel := res_mDebugLevel r;
     mApInterface := mApInterface r; mNumStations := mNumStations r;
     mScanResults := mScanResults r; mChannels := mChannels r |}.

Definition set_mModuleVersion (r : nsWifiResult) (d f : string) : nsWifiResult :=
  {| res_mId := res_mId r; mStatus := mStatus r; mDriverVersion := d;
     mFirmwareVersion := f; mCapabilities := mCapabilities r;
     mStaInterface := mStaInterface r; mMacAddress := mMacAddress r;
     mStaCapabilities := mStaCapabilities r; res_mDebugLevel := res_mDebugLevel r;
     mApInterface := mApInterface r; mNumStations := mNumStations r;
     mScanResults := mScanResults r; mChannels := mChannels r |}.

Definition set_mCapabilities (r : nsWifiResult) (v : Z) : nsWifiResult :=
  {| res_mId := res_mId r; mStatus := mStatus r; mDriverVersion := mDriverVersion r;
     mFirmwareVersion := mFirmwareVersion r; mCapabilities := v;
     mStaInterface := mStaInterface r; mMacAddress := mMacAddress r;
     mStaCapabilities := mStaCapabilities r; res_mDebugLevel := res_mDebugLevel r;
     mApInterface := mApInterface r; mNumStations := mNumStations r;
     mScanResults := mScanResults r; mChannels := mChannels r |}.

Definition set_mStaInterface (r : nsWifiResult) (v : string) : nsWifiResult :=
  {| res_mId := res_mId r; mStatus := mStatus r; mDriverVersion := mDriverVersion r;
     mFirmwareVersion := mFirmwareVersion r; mCapabilities := mCapabilities r;
     mStaInterface := v; mMacAddress := mMacAddress r;
     mStaCapabilities := mStaCapabilities r; res_mDebugLevel := res_mDebugLevel r;
     mApInterface := mApInterface r; mNumStations := mNumStations r;
     mScanResults := mScanResults r; mChannels := mChannels r |}.

Definition set_mMacAddress (r : nsWifiResult) (v : string) : nsWifiResult :=
  {| res_mId := res_mId r; mStatus := mStatus r; mDriverVersion := mDriverVersion r;
     mFirmwareVersion := mFirmwareVersion r; mCapabilities := mCapabilities r;
     mStaInterface := mStaInterface r; mMacAddress := v;
     mStaCapabilities := mStaCapabilities r; res_mDebugLevel := res_mDebugLevel r;
     mApInterface := mApInterface r; mNumStations := mNumStations r;
     mScanResults := mScanResults r; mChannels := mChannels r |}.

Definition set_mStaCapabilities (r : nsWifiResult) (v : Z) : nsWifiResult :=
  {| res_mId := res_mId r; mStatus := mStatus r; mDriverVersion := mDriverVersion r;
     mFirmwareVersion := mFirmwareVersion r; mCapabilities := mCapabilities r;
     mStaInterface := mStaInterface r; mMacAddress := mMacAddress r;
     mStaCapabilities := v; res_mDebugLevel := res_mDebugLevel r;
     mApInterface := mApInterface r; mNumStations := mNumStations r;
     mScanResults := mScanResults r; mChannels := mChannels r |}.

Definition set_mDebugLevel (r : nsWifiResult) (v : Z) : nsWifiResult :=
  {| res_mId := res_mId r; mStatus := mStatus r; mDriverVersion := mDriverVersion r;
     mFirmwareVersion := mFirmwareVersion r; mCapabilities := mCapabilities r;
     mStaInterface := mStaInterface r; mMacAddress := mMacAddress r;
     mStaCapabilities := mStaCapabilities r; res_mDebugLevel := v;
     mApInterface := mApInterface r; mNumStations := mNumStations r;
     mScanResults := mScanResults r; mChannels := mChannels r |}.

Definition set_mApInterface (r : nsWifiResult) (v : string) : nsWifiResult :=
  {| res_mId := res_mId r; mStatus := mStatus r; mDriverVersion := mDriverVersion r;
     mFirmwareVersion := mFirmwareVersion r; mCapabilities := mCapabilities r;
     mStaInterface := mStaInterface r; mMacAddress := mMacAddress r;
     mStaCapabilities := mStaCapabilities r; res_mDebugLevel := res_mDebugLevel r;
     mApInterface := v; mNumStations := mNumStations r;
     mScanResults := mScanResults r; mChannels := mChannels r |}.

Definition set_mNumStations (r : nsWifiResult) (v : Z) : nsWifiResult :=
  {| res_mId := res_mId r; mStatus := mStatus r; mDriverVersion := mDriverVersion r;
     mFirmwareVersion := mFirmwareVersion r; mCapabilities := mCapabilities r;
     mStaInterface := mStaInterface r; mMacAddress := mMacAddress r;
     mStaCapabilities := mStaCapabilities r; res_mDebugLevel := res_mDebugLevel r;
     mApInterface := mApInterface r; mNumStations := v;
     mScanResults := mScanResults r; mChannels := mChannels r |}.

(** [nsWifiResult::updateScanResults] and [updateChannels] *)
Definition updateScanResults (r : nsWifiResult) (v : list nsScanResult) : nsWifiResult :=
  {| res_mId := res_mId r; mStatus := mStatus r; mDriverVersion := mDriverVersion r;
     mFirmwareVersion := mFirmwareVersion r; mCapabilities := mCapabilities r;
     mStaInterface := mStaInterface r; mMacAddress := mMacAddress r;
     mStaCapabilities := mStaCapabilities r; res_mDebugLevel := res_mDebugLevel r;
     mApInterface := mApInterface r; mNumStations := mNumStations r;
     mScanResults := v; mChannels := mChannels r |}.

Definition updateChannels (r : nsWifiResult) (v : list Z) : nsWifiResult :=
  {| res_mId := res_mId r; mStatus := mStatus r; mDriverVersion := mDriverVersion r;
     mFirmwareVersion := mFirmwareVersion r; mCapabilities := mCapabilities r;
     mStaInterface := mStaInterface r; mMacAddress := mMacAddress r;
     mStaCapabilities := mStaCapabilities r; res_mDebugLevel := res_mDebugLevel r;
     mApInterface := mApInterface r; mNumStations := mNumStations r;
     mScanResults := mScanResults r; mChannels := v |}.

Section Execute.

(** [ConvertMacToString], a helper defined outside the sources at hand. *)
Variable ConvertMacToString : list Z -> string.

(** The body of the loop over [nativeScanResults]. *)
Definition to_nsScanResult (result : NativeScanResult) : nsScanResult :=
  {| sr_ssid := c_str (ssid result);
     sr_bssid := c_str (ConvertMacToString (bssid result));
     sr_info_element := info_element result;
     sr_frequency := frequency result mod 2 ^ 32;
     sr_tsf := tsf result mod 2 ^ 32;
     sr_capability := capability result mod 2 ^ 32;
     sr_signal := signal_mbm result;
     sr_associated := associated result |}.

(** A method that only yields a status. *)
Definition status_only (self : WifiNative) (aResult : nsWifiResult)
                       (method : Prog Result_t)
  : Prog (bool * WifiNative * nsWifiResult) :=
  status <- method ;;
  Ret (true, self, set_mStatus aResult status).

(** [WifiNative::ExecuteCommand]: the boolean handed back, the object and
    the result record afterwards. *)
Definition ExecuteCommand (self : WifiNative) (aOptions : CommandOptions)
                          (aResult : nsWifiResult) (aInterface : string)
  : Prog (bool * WifiNative * nsWifiResult) :=
  (* Always correlate the opaque ids. *)
  let aResult := set_mId aResult (mId aOptions) in
  match mCmd aOptions with
  | INITIALIZE => status_only self aResult InitHal
  | GET_MODULE_VERSION =>
    r <- GetDriverModuleInfo (mDriverVersion aResult) (mFirmwareVersion aResult) ;;
    let aResult := set_mModuleVersion aResult (fst (snd r)) (snd (snd r)) in
    Ret (true, self, set_mStatus aResult (fst r))
  | GET_CAPABILITIES =>
    r <- GetCapabilities (mCapabilities aResult) ;;
    let aResult := set_mCapabilities aResult (snd r) in
    Ret (true, self, set_mStatus aResult (fst r))
  | SET_LOW_LATENCY_MODE =>
    status_only self aResult (SetLowLatencyMode (mEnabled aOptions))
  | SET_CONCURRENCY_PRIORITY =>
    status_only self aResult (SetConcurrencyPriority (mEnabled aOptions))
  | START_WIFI =>
    r <- StartWifi self (mStaInterface aResult) ;;
    let '(status, self, iface) := r in
    let aResult := set_mStaInterface aResult iface in
    Ret (true, self, set_mStatus aResult status)
  | STOP_WIFI => status_only self aResult (StopWifi self)
  | GET_MAC_ADDRESS =>
    r <- GetMacAddress (mMacAddress aResult) ;;
    let aResult := set_mMacAddress aResult (snd r) in
    Ret (true, self, set_mStatus aResult (fst r))
  | GET_STA_IFACE =>
    let r := GetClientInterfaceName self in
    let aResult := set_mStaInterface aResult (snd r) in
    Ret (true, self, set_mStatus aResult (fst r))
  | GET_STA_CAPABILITIES =>
    r <- GetStaCapabilities (mStaCapabilities aResult) ;;
    let aResult := set_mStaCapabilities aResult (snd r) in
    Ret (true, self, set_mStatus aResult (fst r))
  | GET_DEBUG_LEVEL =>
    r <- GetDebugLevel (res_mDebugLevel aResult) ;;
    let aResult := set_mDebugLevel aResult (snd r) in
    Ret (true, self, set_mStatus aResult (fst r))
  | SET_DEBUG_LEVEL =>
    status_only self aResult (SetDebugLevel (mDebugLevel aOptions))
  | SET_POWER_SAVE => status_only self aResult (SetPowerSave (mEnabled aOptions))
  | SET_SUSPEND_MODE => status_only self aResult (SetSuspendMode (mEnabled aOptions))
  | SET_EXTERNAL_SIM => status_only self aResult (SetExternalSim (mEnabled aOptions))
  | SET_AUTO_RECONNECT =>
    status_only self aResult (SetAutoReconnect (mEnabled aOptions))
  | SET_COUNTRY_CODE =>
    status_only self aResult (SetCountryCode (mCountryCode aOptions))
  | SET_BT_COEXIST_MODE =>
    status_only self aResult (SetBtCoexistenceMode (mBtCoexistenceMode aOptions))
  | SET_BT_COEXIST_SCAN_MODE =>
    status_only self aResult (SetBtCoexistenceScanMode (mEnabled aOptions))
  | START_SINGLE_SCAN =>
    status_only self aResult (StartSingleScan (mScanSettings aOptions))
  | STOP_SINGLE_SCAN => status_only self aResult StopSingleScan
  | START_PNO_SCAN => status_only self aResult StartPnoScan
  | STOP_PNO_SCAN => status_only self aResult StopPnoScan
  | GET_SCAN_RESULTS =>
    r <- GetScanResults [] ;;
    let nativeScanResults := snd r in
    let aResult := set_mStatus aResult (fst r) in
    match nativeScanResults with
    | [] => Ret (false, self, aResult)
    | _ :: _ =>
      let scanResults := map to_nsScanResult nativeScanResults in
      Ret (true, self, updateScanResults aResult scanResults)
    end
  | GET_PNO_SCAN_RESULTS =>
    r <- GetPnoScanResults [] ;;
    Ret (true, self, set_mStatus aResult (fst r))
  | GET_CHANNELS_FOR_BAND =>
    r <- GetChannelsForBand (mBandMask aOptions) [] ;;
    let channels := snd r in
    let aResult := set_mStatus aResult (fst r) in
    if (0 <? List.length channels)%nat
    then Ret (true, self, updateChannels aResult channels)
    else Ret (true, self, aResult)
  | CONNECT => status_only self aResult (Connect (mConfig aOptions))
  | RECONNECT => status_only self aResult Reconnect
  | REASSOCIATE => status_only self aResult Reassociate
  | DISCONNECT => status_only self aResult Disconnect
  | REMOVE_NETWORKS => status_only self aResult RemoveNetworks
  | START_SOFTAP =>
    r <- StartSoftAp self (mSoftapConfig aOptions) (mApInterface aResult) ;;
    let '(status, self, iface) := r in
    let aResult := set_mApInterface aResult iface in
    Ret (true, self, set_mStatus aResult status)
  | STOP_SOFTAP => status_only self aResult (StopSoftAp self)
  | GET_AP_IFACE =>
    let r := GetSoftApInterfaceName self in
    let aResult := set_mApInterface aResult (snd r) in
    Ret (true, self, set_mStatus aResult (fst r))
  | GET_SOFTAP_STATION_NUMBER =>
    r <- GetSoftapStations (mNumStations aResult) ;;
    let aResult := set_mNumStations aResult (snd r) in
    Ret (true, self, set_mStatus aResult (fst r))
  | OTHER_COMMAND _ =>
    (* ExecuteCommand: Unknown command *)
    Ret (false, self, aResult)
  end.

End Execute.

(** *** Sample vendors

    Stateless vendors that answer every call from a table; they serve to
    run the orchestrator on concrete inputs. *)

(** Every call succeeds, reference parameters come back untouched, every
    readiness check is positive and every service object is created. *)
Definition all_ok {R : Type} (c : VendorCall R) : R :=
  match c in VendorCall R0 return R0 with
  | WifiHal_InitHalInterface => SUCCESS
  | WifiHal_GetCapabilities v => (SUCCESS, v)
  | WifiHal_GetDriverModuleInfo d f => (SUCCESS, (d, f))
  | WifiHal_SetLowLatencyMode _ => SUCCESS
  | WifiHal_StartWifiModule => SUCCESS
  | WifiHal_ConfigChipAndCreateIface _ n => (SUCCESS, n)
  | WifiHal_TearDownInterface _ => SUCCESS
  | WifiHal_GetStaCapabilities v => (SUCCESS, v)
  | WifiHal_SetSoftapCountryCode _ => SUCCESS
  | Wificond_InitWificondInterface => SUCCESS
  | Wificond_StartSupplicant => SUCCESS
  | Wificond_StopSupplicant => SUCCESS
  | Wificond_SetupClientIface _ => SUCCESS
  | Wificond_TearDownClientInterface _ => SUCCESS
  | Wificond_SetupApIface _ => SUCCESS
  | Wificond_TearDownSoftapInterface _ => SUCCESS
  | Wificond_StartSingleScan _ => SUCCESS
  | Wificond_StopSingleScan => SUCCESS
  | Wificond_GetScanResults v => (SUCCESS, v)
  | Wificond_GetChannelsForBand _ v => (SUCCESS, v)
  | Wificond_GetSoftapStations v => (SUCCESS, v)
  | Supplicant_IsInterfaceInitializing => true
  | Supplicant_IsInterfaceReady => true
  | Supplicant_InitInterface => SUCCESS
  | Supplicant_DeinitInterface => SUCCESS
  | Supplicant_RegisterDeathHandler => tt
  | Supplicant_UnregisterDeathHandler => tt
  | Supplicant_SetupStaInterface _ => SUCCESS
  | Supplicant_SetConcurrencyPriority _ => SUCCESS
  | Supplicant_GetMacAddress v => (SUCCESS, v)
  | Supplicant_GetSupplicantDebugLevel v => (SUCCESS, v)
  | Supplicant_SetSupplicantDebugLevel _ => SUCCESS
  | Supplicant_SetPowerSave _ => SUCCESS
  | Supplicant_SetSuspendMode _ => SUCCESS
  | Supplicant_SetExternalSim _ => SUCCESS
  | Supplicant_SetAutoReconnect _ => SUCCESS
  | Supplicant_SetBtCoexistenceMode _ => SUCCESS
  | Supplicant_SetBtCoexistenceScanMode _ => SUCCESS
  | Supplicant_SetCountryCode _ => SUCCESS
  | Supplicant_ConnectToNetwork _ => SUCCESS
  | Supplicant_Reconnect => SUCCESS
  | Supplicant_Reassociate => SUCCESS
  | Supplicant_Disconnect => SUCCESS
  | Supplicant_RemoveNetworks => SUCCESS
  | Softap_InitInterface => SUCCESS
  | Softap_IsInterfaceReady => true
  | Softap_DeinitInterface => SUCCESS
  | Softap_StartSoftap _ _ _ => SUCCESS
  | Softap_StopSoftap _ => SUCCESS
  | WificondEventService_CreateService _ => true
  | WificondEventService_RegisterEventCallback => tt
  | SoftapEventService_CreateService _ => true
  | SoftapEventService_RegisterEventCallback => tt
  | usleep _ => tt
  end.

(** As [all_ok], but no readiness check ever turns positive. *)
Definition never_ready {R : Type} (c : VendorCall R) : R :=
  match c in VendorCall R0 return R0 -> R0 with
  | Supplicant_IsInterfaceReady => fun _ => false
  | Softap_IsInterfaceReady => fun _ => false
  | _ => fun answer => answer
  end (all_ok c).

(** As [all_ok], but chip configuration fails with [ERROR_UNKNOWN] and
    leaves the interface name as it was. *)
Definition config_chip_fails {R : Type} (c : VendorCall R) : R :=
  match c in VendorCall R0 return R0 -> R0 with
  | WifiHal_ConfigChipAndCreateIface _ n => fun _ => (ERROR_UNKNOWN, n)
  | _ => fun answer => answer
  end (all_ok c).

(** As [never_ready], and the supplicant HAL cannot be initialised. *)
Definition init_interface_fails {R : Type} (c : VendorCall R) : R :=
  match c in VendorCall R0 return R0 -> R0 with
  | Supplicant_InitInterface => fun _ => ERROR_UNKNOWN
  | Softap_InitInterface => fun _ => ERROR_UNKNOWN
  | _ => fun answer => answer
  end (never_ready c).

(** As [all_ok], but the wificond client interface cannot be torn down. *)
Definition teardown_fails {R : Type} (c : VendorCall R) : R :=
  match c in VendorCall R0 return R0 -> R0 with
  | Wificond_TearDownClientInterface _ => fun _ => ERROR_OTHER 5
  | _ => fun answer => answer
  end (all_ok c).

(** A table of answers as a vendor without state. *)
Definition scripted (answers : forall R : Type, VendorCall R -> R)
  : forall R : Type, VendorCall R -> unit -> R * unit :=
  fun R c w => (answers R c, w).

End Wifi.

(* --------------------------------------------------------------------- *)
(** ** Inputs used to run the code, and auxiliary notions                  *)
(* --------------------------------------------------------------------- *)

Module Inputs.

Import CellBroadcast.

(** A carrier profile: what [getCustomizedValue] answers for each key
    (the default is ignored), with a radio interface on every slot. *)
Definition carrier (master extreme severe amber force_off etws_test cmas_test : bool)
  : Services :=
  {| getCustomizedValue := fun _ key _ =>
       match key with
       | KEY_ENABLE_EMERGENCY_ALERTS => master
       | KEY_ENABLE_CMAS_EXTREME_THREAT_ALERTS => extreme
       | KEY_ENABLE_CMAS_SEVERE_THREAT_ALERTS => severe
       | KEY_ENABLE_CMAS_AMBER_ALERTS => amber
       | KEY_CARRIER_FORCE_DISABLE_ETWS_CMAS_TEST_BOOL => force_off
       | KEY_ENABLE_ETWS_TEST_ALERTS => etws_test
       | KEY_ENABLE_CMAS_TEST_ALERTS => cmas_test
       end;
     getRadioInterface := fun _ => true |}.

(** Emergency alerts on, of the CMAS classes only "severe". *)
Definition severe_only : Services := carrier true false true false false false false.

(** Emergency alerts on, of the CMAS classes only "extreme". *)
Definition extreme_only : Services := carrier true true false false false false false.

(** Every CMAS class off. *)
Definition presidential_only : Services :=
  carrier false false false false false false false.

(** A handler for slot 0 that has seen its network code and has not
    pushed anything yet. *)
Definition fresh_handler : Handler :=
  {| _clientId := 0; _mccmnc := Some "310260"; _config := {| cdma := []; gsm := [] |} |}.

(** [svc] with the answer for one customization key replaced. *)
Definition key_eqb (a b : CustomizationKey) : bool :=
  match a, b with
  | KEY_ENABLE_EMERGENCY_ALERTS, KEY_ENABLE_EMERGENCY_ALERTS
  | KEY_ENABLE_CMAS_EXTREME_THREAT_ALERTS, KEY_ENABLE_CMAS_EXTREME_THREAT_ALERTS
  | KEY_ENABLE_CMAS_SEVERE_THREAT_ALERTS, KEY_ENABLE_CMAS_SEVERE_THREAT_ALERTS
  | KEY_ENABLE_CMAS_AMBER_ALERTS, KEY_ENABLE_CMAS_AMBER_ALERTS
  | KEY_CARRIER_FORCE_DISABLE_ETWS_CMAS_TEST_BOOL,
    KEY_CARRIER_FORCE_DISABLE_ETWS_CMAS_TEST_BOOL
  | KEY_ENABLE_ETWS_TEST_ALERTS, KEY_ENABLE_ETWS_TEST_ALERTS
  | KEY_ENABLE_CMAS_TEST_ALERTS, KEY_ENABLE_CMAS_TEST_ALERTS => true
  | _, _ => false
  end.

Definition customized (svc : Services) (key : CustomizationKey) (answer : bool)
  : Services :=
  {| getCustomizedValue := fun clientId k default =>
       if key_eqb k key then answer else getCustomizedValue svc clientId k default;
     getRadioInterface := getRadioInterface svc |}.

(** [svc] with both kinds of test alert switched off. *)
Definition without_test_alerts (svc : Services) : Services :=
  customized (customized svc KEY_ENABLE_ETWS_TEST_ALERTS false)
             KEY_ENABLE_CMAS_TEST_ALERTS false.

(** Do [first] and [next] stand next to each other in the list, at an even
    position (as one of its half-open ranges)? *)
Fixpoint has_range (first next : Z) (l : list Z) : Prop :=
  match l with
  | a :: b :: rest => (a = first /\ b = next) \/ has_range first next rest
  | _ => False
  end.

(** The configuration with nothing in it, as the constructor of the
    handler stores it. *)
Definition empty_config : Config := {| cdma := []; gsm := [] |}.

(** A card with a complete network code, a slot with a radio interface and
    one without. *)
Definition tmobile_us : IccInfo := {| mcc := "310"; mnc := "260" |}.

Definition no_radio_interface (svc : Services) : Services :=
  {| getCustomizedValue := getCustomizedValue svc;
     getRadioInterface := fun _ => false |}.

(** A handler of slot 0 as its constructor leaves it when the card is not
    yet readable. *)
Definition new_handler : Handler :=
  {| _clientId := 0; _mccmnc := None; _config := empty_config |}.

(** Does a string contain no comma? *)
Fixpoint comma_free (s : string) : bool :=
  match s with
  | EmptyString => true
  | String c s' => negb (Ascii.eqb c ",") && comma_free s'
  end.

(** *** Radio HAL inputs *)

Import Ril.

(** Log lines by level. *)
Definition info_line (text : string) : LogLine := {| lvl := LvlINFO; fmt := text |}.
Definition error_line (text : string) : LogLine := {| lvl := LvlERROR; fmt := text |}.

(** No Radio HAL service is registered. *)
Definition no_radio : RadioHal :=
  {| getService := fun _ => false; linkToDeath := false;
     transport_ok := fun _ => false;
     beyond_HIDL_SERVICE_NAME := fun _ => "" |}.


(** The service is there and every call goes through. *)
Definition good_radio : RadioHal :=
  {| getService := fun _ => true; linkToDeath := true;
     transport_ok := fun _ => true;
     beyond_HIDL_SERVICE_NAME := fun _ => "" |}.

(** The worker as its constructor leaves it. *)
Definition fresh_worker (aClientId : Z) : State :=
  {| self := {| mRadioProxy := None; mDeathRecipient := false;
                mRilCallback := false; mClientId := aClientId |};
     log := []; sent := [] |}.

(** A worker of slot 0 that already holds its proxy. *)
Definition connected_worker : State :=
  {| self := {| mRadioProxy := Some "slot1"; mDeathRecipient := true;
                mRilCallback := true; mClientId := 0 |};
     log := []; sent := [] |}.

(** The state [GetRadioProxy] leaves when it finds the service [name]:
    the proxy and the death recipient are set, the link to the death
    notifications and the response functions were sent, and a failed link
    was logged. *)
Definition link_call : HalCall := hal "linkToDeath" [AInt 0].
Definition response_functions_call : HalCall := hal "setResponseFunctions" [].
Definition ack_call : HalCall := hal "responseAcknowledgement" [].

Definition link_failure_lines (radio : RadioHal) : list LogLine :=
  if linkToDeath radio && transport_ok radio link_call then []
  else [error_line "Failed to link to radio hal death notifications"].

Definition with_proxy (radio : RadioHal) (name : string) (st : State) : State :=
  {| self := {| mRadioProxy := Some name; mDeathRecipient := true;
                mRilCallback := mRilCallback (self st);
                mClientId := mClientId (self st) |};
     log := log st ++ [info_line "GetRadioProxy"] ++ link_failure_lines radio
            ++ [info_line "setResponseFunctions"];
     sent := sent st ++ [(link_call, transport_ok radio link_call);
                         (response_functions_call,
                          transport_ok radio response_functions_call)] |}.

Definition logged (line : LogLine) (st : State) : State :=
  {| self := self st; log := log st ++ [line]; sent := sent st |}.

Definition sent_out (radio : RadioHal) (c : HalCall) (st : State) : State :=
  {| self := self st; log := log st;
     sent := sent st ++ [(c, transport_ok radio c)] |}.

(** What arrives from the HAL, in the order of arrival, and what of it is
    meant for the listener: every indication, and the responses to
    requests that carry a positive token. *)
Inductive HalCallback : Type :=
| GotIndication (aIndication : nsRilIndicationResult)
| GotResponse (aResponse : nsRilResponseResult).

Definition receive (th : Threads) (e : HalCallback) : Threads :=
  match e with
  | GotIndication aIndication => sendRilIndicationResult aIndication th
  | GotResponse aResponse => sendRilResponseResult aResponse th
  end.

Definition for_the_listener (e : HalCallback) : list CallbackCall :=
  match e with
  | GotIndication aIndication => [HandleRilIndication aIndication]
  | GotResponse aResponse =>
    if 0 <? mRilMessageToken aResponse then [HandleRilResponse aResponse] else []
  end.

Definition dispatched_for (e : HalCallback) : list RilResultDispatcher :=
  match e with
  | GotIndication aIndication =>
    [ {| mResponse := None; mIndication := Some aIndication |} ]
  | GotResponse aResponse =>
    if 0 <? mRilMessageToken aResponse
    then [ {| mResponse := Some aResponse; mIndication := None |} ]
    else []
  end.

Definition delivered_by (runnable : RilResultDispatcher) : list CallbackCall :=
  match mResponse runnable, mIndication runnable with
  | Some aResponse, _ => [HandleRilResponse aResponse]
  | None, Some aIndication => [HandleRilIndication aIndication]
  | None, None => []
  end.

(** A worker with its listener registered and nothing under way, and one
    before [InitRil]. *)
Definition listening : Threads :=
  {| worker := connected_worker; main_thread := []; handled := [] |}.

Definition not_listening : Threads :=
  {| worker := fresh_worker 0; main_thread := []; handled := [] |}.


(** *** Wi-Fi traces *)

Import Wifi.

(** The status a recorded call came back with, for the calls that have
    one. *)
Definition event_status (e : Event) : option Result_t :=
  match e with
  | Ev c r =>
    match c in VendorCall R0 return R0 -> option Result_t with
    | WifiHal_InitHalInterface => fun r => Some r
    | WifiHal_GetCapabilities _ => fun r => Some (fst r)
    | WifiHal_GetDriverModuleInfo _ _ => fun r => Some (fst r)
    | WifiHal_SetLowLatencyMode _ => fun r => Some r
    | WifiHal_StartWifiModule => fun r => Some r
    | WifiHal_ConfigChipAndCreateIface _ _ => fun r => Some (fst r)
    | WifiHal_TearDownInterface _ => fun r => Some r
    | WifiHal_GetStaCapabilities _ => fun r => Some (fst r)
    | WifiHal_SetSoftapCountryCode _ => fun r => Some r
    | Wificond_InitWificondInterface => fun r => Some r
    | Wificond_StartSupplicant => fun r => Some r
    | Wificond_StopSupplicant => fun r => Some r
    | Wificond_SetupClientIface _ => fun r => Some r
    | Wificond_TearDownClientInterface _ => fun r => Some r
    | Wificond_SetupApIface _ => fun r => Some r
    | Wificond_TearDownSoftapInterface _ => fun r => Some r
    | Wificond_StartSingleScan _ => fun r => Some r
    | Wificond_StopSingleScan => fun r => Some r
    | Wificond_GetScanResults _ => fun r => Some (fst r)
    | Wificond_GetChannelsForBand _ _ => fun r => Some (fst r)
    | Wificond_GetSoftapStations _ => fun r => Some (fst r)
    | Supplicant_IsInterfaceInitializing => fun _ => None
    | Supplicant_IsInterfaceReady => fun _ => None
    | Supplicant_InitInterface => fun r => Some r
    | Supplicant_DeinitInterface => fun r => Some r
    | Supplicant_RegisterDeathHandler => fun _ => None
    | Supplicant_UnregisterDeathHandler => fun _ => None
    | Supplicant_SetupStaInterface _ => fun r => Some r
    | Supplicant_SetConcurrencyPriority _ => fun r => Some r
    | Supplicant_GetMacAddress _ => fun r => Some (fst r)
    | Supplicant_GetSupplicantDebugLevel _ => fun r => Some (fst r)
    | Supplicant_SetSupplicantDebugLevel _ => fun r => Some r
    | Supplicant_SetPowerSave _ => fun r => Some r
    | Supplicant_SetSuspendMode _ => fun r => Some r
    | Supplicant_SetExternalSim _ => fun r => Some r
    | Supplicant_SetAutoReconnect _ => fun r => Some r
    | Supplicant_SetBtCoexistenceMode _ => fun r => Some r
    | Supplicant_SetBtCoexistenceScanMode _ => fun r => Some r
    | Supplicant_SetCountryCode _ => fun r => Some r
    | Supplicant_ConnectToNetwork _ => fun r => Some r
    | Supplicant_Reconnect => fun r => Some r
    | Supplicant_Reassociate => fun r => Some r
    | Supplicant_Disconnect => fun r => Some r
    | Supplicant_RemoveNetworks => fun r => Some r
    | Softap_InitInterface => fun r => Some r
    | Softap_IsInterfaceReady => fun _ => None
    | Softap_DeinitInterface => fun r => Some r
    | Softap_StartSoftap _ _ _ => fun r => Some r
    | Softap_StopSoftap _ => fun r => Some r
    | WificondEventService_CreateService _ => fun _ => None
    | WificondEventService_RegisterEventCallback => fun _ => None
    | SoftapEventService_CreateService _ => fun _ => None
    | SoftapEventService_RegisterEventCallback => fun _ => None
    | usleep _ => fun _ => None
    end r
  end.

(** The first call of a trace that came back with a failure status: that
    status and the calls made after it. *)
Fixpoint first_failure (tr : list Event) : option (Result_t * list Event) :=
  match tr with
  | [] => None
  | e :: rest =>
    match event_status e with
    | Some s => if s != SUCCESS then Some (s, rest) else first_failure rest
    | None => first_failure rest
    end
  end.


(** One round of the polling loop that finds the interface not ready. *)
Definition failed_poll (IsInterfaceReady : VendorCall bool) : list Event :=
  [Ev IsInterfaceReady false; Ev (usleep CONNECTION_RETRY_INTERVAL_US) tt].

(** Is the recorded call a readiness check / a sleep? *)
Definition is_readiness_check (e : Event) : bool :=
  match e with
  | Ev Supplicant_IsInterfaceReady _ => true
  | Ev Softap_IsInterfaceReady _ => true
  | _ => false
  end.

Definition is_sleep (e : Event) : bool :=
  match e with
  | Ev (usleep _) _ => true
  | _ => false
  end.

(** A [WifiNative] that has not created any interface yet, and one whose
    station interface name is left from an earlier start. *)
Definition fresh_wifi : WifiNative :=
  {| mStaInterfaceName := ""; mApInterfaceName := "" |}.

Definition restarted_wifi : WifiNative :=
  {| mStaInterfaceName := "wlan0"; mApInterfaceName := "" |}.

Definition is_chip_configuration (e : Event) : bool :=
  match e with
  | Ev (WifiHal_ConfigChipAndCreateIface _ _) _ => true
  | _ => false
  end.

Definition is_client_teardown (e : Event) : bool :=
  match e with
  | Ev (Wificond_TearDownClientInterface _) _ => true
  | _ => false
  end.




(** The same for a method with best-effort calls: leaving the [skipped]
    calls aside, the status of the first call that fails is the answer,
    and at most one [cleanup] call follows it. *)
Definition hands_up_first_failure {A : Type} (status : A -> Result_t)
           (skipped cleanup : Event -> bool) (p : Prog A) : Prop :=
  forall (W : Type) (handle : forall R : Type, VendorCall R -> W -> R * W) (w : W),
    match first_failure
            (filter (fun e => negb (skipped e)) (trace_of W handle p w)) with
    | Some (s, rest) =>
      status (result_of W handle p w) = s
      /\ (rest = [] \/ exists e, rest = [e] /\ cleanup e = true)
    | None => True
    end.


(** The time a recorded call spends asleep, in microseconds, and the time
    a whole run does. *)
Definition sleep_of_call {R : Type} (c : VendorCall R) : Z :=
  match c with
  | usleep usec => usec
  | _ => 0
  end.

Definition slept_us (e : Event) : Z :=
  match e with
  | Ev c _ => sleep_of_call c
  end.

Definition total_sleep (tr : list Event) : Z :=
  fold_right (fun e acc => slept_us e + acc) 0 tr.

(** Against no vendor does [p] sleep longer than [bound]. *)
Definition sleep_bound {A : Type} (bound : Z) (p : Prog A) : Prop :=
  forall (W : Type) (handle : forall R : Type, VendorCall R -> W -> R * W) (w : W),
    0 <= total_sleep (trace_of W handle p w) <= bound.

(** The commands [ExecuteCommand] answers from what [WifiNative] itself
    holds. *)
Definition answered_locally (cmd : nsIWifiCommand) : bool :=
  match cmd with
  | START_PNO_SCAN | STOP_PNO_SCAN | GET_PNO_SCAN_RESULTS
  | GET_STA_IFACE | GET_AP_IFACE | OTHER_COMMAND _ => true
  | _ => false
  end.

Definition is_pno_command (cmd : nsIWifiCommand) : bool :=
  match cmd with
  | START_PNO_SCAN | STOP_PNO_SCAN | GET_PNO_SCAN_RESULTS => true
  | _ => false
  end.

(** Options that differ in the command only, and an empty result record. *)
Definition options_for (cmd : nsIWifiCommand) : CommandOptions :=
  {| mId := 7; mCmd := cmd; mEnabled := true;
     mDebugLevel := {| mLogLevel := 0 |}; mCountryCode := "US";
     mBtCoexistenceMode := 0; mScanSettings := {| mScanType := 0 |};
     mBandMask := 1; mConfig := {| mSsid := "home" |};
     mSoftapConfig := {| mSoftapCountryCode := "US" |} |}.

Definition blank_result : nsWifiResult :=
  {| res_mId := 0; mStatus := ERROR_UNKNOWN; mDriverVersion := "";
     mFirmwareVersion := ""; mCapabilities := 0; mStaInterface := "";
     mMacAddress := ""; mStaCapabilities := 0; res_mDebugLevel := 0;
     mApInterface := ""; mNumStations := 0; mScanResults := []; mChannels := [] |}.

(** A vendor on which the scan event service cannot be created. *)
Definition event_service_fails {R : Type} (c : VendorCall R) : R :=
  match c in VendorCall R0 return R0 with
  | WificondEventService_CreateService _ => false
  | other => all_ok other
  end.

(** The commands that create an interface. *)
Definition starts_an_interface (cmd : nsIWifiCommand) : bool :=
  match cmd with
  | START_WIFI | START_SOFTAP => true
  | _ => false
  end.

(** A vendor whose chip configuration names the interface. *)
Definition names_interfaces {R : Type} (c : VendorCall R) : R :=
  match c in VendorCall R0 return R0 with
  | WifiHal_ConfigChipAndCreateIface STA _ => (SUCCESS, "wlan0")
  | WifiHal_ConfigChipAndCreateIface AP _ => (SUCCESS, "ap0")
  | other => all_ok other
  end.

(** A vendor whose interface names hold a zero byte: after two characters
    for the station, at the very start for the access point. *)
Definition wl_zero_an0 : string :=
  String "w"%char (String "l"%char (String Ascii.zero "an0")).

Definition zero_ap0 : string := String Ascii.zero "ap0".

Definition names_with_zero_byte {R : Type} (c : VendorCall R) : R :=
  match c in VendorCall R0 return R0 with
  | WifiHal_ConfigChipAndCreateIface STA _ => (SUCCESS, wl_zero_an0)
  | WifiHal_ConfigChipAndCreateIface AP _ => (SUCCESS, zero_ap0)
  | other => all_ok other
  end.

End Inputs.

(* ===================================================================== *)
(** * Part II: properties                                                 *)
(* ===================================================================== *)

(* --------------------------------------------------------------------- *)
(** ** Cell-broadcast channel configurator                                 *)
(* --------------------------------------------------------------------- *)

Module CellBroadcastFacts.

Import CellBroadcast Inputs.

(** Name the seven customization values the handler reads. *)
Ltac abstract_customization svc this :=
  unfold _getCellBroadcastConfig, documented_config, alert_flags;
  generalize (getCustomizedValue svc (_clientId this) KEY_ENABLE_EMERGENCY_ALERTS true);
  generalize (getCustomizedValue svc (_clientId this)
                KEY_ENABLE_CMAS_EXTREME_THREAT_ALERTS true);
  generalize (getCustomizedValue svc (_clientId this)
                KEY_ENABLE_CMAS_SEVERE_THREAT_ALERTS true);
  generalize (getCustomizedValue svc (_clientId this) KEY_ENABLE_CMAS_AMBER_ALERTS true);
  generalize (getCustomizedValue svc (_clientId this)
                KEY_CARRIER_FORCE_DISABLE_ETWS_CMAS_TEST_BOOL false);
  generalize (getCustomizedValue svc (_clientId this) KEY_ENABLE_ETWS_TEST_ALERTS false);
  generalize (getCustomizedValue svc (_clientId this) KEY_ENABLE_CMAS_TEST_ALERTS false).

(** The CDMA list is the documented table for every customization. *)
Lemma getCellBroadcastConfig_cdma_documented (K : IdlConstants) (svc : Services)
      (this : Handler) :
  cdma (_getCellBroadcastConfig K svc this) = cdma (documented_config K svc this).
Proof.
  abstract_customization svc this.
  intros [] [] [] [] [] [] []; reflexivity.
Qed.

(** With the CMAS extreme and severe classes both off, the GSM list is the
    documented table as well. *)
Lemma getCellBroadcastConfig_gsm_documented_without_extreme_severe
      (K : IdlConstants) (svc : Services) (this : Handler) :
  cmas_extreme (alert_flags svc this) = false ->
  cmas_severe (alert_flags svc this) = false ->
  gsm (_getCellBroadcastConfig K svc this) = gsm (documented_config K svc this).
Proof.
  abstract_customization svc this.
  intros [] [] [] [] [] [] []; cbn [cmas_extreme cmas_severe andb];
    intros Hx Hs; try discriminate Hx; try discriminate Hs; reflexivity.
Qed.

(** For every customization the GSM list is the table of the rows the
    code writes. *)
Lemma getCellBroadcastConfig_gsm_written (K : IdlConstants) (svc : Services)
      (this : Handler) :
  gsm (_getCellBroadcastConfig K svc this)
  = rows_to_list (written_gsm_table K (alert_flags svc this)).
Proof.
  abstract_customization svc this.
  intros [] [] [] [] [] [] []; reflexivity.
Qed.

(** C1.  With emergency alerts on and, of the CMAS classes, only "severe"
    enabled, [_getCellBroadcastConfig] writes five GSM ranges (the two ETWS
    ranges, presidential, presidential-language and severe-language): the
    GSM CMAS severe range, whose flag is on, is not in the list, so the list
    is not the documented table.  This holds for every handler and whatever
    numbers the interface constants have. *)
Theorem getCellBroadcastConfig_gsm_severe_range_missing
        (K : IdlConstants) (this : Handler) :
  gsm (_getCellBroadcastConfig K severe_only this) =
    [ MESSAGE_ID_ETWS_EARTHQUAKE_WARNING K;
      MESSAGE_ID_ETWS_EARTHQUAKE_AND_TSUNAMI_WARNING K + 1;
      MESSAGE_ID_ETWS_OTHER_EMERGENCY_TYPE K;
      MESSAGE_ID_ETWS_OTHER_EMERGENCY_TYPE K + 1;
      MESSAGE_ID_CMAS_ALERT_PRESIDENTIAL_LEVEL K;
      MESSAGE_ID_CMAS_ALERT_PRESIDENTIAL_LEVEL K + 1;
      MESSAGE_ID_CMAS_ALERT_PRESIDENTIAL_LEVEL_LANGUAGE K;
      MESSAGE_ID_CMAS_ALERT_PRESIDENTIAL_LEVEL_LANGUAGE K + 1;
      MESSAGE_ID_CMAS_ALERT_EXTREME_EXPECTED_OBSERVED_LANGUAGE K;
      MESSAGE_ID_CMAS_ALERT_SEVERE_EXPECTED_LIKELY_LANGUAGE K + 1 ]
  /\ cmas_severe (alert_flags severe_only this) = true
  /\ gsm (documented_config K severe_only this) =
    [ MESSAGE_ID_ETWS_EARTHQUAKE_WARNING K;
      MESSAGE_ID_ETWS_EARTHQUAKE_AND_TSUNAMI_WARNING K + 1;
      MESSAGE_ID_ETWS_OTHER_EMERGENCY_TYPE K;
      MESSAGE_ID_ETWS_OTHER_EMERGENCY_TYPE K + 1;
      MESSAGE_ID_CMAS_ALERT_PRESIDENTIAL_LEVEL K;
      MESSAGE_ID_CMAS_ALERT_PRESIDENTIAL_LEVEL K + 1;
      MESSAGE_ID_CMAS_ALERT_EXTREME_EXPECTED_OBSERVED K;
      MESSAGE_ID_CMAS_ALERT_SEVERE_EXPECTED_LIKELY K + 1;
      MESSAGE_ID_CMAS_ALERT_PRESIDENTIAL_LEVEL_LANGUAGE K;
      MESSAGE_ID_CMAS_ALERT_PRESIDENTIAL_LEVEL_LANGUAGE K + 1;
      MESSAGE_ID_CMAS_ALERT_EXTREME_EXPECTED_OBSERVED_LANGUAGE K;
      MESSAGE_ID_CMAS_ALERT_SEVERE_EXPECTED_LIKELY_LANGUAGE K + 1 ]
  /\ gsm (_getCellBroadcastConfig K severe_only this)
     <> gsm (documented_config K severe_only this).
Proof.
  repeat split; try reflexivity.
  intro H. apply (f_equal (@List.length Z)) in H. discriminate H.
Qed.

(** With only "extreme" enabled the range written for it is the one from
    "extreme expected observed" to "severe expected likely" (4373 up to,
    not including, 4379 with the sample numbers), where the comment of the
    source and the table have 4371~4372. *)
Lemma getCellBroadcastConfig_gsm_extreme_range_sample :
  gsm (_getCellBroadcastConfig sample_constants extreme_only fresh_handler) =
    [4352; 4355; 4356; 4357; 4370; 4371; 4373; 4379; 4383; 4384; 4384; 4386]
  /\ gsm (documented_config sample_constants extreme_only fresh_handler) =
    [4352; 4355; 4356; 4357; 4370; 4371; 4371; 4373; 4383; 4384; 4384; 4386].
Proof. split; reflexivity. Qed.

(** *** Printing integers and comparing arrays *)

Lemma array_toString_samples :
  number_toString 0 = "0"
  /\ number_toString (-12) = "-12"
  /\ array_toString [] = ""
  /\ array_toString [4370] = "4370"
  /\ array_toString [4370; 4371; 4383; 4384] = "4370,4371,4383,4384".
Proof. repeat split. Qed.

Lemma string_of_uint_comma_free (d : Decimal.uint) :
  comma_free (NilEmpty.string_of_uint d) = true.
Proof. induction d; simpl; auto. Qed.

Lemma number_toString_comma_free (z : Z) : comma_free (number_toString z) = true.
Proof.
  unfold number_toString, NilZero.string_of_int, NilZero.string_of_uint.
  destruct (Z.to_int z) as [d | d]; destruct d; simpl;
    try reflexivity; apply string_of_uint_comma_free.
Qed.

Lemma to_int_not_nil (z : Z) :
  Z.to_int z <> Decimal.Pos Decimal.Nil /\ Z.to_int z <> Decimal.Neg Decimal.Nil.
Proof.
  destruct z as [| p | p]; simpl; split; intro H; try discriminate H;
    injection H as H; exact (DecimalPos.Unsigned.to_uint_nonnil p H).
Qed.

Lemma number_toString_inj (a b : Z) :
  number_toString a = number_toString b -> a = b.
Proof.
  unfold number_toString. intro H.
  apply DecimalZ.to_int_inj.
  destruct (to_int_not_nil a) as [Ha1 Ha2], (to_int_not_nil b) as [Hb1 Hb2].
  pose proof (NilZero.isi (Z.to_int a) Ha1 Ha2) as Ia.
  pose proof (NilZero.isi (Z.to_int b) Hb1 Hb2) as Ib.
  rewrite H in Ia. rewrite Ia in Ib. now injection Ib.
Qed.

Lemma append_comma_inj (x y r r' : string) :
  comma_free x = true -> comma_free y = true ->
  (x ++ "," ++ r)%string = (y ++ "," ++ r')%string -> x = y /\ r = r'.
Proof.
  revert y. induction x as [| c x IH]; intros [| d y] Hx Hy H; simpl in *.
  - injection H as H. now split.
  - injection H as Hc _. subst d. discriminate Hy.
  - injection H as Hc _. subst c. discriminate Hx.
  - injection H as Hc H. subst d.
    apply andb_true_iff in Hx as [_ Hx]. apply andb_true_iff in Hy as [_ Hy].
    destruct (IH y Hx Hy H) as [-> ->]. now split.
Qed.

Lemma array_toString_inj (l1 l2 : list Z) :
  List.length l1 = List.length l2 ->
  array_toString l1 = array_toString l2 -> l1 = l2.
Proof.
  revert l2. induction l1 as [| a l1 IH]; intros [| b l2] Hlen H;
    try discriminate Hlen; [reflexivity |].
  destruct l1 as [| a' l1], l2 as [| b' l2]; try discriminate Hlen.
  - simpl in H. f_equal. now apply number_toString_inj.
  - change (array_toString (a :: a' :: l1))
      with (number_toString a ++ "," ++ array_toString (a' :: l1))%string in H.
    change (array_toString (b :: b' :: l2))
      with (number_toString b ++ "," ++ array_toString (b' :: l2))%string in H.
    apply append_comma_inj in H as [Hab Hrest];
      auto using number_toString_comma_free.
    apply number_toString_inj in Hab. subst b. f_equal.
    apply IH; [simpl in Hlen |- *; lia | exact Hrest].
Qed.

(** [_isDifferentConfig] runs off its end exactly on equal configurations. *)
Lemma isDifferentConfig_spec (aOld aNew : Config) :
  ToBoolean (_isDifferentConfig aOld aNew) = false <-> aOld = aNew.
Proof.
  unfold _isDifferentConfig. split.
  - destruct (Nat.eqb_spec (List.length (gsm aOld)) (List.length (gsm aNew))) as [Lg |];
      [| discriminate].
    destruct (Nat.eqb_spec (List.length (cdma aOld)) (List.length (cdma aNew))) as [Lc |];
      [| discriminate].
    destruct (String.eqb_spec (array_toString (gsm aOld)) (array_toString (gsm aNew)))
      as [Sg |]; [| discriminate].
    destruct (String.eqb_spec (array_toString (cdma aOld)) (array_toString (cdma aNew)))
      as [Sc |]; [| discriminate].
    intros _. destruct aOld, aNew; simpl in *.
    f_equal; now apply array_toString_inj.
  - intros ->. rewrite !Nat.eqb_refl, !String.eqb_refl. reflexivity.
Qed.

(** C2.  Once the handler has a network code and the slot has a radio
    interface, [_updateCellBroadcastConfig] leaves everything alone and
    makes no call when the newly computed configuration equals the stored
    one, and otherwise calls [setCBSearchList] once with the new lists and
    stores the new configuration; the call is skipped exactly when both
    lists have the same lengths and the same contents. *)
Theorem updateCellBroadcastConfig_pushes_iff_different
        (K : IdlConstants) (svc : Services) (this : Handler) (mccmnc : string) :
  _mccmnc this = Some mccmnc ->
  getRadioInterface svc (_clientId this) = true ->
  let config := _getCellBroadcastConfig K svc this in
  (_config this = config ->
     _updateCellBroadcastConfig K svc this = (this, []))
  /\ (_config this <> config ->
     _updateCellBroadcastConfig K svc this =
       (set_config this config,
        [setCBSearchList (_clientId this) (List.length (gsm config)) (gsm config)
                         (List.length (cdma config)) (cdma config)]))
  /\ (snd (_updateCellBroadcastConfig K svc this) = [] <->
      List.length (gsm (_config this)) = List.length (gsm config)
      /\ List.length (cdma (_config this)) = List.length (cdma config)
      /\ gsm (_config this) = gsm config
      /\ cdma (_config this) = cdma config).
Proof.
  intros Hm Hr config. unfold _updateCellBroadcastConfig.
  rewrite Hm, Hr. cbn [negb]. fold config.
  destruct (ToBoolean (_isDifferentConfig (_config this) config)) eqn:D.
  - assert (_config this <> config) as Hne.
    { intro E. apply isDifferentConfig_spec in E. congruence. }
    repeat split; try (intros; congruence); try discriminate.
    intros (_ & _ & Hg & Hc). exfalso. apply Hne.
    destruct (_config this), config; simpl in *; congruence.
  - apply isDifferentConfig_spec in D.
    repeat split; try (intros; congruence); rewrite D; reflexivity.
Qed.

(** C2 at a concrete handler: the first update pushes, a second one on the
    result does not. *)
Lemma updateCellBroadcastConfig_pushes_iff_different_witness :
  _updateCellBroadcastConfig sample_constants presidential_only fresh_handler =
    (set_config fresh_handler {| cdma := [4096; 4097]; gsm := [4370; 4371; 4383; 4384] |},
     [setCBSearchList 0 4 [4370; 4371; 4383; 4384] 2 [4096; 4097]])
  /\ _updateCellBroadcastConfig sample_constants presidential_only
       (set_config fresh_handler
          {| cdma := [4096; 4097]; gsm := [4370; 4371; 4383; 4384] |}) =
     (set_config fresh_handler {| cdma := [4096; 4097]; gsm := [4370; 4371; 4383; 4384] |},
      []).
Proof.
  split.
  - apply (updateCellBroadcastConfig_pushes_iff_different
             sample_constants presidential_only fresh_handler "310260");
      [reflexivity | reflexivity | discriminate].
  - apply (updateCellBroadcastConfig_pushes_iff_different
             sample_constants presidential_only
             (set_config fresh_handler
                {| cdma := [4096; 4097]; gsm := [4370; 4371; 4383; 4384] |})
             "310260"); reflexivity.
Defined.

(** Without a network code, or without a radio interface for the slot,
    nothing is computed and nothing is pushed. *)
Lemma updateCellBroadcastConfig_guards (K : IdlConstants) (svc : Services)
      (this : Handler) :
  _mccmnc this = None \/ getRadioInterface svc (_clientId this) = false ->
  _updateCellBroadcastConfig K svc this = (this, []).
Proof.
  unfold _updateCellBroadcastConfig. intros [H | H]; rewrite H.
  - reflexivity.
  - now destruct (_mccmnc this).
Qed.

(** A name no scope binds is an unresolvable reference. *)
Lemma lookup_binding_app (env1 env2 : Environment) (name : string) :
  lookup_binding (env1 ++ env2) name =
    match lookup_binding env1 name with
    | Some v => Some v
    | None => lookup_binding env2 name
    end.
Proof.
  induction env1 as [| [n v] env1 IH]; simpl; [reflexivity |].
  now destruct (String.eqb n name).
Qed.

(** In any enclosing environment that does not bind [aCLientId] the call
    throws before looking at the handlers. *)
Lemma getCBSearchList_unbound_throws (outer : Environment) (this : Service)
      (aClientId : Z) (outs : OutParams) :
  lookup_binding outer "aCLientId" = None ->
  getCBSearchList outer this aClientId outs
  = (Throw (ReferenceError "aCLientId"), outs).
Proof.
  intro Houter. unfold getCBSearchList, ResolveBinding.
  rewrite lookup_binding_app. cbn [lookup_binding String.eqb Ascii.eqb Bool.eqb].
  now rewrite Houter.
Qed.

(** The script binds no [aCLientId] at its top level. *)
Lemma file_scope_has_no_aCLientId :
  lookup_binding file_environment "aCLientId" = None.
Proof. reflexivity. Qed.

(** C8.  Whatever client id is passed and whatever handlers and
    out-parameters there are, [getCBSearchList] ends by throwing a
    [ReferenceError] for [aCLientId], which neither the parameter list nor
    the top level of the script binds, and the out-parameters are as they
    were. *)
Theorem getCBSearchList_always_throws (this : Service) (aClientId : Z)
        (outs : OutParams) :
  getCBSearchList file_environment this aClientId outs
  = (Throw (ReferenceError "aCLientId"), outs).
Proof.
  apply getCBSearchList_unbound_throws.
  exact file_scope_has_no_aCLientId.
Qed.

(** The parameter as it is spelled in the parameter list does resolve, and
    with it the lookup would have gone through. *)
Lemma aClientId_resolves (aClientId : Z) (rest : Environment) :
  ResolveBinding (("aClientId", JsNumber aClientId) :: rest) "aClientId"
  = Normal (JsNumber aClientId).
Proof. reflexivity. Qed.

(** *** What every configuration has in common *)

(** X1.  With the master switch [KEY_ENABLE_EMERGENCY_ALERTS] off, the
    configuration is the presidential ranges and nothing else, whatever the
    other six customization values are. *)
Theorem master_switch_off_leaves_presidential_only
        (K : IdlConstants) (svc : Services) (this : Handler) :
  getCustomizedValue svc (_clientId this) KEY_ENABLE_EMERGENCY_ALERTS true = false ->
  _getCellBroadcastConfig K svc this =
    {| cdma := [ SERVICE_CATEGORY_CMAS_PRESIDENTIAL_LEVEL_ALERT K;
                 SERVICE_CATEGORY_CMAS_PRESIDENTIAL_LEVEL_ALERT K + 1 ];
       gsm := [ MESSAGE_ID_CMAS_ALERT_PRESIDENTIAL_LEVEL K;
                MESSAGE_ID_CMAS_ALERT_PRESIDENTIAL_LEVEL K + 1;
                MESSAGE_ID_CMAS_ALERT_PRESIDENTIAL_LEVEL_LANGUAGE K;
                MESSAGE_ID_CMAS_ALERT_PRESIDENTIAL_LEVEL_LANGUAGE K + 1 ] |}.
Proof.
  abstract_customization svc this.
  intros [] [] [] [] [] [] [] H; try discriminate H; reflexivity.
Qed.

(** X1 on a carrier that has everything else switched on. *)
Lemma master_switch_off_leaves_presidential_only_witness :
  _getCellBroadcastConfig sample_constants
      (carrier false true true true false true true) fresh_handler =
    {| cdma := [4096; 4097]; gsm := [4370; 4371; 4383; 4384] |}.
Proof.
  apply (master_switch_off_leaves_presidential_only sample_constants
           (carrier false true true true false true true) fresh_handler).
  reflexivity.
Defined.

(** X2.  No customization switches the presidential alerts off: the CDMA
    list always begins with the presidential category, and the GSM list
    always holds the presidential range and the one for additional
    languages. *)
Theorem presidential_ranges_always_enabled
        (K : IdlConstants) (svc : Services) (this : Handler) :
  let config := _getCellBroadcastConfig K svc this in
  (exists rest,
      cdma config = SERVICE_CATEGORY_CMAS_PRESIDENTIAL_LEVEL_ALERT K
                    :: SERVICE_CATEGORY_CMAS_PRESIDENTIAL_LEVEL_ALERT K + 1 :: rest)
  /\ has_range (MESSAGE_ID_CMAS_ALERT_PRESIDENTIAL_LEVEL K)
               (MESSAGE_ID_CMAS_ALERT_PRESIDENTIAL_LEVEL K + 1) (gsm config)
  /\ has_range (MESSAGE_ID_CMAS_ALERT_PRESIDENTIAL_LEVEL_LANGUAGE K)
               (MESSAGE_ID_CMAS_ALERT_PRESIDENTIAL_LEVEL_LANGUAGE K + 1) (gsm config).
Proof.
  cbv zeta. abstract_customization svc this.
  intros [] [] [] [] [] [] []; cbn;
    (split; [eexists; reflexivity | split; tauto]).
Qed.

(** X3.  Both lists are sequences of ranges: their lengths are even, the
    CDMA list has one to five ranges and the GSM list two to twelve. *)
Theorem configuration_lists_are_ranges
        (K : IdlConstants) (svc : Services) (this : Handler) :
  let config := _getCellBroadcastConfig K svc this in
  Nat.even (List.length (cdma config)) = true
  /\ Nat.even (List.length (gsm config)) = true
  /\ (2 <= List.length (cdma config) <= 10)%nat
  /\ (4 <= List.length (gsm config) <= 24)%nat.
Proof.
  cbv zeta. abstract_customization svc this.
  intros [] [] [] [] [] [] []; cbn; repeat split; lia.
Qed.

(** X4.  When the carrier forces the test alerts off
    ([KEY_CARRIER_FORCE_DISABLE_ETWS_CMAS_TEST_BOOL]), the two test
    switches count for nothing: the configuration is the one computed with
    both of them off. *)
Theorem forced_off_test_alerts_are_ignored
        (K : IdlConstants) (svc : Services) (this : Handler) :
  getCustomizedValue svc (_clientId this)
                     KEY_CARRIER_FORCE_DISABLE_ETWS_CMAS_TEST_BOOL false = true ->
  _getCellBroadcastConfig K svc this
  = _getCellBroadcastConfig K (without_test_alerts svc) this.
Proof.
  unfold without_test_alerts, _getCellBroadcastConfig at 2.
  cbn [getCustomizedValue customized key_eqb].
  abstract_customization svc this.
  intros [] [] [] [] [] [] [] H; try discriminate H; reflexivity.
Qed.

(** X4 on a carrier that has both test switches on and forces them off,
    with the lists written out. *)
Lemma forced_off_test_alerts_are_ignored_witness :
  _getCellBroadcastConfig sample_constants
      (carrier true false false false true true true) fresh_handler
  = _getCellBroadcastConfig sample_constants
      (without_test_alerts (carrier true false false false true true true))
      fresh_handler
  /\ _getCellBroadcastConfig sample_constants
      (carrier true false false false true true true) fresh_handler
     = {| cdma := [4096; 4097];
          gsm := [4352; 4355; 4356; 4357; 4370; 4371; 4383; 4384] |}.
Proof.
  split.
  - apply (forced_off_test_alerts_are_ignored sample_constants
             (carrier true false false false true true true) fresh_handler).
    reflexivity.
  - reflexivity.
Defined.

(** *** Updates and notifications, one after the other *)

(** The computed configuration is never the empty one. *)
Lemma getCellBroadcastConfig_not_empty (K : IdlConstants) (svc : Services)
      (this : Handler) :
  ToBoolean (_isDifferentConfig empty_config (_getCellBroadcastConfig K svc this))
  = true.
Proof.
  abstract_customization svc this.
  intros [] [] [] [] [] [] []; reflexivity.
Qed.

(** The computed configuration depends on the slot alone. *)
Lemma getCellBroadcastConfig_of_slot (K : IdlConstants) (svc : Services)
      (this other : Handler) :
  _clientId this = _clientId other ->
  _getCellBroadcastConfig K svc this = _getCellBroadcastConfig K svc other.
Proof. unfold _getCellBroadcastConfig. now intros ->. Qed.

(** X5.  An update right after an update changes nothing and pushes
    nothing, whatever the first one did. *)
Theorem updateCellBroadcastConfig_twice
        (K : IdlConstants) (svc : Services) (this : Handler) :
  let updated := fst (_updateCellBroadcastConfig K svc this) in
  _updateCellBroadcastConfig K svc updated = (updated, []).
Proof.
  cbv zeta.
  destruct (_updateCellBroadcastConfig K svc this) as [updated calls] eqn:U.
  cbn [fst]. unfold _updateCellBroadcastConfig in U.
  destruct (_mccmnc this) as [m |] eqn:Hm.
  - destruct (getRadioInterface svc (_clientId this)) eqn:Hr; cbn [negb] in U.
    + destruct (ToBoolean (_isDifferentConfig (_config this)
                             (_getCellBroadcastConfig K svc this))) eqn:D;
        injection U as <- <-.
      * set (config := _getCellBroadcastConfig K svc this).
        set (h := set_config this config).
        assert (_getCellBroadcastConfig K svc h = config) as E
            by (apply getCellBroadcastConfig_of_slot; reflexivity).
        unfold _updateCellBroadcastConfig. rewrite E.
        change (_mccmnc h) with (_mccmnc this).
        change (_clientId h) with (_clientId this).
        change (_config h) with config.
        rewrite Hm, Hr. cbn [negb].
        now rewrite (proj2 (isDifferentConfig_spec config config) eq_refl).
      * unfold _updateCellBroadcastConfig. now rewrite Hm, Hr, D.
    + injection U as <- <-. unfold _updateCellBroadcastConfig. now rewrite Hm, Hr.
  - injection U as <- <-. unfold _updateCellBroadcastConfig. now rewrite Hm.
Qed.

(** X6.  [notifyIccInfoChanged] does nothing as long as the card has no
    readable information or its country or network code is empty, and a
    second notification with the same card does nothing either. *)
Theorem notifyIccInfoChanged_ignores_incomplete_and_repeated
        (K : IdlConstants) (svc : Services) (this : Handler) :
  notifyIccInfoChanged K svc None this = (this, [])
  /\ (forall info,
        mcc info = "" \/ mnc info = "" ->
        notifyIccInfoChanged K svc (Some info) this = (this, []))
  /\ (forall iccInfo,
        let notified := fst (notifyIccInfoChanged K svc iccInfo this) in
        notifyIccInfoChanged K svc iccInfo notified = (notified, [])).
Proof.
  split; [reflexivity | split].
  - intros info [H | H]; unfold notifyIccInfoChanged, truthy_string;
      rewrite H; cbn; [reflexivity | now rewrite andb_false_r].
  - intros [info |]; [| reflexivity]. cbv zeta.
    destruct (notifyIccInfoChanged K svc (Some info) this) as [notified calls] eqn:N.
    cbn [fst]. unfold notifyIccInfoChanged in N |- *.
    destruct (truthy_string (mcc info) && truthy_string (mnc info)); [| reflexivity].
    destruct (same_mccmnc (_mccmnc this) (mcc info ++ mnc info)) eqn:Hs;
      cbn [negb] in N.
    + injection N as <- <-. now rewrite Hs.
    + assert (_mccmnc notified = Some (mcc info ++ mnc info)%string) as Hkept.
      { unfold _updateCellBroadcastConfig in N. cbn [_mccmnc set_mccmnc] in N.
        destruct (negb (getRadioInterface svc _)); [now injection N as <- <- |].
        destruct (ToBoolean _); now injection N as <- <-. }
      rewrite Hkept. cbn [same_mccmnc]. now rewrite String.eqb_refl.
Qed.

(** X6 on a card whose network code is still empty, and on a second
    notification for the same card. *)
Lemma notifyIccInfoChanged_ignores_incomplete_and_repeated_witness :
  notifyIccInfoChanged sample_constants presidential_only
      (Some {| mcc := "310"; mnc := "" |}) new_handler = (new_handler, [])
  /\ snd (notifyIccInfoChanged sample_constants presidential_only (Some tmobile_us)
            (fst (notifyIccInfoChanged sample_constants presidential_only
                    (Some tmobile_us) new_handler))) = [].
Proof.
  split.
  - apply (proj1 (proj2 (notifyIccInfoChanged_ignores_incomplete_and_repeated
                           sample_constants presidential_only new_handler))).
    now right.
  - pose proof (proj2 (proj2 (notifyIccInfoChanged_ignores_incomplete_and_repeated
                                sample_constants presidential_only new_handler))
                  (Some tmobile_us)) as H.
    cbv zeta in H. now rewrite H.
Defined.

(** X7.  A network code that arrives while the slot has no radio interface
    is remembered without anything being pushed, and a later notification
    for the same card pushes nothing either, radio interface or not: the
    configuration for that network code never reaches the broadcast
    service. *)
Theorem network_code_without_radio_interface_is_never_pushed
        (K : IdlConstants) (svc later : Services) (this : Handler) (info : IccInfo) :
  mcc info <> "" -> mnc info <> "" ->
  _mccmnc this <> Some (mcc info ++ mnc info)%string ->
  getRadioInterface svc (_clientId this) = false ->
  let notified := set_mccmnc this (mcc info ++ mnc info) in
  notifyIccInfoChanged K svc (Some info) this = (notified, [])
  /\ notifyIccInfoChanged K later (Some info) notified = (notified, []).
Proof.
  intros Hmcc Hmnc Hnew Hradio notified.
  assert (truthy_string (mcc info) && truthy_string (mnc info) = true) as Ht.
  { unfold truthy_string.
    destruct (String.eqb_spec (mcc info) ""); [contradiction |].
    destruct (String.eqb_spec (mnc info) ""); [contradiction |]. reflexivity. }
  assert (same_mccmnc (_mccmnc this) (mcc info ++ mnc info) = false) as Hs.
  { unfold same_mccmnc. destruct (_mccmnc this) as [m |]; [| reflexivity].
    destruct (String.eqb_spec m (mcc info ++ mnc info)%string); [| reflexivity].
    subst m. now contradiction Hnew. }
  split.
  - unfold notifyIccInfoChanged. rewrite Ht, Hs. cbn [negb].
    unfold _updateCellBroadcastConfig. cbn [_mccmnc set_mccmnc _clientId].
    now rewrite Hradio.
  - unfold notifyIccInfoChanged. rewrite Ht. unfold notified.
    cbn [_mccmnc set_mccmnc same_mccmnc]. now rewrite String.eqb_refl.
Qed.

(** X7 on a new handler: the card is readable before the radio interface
    is there, and is notified again once it is. *)
Lemma network_code_without_radio_interface_is_never_pushed_witness :
  notifyIccInfoChanged sample_constants (no_radio_interface presidential_only)
      (Some tmobile_us) new_handler
    = (set_mccmnc new_handler "310260", [])
  /\ notifyIccInfoChanged sample_constants presidential_only
      (Some tmobile_us) (set_mccmnc new_handler "310260")
    = (set_mccmnc new_handler "310260", []).
Proof.
  apply (network_code_without_radio_interface_is_never_pushed sample_constants
           (no_radio_interface presidential_only) presidential_only
           new_handler tmobile_us); (discriminate || reflexivity).
Defined.

(** X8.  A handler that has not pushed anything yet (its stored
    configuration is the empty one of the constructor) pushes on the first
    complete network code it sees, provided the slot has a radio
    interface: one [setCBSearchList] with the computed lists, which are
    stored. *)
Theorem first_network_code_is_pushed
        (K : IdlConstants) (svc : Services) (this : Handler) (info : IccInfo) :
  mcc info <> "" -> mnc info <> "" ->
  _mccmnc this = None ->
  _config this = empty_config ->
  getRadioInterface svc (_clientId this) = true ->
  let config := _getCellBroadcastConfig K svc this in
  notifyIccInfoChanged K svc (Some info) this =
    ({| _clientId := _clientId this;
        _mccmnc := Some (mcc info ++ mnc info)%string;
        _config := config |},
     [setCBSearchList (_clientId this) (List.length (gsm config)) (gsm config)
                      (List.length (cdma config)) (cdma config)]).
Proof.
  intros Hmcc Hmnc Hnone Hempty Hradio config.
  assert (truthy_string (mcc info) && truthy_string (mnc info) = true) as Ht.
  { unfold truthy_string.
    destruct (String.eqb_spec (mcc info) ""); [contradiction |].
    destruct (String.eqb_spec (mnc info) ""); [contradiction |]. reflexivity. }
  unfold notifyIccInfoChanged. rewrite Ht, Hnone. cbn [same_mccmnc negb].
  unfold _updateCellBroadcastConfig.
  cbn [_mccmnc set_mccmnc _clientId _config]. rewrite Hradio, Hempty. cbn [negb].
  rewrite (getCellBroadcastConfig_of_slot K svc _ this) by reflexivity.
  fold config. unfold config at 1.
  now rewrite getCellBroadcastConfig_not_empty.
Qed.

(** X8 on a new handler of slot 0. *)
Lemma first_network_code_is_pushed_witness :
  notifyIccInfoChanged sample_constants presidential_only (Some tmobile_us)
      new_handler =
    ({| _clientId := 0; _mccmnc := Some "310260";
        _config := {| cdma := [4096; 4097]; gsm := [4370; 4371; 4383; 4384] |} |},
     [setCBSearchList 0 4 [4370; 4371; 4383; 4384] 2 [4096; 4097]]).
Proof.
  apply (first_network_code_is_pushed sample_constants presidential_only
           new_handler tmobile_us); (discriminate || reflexivity).
Defined.

End CellBroadcastFacts.

(* --------------------------------------------------------------------- *)
(** ** Radio HAL request forwarder                                         *)
(* --------------------------------------------------------------------- *)

Module RilFacts.

Import Ril Inputs.

(** With no service registered, [GetRadioProxy] logs its failure and leaves
    the proxy null. *)
Lemma GetRadioProxy_no_service (radio : RadioHal) (w : nsRilWorker)
      (lg : list LogLine) (snt : list (HalCall * bool)) :
  mRadioProxy w = None ->
  0 <= mClientId w < 3 ->
  (forall name, getService radio name = false) ->
  GetRadioProxy radio {| self := w; log := lg; sent := snt |} =
    (Returned tt,
     {| self := w;
        log := lg ++ [info_line "GetRadioProxy"; error_line "Get Radio hal failed"];
        sent := snt |}).
Proof.
  intros Hnull Hid Hsvc. destruct w as [p d cb id]. simpl in *. subst p.
  assert (id = 0 \/ id = 1 \/ id = 2) as [-> | [-> | ->]] by lia;
    unfold GetRadioProxy, bind, get_self, set_mRadioProxy, put_self, INFO, ERROR,
      write_log, service_name, ret; simpl; rewrite Hsvc; simpl;
    rewrite <- app_assoc; reflexivity.
Qed.

(** A proxy that is already held is used as it is. *)
Lemma GetRadioProxy_cached (radio : RadioHal) (st : State) (p : string) :
  mRadioProxy (self st) = Some p ->
  GetRadioProxy radio st = (Returned tt, st).
Proof.
  intro H. unfold GetRadioProxy, bind, get_self, ret. simpl. rewrite H. reflexivity.
Qed.

(** The shared body of the forwarding methods, with no service registered:
    the two error lines are logged and the call is then attempted through
    the null handle. *)
Lemma forward_no_service (radio : RadioHal) (info : string) (c : HalCall)
      (w : nsRilWorker) (lg : list LogLine) (snt : list (HalCall * bool)) :
  mRadioProxy w = None ->
  0 <= mClientId w < 3 ->
  (forall name, getService radio name = false) ->
  forward radio info c {| self := w; log := lg; sent := snt |} =
    (Crashed (NullProxyCall c),
     {| self := w;
        log := lg ++ [info_line info; info_line "GetRadioProxy";
                      error_line "Get Radio hal failed";
                      error_line "No Radio HAL exist"];
        sent := snt |}).
Proof.
  intros Hnull Hid Hsvc. unfold forward, bind at 1. unfold INFO at 1, write_log.
  unfold bind at 1.
  rewrite (GetRadioProxy_no_service radio w _ snt Hnull Hid Hsvc).
  unfold bind, get_self, ERROR, write_log, proxy_call, ret. simpl.
  rewrite Hnull. simpl. rewrite Hnull.
  rewrite <- !app_assoc. reflexivity.
Qed.

(** The shared body with the proxy at hand: the call goes out, its
    transport status is dropped, the answer is [NS_OK]. *)
Lemma forward_cached (radio : RadioHal) (info : string) (c : HalCall)
      (st : State) (p : string) :
  mRadioProxy (self st) = Some p ->
  forward radio info c st =
    (Returned NS_OK,
     {| self := self st;
        log := log st ++ [info_line info];
        sent := sent st ++ [(c, transport_ok radio c)] |}).
Proof.
  intro H. unfold forward, bind at 1. unfold INFO at 1, write_log.
  unfold bind at 1.
  rewrite (GetRadioProxy_cached radio _ p) by exact H.
  unfold bind, get_self, ERROR, write_log, proxy_call, ret. simpl.
  rewrite H. simpl. rewrite H. reflexivity.
Qed.

(** Every forwarding method is the shared body around its own call. *)
Lemma invoke_forwarder (radio : RadioHal) (r : Request) :
  is_forwarder r = true ->
  exists c, marshal r = Some c /\ invoke radio r = forward radio (request_line r) c.
Proof.
  destruct r; intro H; try discriminate H; eexists; split; reflexivity.
Qed.

(** C5.  For every forwarding method of the worker: when no Radio HAL
    service is registered, so that [GetRadioProxy] leaves [mRadioProxy]
    null, the method logs "No Radio HAL exist" and then makes its HAL call
    through the null handle all the same; nothing is sent. *)
Theorem forwarder_calls_through_null_proxy
        (radio : RadioHal) (r : Request) (w : nsRilWorker)
        (lg : list LogLine) (snt : list (HalCall * bool)) :
  is_forwarder r = true ->
  mRadioProxy w = None ->
  0 <= mClientId w < 3 ->
  (forall name, getService radio name = false) ->
  exists c,
    marshal r = Some c
    /\ invoke radio r {| self := w; log := lg; sent := snt |} =
         (Crashed (NullProxyCall c),
          {| self := w;
             log := lg ++ [info_line (request_line r); info_line "GetRadioProxy";
                           error_line "Get Radio hal failed";
                           error_line "No Radio HAL exist"];
             sent := snt |}).
Proof.
  intros Hf Hnull Hid Hsvc.
  destruct (invoke_forwarder radio r Hf) as (c & Hc & Hinv).
  exists c. split; [exact Hc |].
  rewrite Hinv. now apply forward_no_service.
Qed.

(** C5 on [SetRadioPower] for a fresh worker of slot 0. *)
Lemma forwarder_calls_through_null_proxy_witness :
  exists c,
    marshal (SetRadioPower 7 true) = Some c
    /\ invoke no_radio (SetRadioPower 7 true) (fresh_worker 0) =
         (Crashed (NullProxyCall c),
          {| self := self (fresh_worker 0);
             log := [] ++
                    [info_line (request_line (SetRadioPower 7 true));
                     info_line "GetRadioProxy";
                     error_line "Get Radio hal failed";
                     error_line "No Radio HAL exist"];
             sent := [] |}).
Proof.
  apply (forwarder_calls_through_null_proxy no_radio (SetRadioPower 7 true)
           (self (fresh_worker 0)) [] []).
  - reflexivity.
  - reflexivity.
  - simpl. lia.
  - intro name. reflexivity.
Defined.

(** [sendAck], for comparison, does not touch a null proxy. *)
Lemma sendAck_guards_null_proxy (radio : RadioHal) (w : nsRilWorker)
      (lg : list LogLine) (snt : list (HalCall * bool)) :
  mRadioProxy w = None ->
  0 <= mClientId w < 3 ->
  (forall name, getService radio name = false) ->
  fst (sendAck radio {| self := w; log := lg; sent := snt |}) = Returned tt.
Proof.
  intros Hnull Hid Hsvc. unfold sendAck, bind at 1. unfold INFO at 1, write_log.
  unfold bind at 1.
  rewrite (GetRadioProxy_no_service radio w _ snt Hnull Hid Hsvc).
  unfold bind, get_self, ERROR, write_log. simpl. rewrite Hnull. reflexivity.
Qed.

(** The four methods that are not forwarders return [NS_OK] without a HAL
    call of their own, also with no service registered. *)
Lemma stub_methods_do_not_call (serial : Z) (activate : bool) (ranges : list Z) :
  invoke no_radio SendRilRequest (fresh_worker 0) = (Returned NS_OK, fresh_worker 0)
  /\ fst (invoke no_radio (InitRil true) (fresh_worker 0)) = Returned NS_OK
  /\ fst (invoke no_radio (SetGsmBroadcastActivation serial activate) (fresh_worker 0))
     = Returned NS_OK
  /\ fst (invoke no_radio (SetGsmBroadcastConfig serial ranges) (fresh_worker 0))
     = Returned NS_OK.
Proof. repeat split. Qed.


(** Whenever the shared body returns, its own call is the last one that
    went out. *)
Lemma forward_sends_last (radio : RadioHal) (info : string) (c : HalCall)
      (st st' : State) (res : nsresult) :
  forward radio info c st = (Returned res, st') ->
  res = NS_OK
  /\ exists earlier, sent st' = earlier ++ [(c, transport_ok radio c)].
Proof.
  unfold forward, bind at 1. unfold INFO at 1, write_log.
  unfold bind at 1.
  destruct (GetRadioProxy radio _) as [[[] | f] s1]; [| discriminate].
  unfold bind, get_self, ERROR, write_log, proxy_call, ret.
  destruct (mRadioProxy (self s1)) as [p |] eqn:Hp; simpl; rewrite Hp;
    [| discriminate].
  intros [= <- <-]. split; [reflexivity |]. now exists (sent s1).
Qed.

(** C10.  [SetCellInfoListRate] hands [setCellInfoListRate] to the proxy
    with the rate [INT32_MAX] when it was given 0 and with the given rate
    otherwise: this is the last call that went out whenever the method
    returns, and with the proxy already at hand it is the one call the
    method sends, and the method answers [NS_OK]. *)
Theorem SetCellInfoListRate_forwarded_rate
        (radio : RadioHal) (st : State) (serial rateInMillis : Z) :
  let call rate := hal "setCellInfoListRate" [AInt serial; AInt rate] in
  let forwarded := if rateInMillis =? 0 then INT32_MAX else rateInMillis in
  (rateInMillis = 0 -> forwarded = INT32_MAX)
  /\ (rateInMillis <> 0 -> forwarded = rateInMillis)
  /\ (forall res st',
        invoke radio (SetCellInfoListRate serial rateInMillis) st = (Returned res, st') ->
        res = NS_OK
        /\ exists earlier,
             sent st' = earlier ++ [(call forwarded, transport_ok radio (call forwarded))])
  /\ (forall p,
        mRadioProxy (self st) = Some p ->
        fst (invoke radio (SetCellInfoListRate serial rateInMillis) st) = Returned NS_OK
        /\ sent (snd (invoke radio (SetCellInfoListRate serial rateInMillis) st))
           = sent st ++ [(call forwarded, transport_ok radio (call forwarded))]).
Proof.
  intros call forwarded. repeat split.
  - intros ->. reflexivity.
  - intro Hnz. unfold forwarded. apply Z.eqb_neq in Hnz. now rewrite Hnz.
  - eapply forward_sends_last. exact H.
  - eapply forward_sends_last. exact H.
  - unfold invoke. cbn [marshal]. now rewrite (forward_cached radio _ _ st p H).
  - unfold invoke. cbn [marshal]. now rewrite (forward_cached radio _ _ st p H).
Qed.

(** C10 at rate 0 and at rate 5000. *)
Lemma SetCellInfoListRate_forwarded_rate_witness :
  sent (snd (invoke good_radio (SetCellInfoListRate 3 0) connected_worker))
    = [(hal "setCellInfoListRate" [AInt 3; AInt 2147483647], true)]
  /\ sent (snd (invoke good_radio (SetCellInfoListRate 4 5000) connected_worker))
    = [(hal "setCellInfoListRate" [AInt 4; AInt 5000], true)].
Proof.
  split.
  - apply (proj2 (proj2 (proj2
             (SetCellInfoListRate_forwarded_rate good_radio connected_worker 3 0)))
             "slot1").
    reflexivity.
  - apply (proj2 (proj2 (proj2
             (SetCellInfoListRate_forwarded_rate good_radio connected_worker 4 5000)))
             "slot1").
    reflexivity.
Defined.

(** A fresh worker that finds the service fetches the proxy first and then
    sends the same call. *)
Lemma SetCellInfoListRate_fresh_worker_sample :
  invoke good_radio (SetCellInfoListRate 3 0) (fresh_worker 0) =
    (Returned NS_OK,
     {| self := {| mRadioProxy := Some "slot1"; mDeathRecipient := true;
                   mRilCallback := false; mClientId := 0 |};
        log := [info_line (request_line (SetCellInfoListRate 3 0));
                info_line "GetRadioProxy"; info_line "setResponseFunctions"];
        sent := [(hal "linkToDeath" [AInt 0], true);
                 (hal "setResponseFunctions" [], true);
                 (hal "setCellInfoListRate" [AInt 3; AInt INT32_MAX], true)] |}).
Proof. reflexivity. Qed.


(** *** Fetching the proxy *)

(** [GetRadioProxy] on a worker without proxy whose service is
    registered. *)
Lemma GetRadioProxy_with_service (radio : RadioHal) (st : State) (name : string) :
  mRadioProxy (self st) = None ->
  0 <= mClientId (self st) ->
  nth_error HIDL_SERVICE_NAME (Z.to_nat (mClientId (self st))) = Some name ->
  getService radio name = true ->
  GetRadioProxy radio st = (Returned tt, with_proxy radio name st).
Proof.
  intros Hnull Hid Hname Hsvc.
  destruct st as [[p d cb id] lg snt]. simpl in *. subst p.
  unfold GetRadioProxy, bind, get_self, set_mRadioProxy, set_mDeathRecipient,
    put_self, INFO, ERROR, write_log, service_name, proxy_call, ret, with_proxy,
    link_failure_lines, link_call, response_functions_call.
  cbn -[nth_error HIDL_SERVICE_NAME Z.ltb].
  destruct (Z.ltb_spec id 0) as [Hneg | _]; [lia |].
  rewrite Hname. cbn. rewrite Hsvc. cbn.
  destruct d; cbn;
    destruct (linkToDeath radio), (transport_ok radio (hal "linkToDeath" [AInt 0]));
    cbn; rewrite <- ?app_assoc; reflexivity.
Qed.

(** [GetRadioProxy] on a worker whose client id is past the three service
    names: the service is looked up under what the read yields. *)
Lemma GetRadioProxy_past_table_found (radio : RadioHal) (st : State) :
  mRadioProxy (self st) = None ->
  3 <= mClientId (self st) ->
  getService radio (beyond_HIDL_SERVICE_NAME radio (mClientId (self st))) = true ->
  GetRadioProxy radio st
  = (Returned tt,
     with_proxy radio (beyond_HIDL_SERVICE_NAME radio (mClientId (self st))) st).
Proof.
  intros Hnull Hid Hsvc.
  destruct st as [[p d cb id] lg snt]. simpl in *. subst p.
  unfold GetRadioProxy, bind, get_self, set_mRadioProxy, set_mDeathRecipient,
    put_self, INFO, ERROR, write_log, service_name, proxy_call, ret, with_proxy,
    link_failure_lines, link_call, response_functions_call.
  cbn -[nth_error HIDL_SERVICE_NAME Z.ltb].
  destruct (Z.ltb_spec id 0) as [Hneg | _]; [lia |].
  assert (nth_error HIDL_SERVICE_NAME (Z.to_nat id) = None) as ->.
  { apply nth_error_None. simpl. lia. }
  cbn. rewrite Hsvc. cbn.
  destruct d; cbn;
    destruct (linkToDeath radio), (transport_ok radio (hal "linkToDeath" [AInt 0]));
    cbn; rewrite <- ?app_assoc; reflexivity.
Qed.

Lemma GetRadioProxy_past_table_not_found (radio : RadioHal) (st : State) :
  mRadioProxy (self st) = None ->
  3 <= mClientId (self st) ->
  getService radio (beyond_HIDL_SERVICE_NAME radio (mClientId (self st))) = false ->
  GetRadioProxy radio st
  = (Returned tt,
     logged (error_line "Get Radio hal failed")
            (logged (info_line "GetRadioProxy") st)).
Proof.
  intros Hnull Hid Hsvc.
  destruct st as [[p d cb id] lg snt]. simpl in *. subst p.
  unfold GetRadioProxy, bind, get_self, set_mRadioProxy, put_self, INFO, ERROR,
    write_log, service_name, ret, logged.
  cbn -[nth_error HIDL_SERVICE_NAME Z.ltb].
  destruct (Z.ltb_spec id 0) as [Hneg | _]; [lia |].
  assert (nth_error HIDL_SERVICE_NAME (Z.to_nat id) = None) as ->.
  { apply nth_error_None. simpl. lia. }
  cbn. rewrite Hsvc. reflexivity.
Qed.

(** Open the shared beginning of a method: the first log line, then
    [GetRadioProxy], rewritten with [lemma]. *)
Ltac after_first_line_fetch radio lemma :=
  unfold bind at 1; unfold INFO at 1, write_log; unfold bind at 1;
  match goal with
  | |- context [GetRadioProxy radio ?s] => let l := lemma s in rewrite l
  end.

(** X9.  The proxy is fetched once.  The first forwarding method called on
    a worker whose service is registered links the death recipient, sets
    the response functions and then sends its own call; a failed link is
    logged and holds nothing up.  The forwarding method called next sends
    its own call and nothing else.  Both answer [NS_OK]. *)
Theorem proxy_is_fetched_once
        (radio : RadioHal) (st : State) (name : string) (r1 r2 : Request)
        (c1 c2 : HalCall) :
  mRadioProxy (self st) = None ->
  0 <= mClientId (self st) ->
  nth_error HIDL_SERVICE_NAME (Z.to_nat (mClientId (self st))) = Some name ->
  getService radio name = true ->
  marshal r1 = Some c1 ->
  marshal r2 = Some c2 ->
  let st1 :=
    sent_out radio c1
      (with_proxy radio name (logged (info_line (request_line r1)) st)) in
  let st2 := sent_out radio c2 (logged (info_line (request_line r2)) st1) in
  invoke radio r1 st = (Returned NS_OK, st1)
  /\ invoke radio r2 st1 = (Returned NS_OK, st2)
  /\ sent st2 = sent st ++ [(link_call, transport_ok radio link_call);
                            (response_functions_call,
                             transport_ok radio response_functions_call);
                            (c1, transport_ok radio c1);
                            (c2, transport_ok radio c2)].
Proof.
  intros Hnull Hid Hname Hsvc Hc1 Hc2 st1 st2.
  assert (is_forwarder r1 = true) as Hf1 by (destruct r1; try reflexivity; discriminate).
  assert (is_forwarder r2 = true) as Hf2 by (destruct r2; try reflexivity; discriminate).
  destruct (invoke_forwarder radio r1 Hf1) as (c1' & Hc1' & ->).
  destruct (invoke_forwarder radio r2 Hf2) as (c2' & Hc2' & ->).
  rewrite Hc1 in Hc1'. injection Hc1' as <-.
  rewrite Hc2 in Hc2'. injection Hc2' as <-.
  split; [| split].
  - unfold forward.
    after_first_line_fetch radio
      ltac:(fun s => constr:(GetRadioProxy_with_service radio s name Hnull Hid Hname Hsvc)).
    reflexivity.
  - rewrite (forward_cached radio _ c2 st1 name) by reflexivity. reflexivity.
  - unfold st2, st1, sent_out, with_proxy, logged. cbn [sent].
    rewrite <- !app_assoc. reflexivity.
Qed.

(** X9 on a fresh worker of slot 0: [SetRadioPower], then
    [GetIccCardStatus]. *)
Lemma proxy_is_fetched_once_witness :
  sent (snd (invoke good_radio (GetIccCardStatus 2)
               (snd (invoke good_radio (SetRadioPower 1 true) (fresh_worker 0)))))
  = [(hal "linkToDeath" [AInt 0], true);
     (hal "setResponseFunctions" [], true);
     (hal "setRadioPower" [AInt 1; ABool true], true);
     (hal "getIccCardStatus" [AInt 2], true)].
Proof.
  pose proof (proxy_is_fetched_once good_radio (fresh_worker 0) "slot1"
                (SetRadioPower 1 true) (GetIccCardStatus 2)
                (hal "setRadioPower" [AInt 1; ABool true])
                (hal "getIccCardStatus" [AInt 2])
                eq_refl ltac:(simpl; lia) eq_refl eq_refl eq_refl eq_refl)
    as (H1 & H2 & H3).
  rewrite H1. cbn [snd]. rewrite H2. cbn [snd]. exact H3.
Defined.

(** X10.  Nothing checks the client id against the three service names.
    On a worker built for a client id of 3 or more, a forwarding method
    looks the service up under whatever the read of [HIDL_SERVICE_NAME]
    past its end yields, and goes on as it does for a slot of the table:
    when a service is found under that name it links the death recipient,
    sets the response functions, sends its own call and answers [NS_OK];
    when none is found it logs the two errors and makes its call through
    the null handle. *)
Theorem client_id_is_not_checked
        (radio : RadioHal) (st : State) (r : Request) (c : HalCall) :
  mRadioProxy (self st) = None ->
  3 <= mClientId (self st) ->
  marshal r = Some c ->
  let name := beyond_HIDL_SERVICE_NAME radio (mClientId (self st)) in
  (getService radio name = true ->
   invoke radio r st =
     (Returned NS_OK,
      sent_out radio c
        (with_proxy radio name (logged (info_line (request_line r)) st))))
  /\ (getService radio name = false ->
      invoke radio r st =
        (Crashed (NullProxyCall c),
         logged (error_line "No Radio HAL exist")
           (logged (error_line "Get Radio hal failed")
              (logged (info_line "GetRadioProxy")
                 (logged (info_line (request_line r)) st))))).
Proof.
  intros Hnull Hid Hc name.
  assert (is_forwarder r = true) as Hf by (destruct r; try reflexivity; discriminate).
  destruct (invoke_forwarder radio r Hf) as (c' & Hc' & ->).
  rewrite Hc in Hc'. injection Hc' as <-.
  split; intro Hsvc; unfold forward.
  - after_first_line_fetch radio
      ltac:(fun s => constr:(GetRadioProxy_past_table_found radio s Hnull Hid Hsvc)).
    reflexivity.
  - after_first_line_fetch radio
      ltac:(fun s => constr:(GetRadioProxy_past_table_not_found radio s Hnull Hid Hsvc)).
    unfold bind, get_self, ERROR, write_log, proxy_call, ret, logged. cbn.
    rewrite Hnull. cbn. rewrite Hnull. reflexivity.
Qed.

(** X10 on a worker built for client id 3, where a service is found under
    the name that is read: three calls go out and the method answers
    [NS_OK]. *)
Lemma client_id_is_not_checked_witness :
  invoke good_radio (GetSignalStrength 9) (fresh_worker 3) =
    (Returned NS_OK,
     {| self := {| mRadioProxy := Some ""; mDeathRecipient := true;
                   mRilCallback := false; mClientId := 3 |};
        log := [info_line (request_line (GetSignalStrength 9));
                info_line "GetRadioProxy"; info_line "setResponseFunctions"];
        sent := [(hal "linkToDeath" [AInt 0], true);
                 (hal "setResponseFunctions" [], true);
                 (hal "getSignalStrength" [AInt 9], true)] |}).
Proof.
  apply (proj1 (client_id_is_not_checked good_radio (fresh_worker 3)
                  (GetSignalStrength 9) (hal "getSignalStrength" [AInt 9])
                  eq_refl ltac:(simpl; lia) eq_refl)).
  reflexivity.
Defined.

(** *** Acknowledgements *)

(** [sendAck] with the proxy at hand. *)
Lemma sendAck_cached (radio : RadioHal) (st : State) (p : string) :
  mRadioProxy (self st) = Some p ->
  sendAck radio st
  = (Returned tt, sent_out radio ack_call (logged (info_line "sendAck") st)).
Proof.
  intro H. unfold sendAck, bind at 1. unfold INFO at 1, write_log. unfold bind at 1.
  rewrite (GetRadioProxy_cached radio _ p) by exact H.
  unfold bind, get_self, proxy_call, ret. simpl. rewrite H. simpl. rewrite H.
  reflexivity.
Qed.

(** [sendAck] with no service registered. *)
Lemma sendAck_no_service (radio : RadioHal) (st : State) :
  mRadioProxy (self st) = None ->
  0 <= mClientId (self st) < 3 ->
  (forall name, getService radio name = false) ->
  sendAck radio st =
    (Returned tt,
     logged (error_line "sendAck mRadioProxy == nullptr")
       (logged (error_line "Get Radio hal failed")
          (logged (info_line "GetRadioProxy") (logged (info_line "sendAck") st)))).
Proof.
  intros Hnull Hid Hsvc. destruct st as [w lg snt]. simpl in *.
  unfold sendAck, bind at 1. unfold INFO at 1, write_log. unfold bind at 1.
  cbn [self log sent].
  rewrite (GetRadioProxy_no_service radio w _ snt Hnull Hid Hsvc).
  unfold bind, get_self, ERROR, write_log, logged. simpl. rewrite Hnull. simpl.
  rewrite <- !app_assoc. reflexivity.
Qed.

Ltac after_first_line_ack radio lemma :=
  unfold bind at 1; unfold INFO at 1, write_log;
  try (unfold bind at 1;
       match goal with
       | |- context [sendAck radio ?s] => let l := lemma s in rewrite l
       end);
  reflexivity.

Lemma processResponse_cached (radio : RadioHal) (st : State) (p : string)
      (responseType : RadioResponseType) :
  mRadioProxy (self st) = Some p ->
  processResponse radio responseType st =
    (Returned tt,
     let st := logged (info_line "processResponse, type= %d") st in
     match responseType with
     | SOLICITED_ACK_EXP =>
       logged (info_line "Solicited response received; Sending ack to ril.cpp")
              (sent_out radio ack_call (logged (info_line "sendAck") st))
     | _ => st
     end).
Proof.
  intro Hp. unfold processResponse.
  destruct responseType;
    after_first_line_ack radio ltac:(fun s => constr:(sendAck_cached radio s p Hp)).
Qed.

Lemma processIndication_cached (radio : RadioHal) (st : State) (p : string)
      (indicationType : RadioIndicationType) :
  mRadioProxy (self st) = Some p ->
  processIndication radio indicationType st =
    (Returned tt,
     let st := logged (info_line "processIndication, type= %d") st in
     match indicationType with
     | UNSOLICITED_ACK_EXP =>
       logged (info_line "Unsol response received; Sending ack to ril.cpp")
              (sent_out radio ack_call (logged (info_line "sendAck") st))
     | UNSOLICITED => st
     end).
Proof.
  intro Hp. unfold processIndication.
  destruct indicationType;
    after_first_line_ack radio ltac:(fun s => constr:(sendAck_cached radio s p Hp)).
Qed.

Lemma processResponse_no_service (radio : RadioHal) (st : State)
      (responseType : RadioResponseType) :
  mRadioProxy (self st) = None ->
  0 <= mClientId (self st) < 3 ->
  (forall name, getService radio name = false) ->
  fst (processResponse radio responseType st) = Returned tt
  /\ sent (snd (processResponse radio responseType st)) = sent st
  /\ self (snd (processResponse radio responseType st)) = self st.
Proof.
  intros Hnull Hid Hsvc.
  assert (exists st', processResponse radio responseType st = (Returned tt, st')
                      /\ sent st' = sent st /\ self st' = self st)
    as (st' & -> & H); [| exact (conj eq_refl H)].
  unfold processResponse.
  destruct responseType; eexists; (split; [
    after_first_line_ack radio
      ltac:(fun s => constr:(sendAck_no_service radio s Hnull Hid Hsvc)) |]);
    split; reflexivity.
Qed.

Lemma processIndication_no_service (radio : RadioHal) (st : State)
      (indicationType : RadioIndicationType) :
  mRadioProxy (self st) = None ->
  0 <= mClientId (self st) < 3 ->
  (forall name, getService radio name = false) ->
  fst (processIndication radio indicationType st) = Returned tt
  /\ sent (snd (processIndication radio indicationType st)) = sent st
  /\ self (snd (processIndication radio indicationType st)) = self st.
Proof.
  intros Hnull Hid Hsvc.
  assert (exists st', processIndication radio indicationType st = (Returned tt, st')
                      /\ sent st' = sent st /\ self st' = self st)
    as (st' & -> & H); [| exact (conj eq_refl H)].
  unfold processIndication.
  destruct indicationType; eexists; (split; [
    after_first_line_ack radio
      ltac:(fun s => constr:(sendAck_no_service radio s Hnull Hid Hsvc)) |]);
    split; reflexivity.
Qed.

(** X11.  An acknowledgement goes back to the HAL for the responses of
    type [SOLICITED_ACK_EXP] and the indications of type
    [UNSOLICITED_ACK_EXP], and for no other: with the proxy at hand,
    [processResponse] and [processIndication] send
    [responseAcknowledgement] once for these types and send nothing for
    the others; the worker itself is left as it was. *)
Theorem acknowledgement_only_when_expected
        (radio : RadioHal) (st : State) (p : string)
        (responseType : RadioResponseType) (indicationType : RadioIndicationType) :
  mRadioProxy (self st) = Some p ->
  let ack := [(ack_call, transport_ok radio ack_call)] in
  let response := processResponse radio responseType st in
  let indication := processIndication radio indicationType st in
  fst response = Returned tt
  /\ self (snd response) = self st
  /\ sent (snd response) =
       sent st ++ match responseType with SOLICITED_ACK_EXP => ack | _ => [] end
  /\ fst indication = Returned tt
  /\ self (snd indication) = self st
  /\ sent (snd indication) =
       sent st ++ match indicationType with UNSOLICITED_ACK_EXP => ack | _ => [] end.
Proof.
  intros Hp ack response indication. unfold response, indication.
  rewrite (processResponse_cached radio st p responseType Hp).
  rewrite (processIndication_cached radio st p indicationType Hp).
  destruct responseType, indicationType; cbn; rewrite ?List.app_nil_r;
    repeat split; reflexivity.
Qed.

(** X11 on a worker that holds its proxy. *)
Lemma acknowledgement_only_when_expected_witness :
  sent (snd (processResponse good_radio SOLICITED_ACK_EXP connected_worker))
    = [(hal "responseAcknowledgement" [], true)]
  /\ sent (snd (processResponse good_radio SOLICITED connected_worker)) = []
  /\ sent (snd (processIndication good_radio UNSOLICITED_ACK_EXP connected_worker))
    = [(hal "responseAcknowledgement" [], true)].
Proof.
  pose proof (acknowledgement_only_when_expected good_radio connected_worker "slot1"
                SOLICITED_ACK_EXP UNSOLICITED_ACK_EXP eq_refl) as H1.
  pose proof (acknowledgement_only_when_expected good_radio connected_worker "slot1"
                SOLICITED UNSOLICITED eq_refl) as H2.
  cbv zeta in H1, H2.
  split; [exact (proj1 (proj2 (proj2 H1))) | split].
  - exact (proj1 (proj2 (proj2 H2))).
  - exact (proj2 (proj2 (proj2 (proj2 (proj2 H1))))).
Defined.

Lemma InitRil_no_service (radio : RadioHal) (w : nsRilWorker)
      (lg : list LogLine) (snt : list (HalCall * bool)) (callback : bool) :
  mRadioProxy w = None ->
  0 <= mClientId w < 3 ->
  (forall name, getService radio name = false) ->
  invoke radio (InitRil callback) {| self := w; log := lg; sent := snt |} =
    (Returned NS_OK,
     {| self := {| mRadioProxy := mRadioProxy w;
                   mDeathRecipient := mDeathRecipient w;
                   mRilCallback := callback; mClientId := mClientId w |};
        log := lg ++ [info_line "GetRadioProxy"; error_line "Get Radio hal failed"];
        sent := snt |}).
Proof.
  intros Hnull Hid Hsvc.
  unfold invoke, bind at 1, set_mRilCallback, bind at 1, get_self, put_self.
  cbn [self log sent]. unfold bind at 1.
  match goal with
  | |- context [GetRadioProxy radio {| self := ?w'; log := ?l; sent := ?s |}] =>
    rewrite (GetRadioProxy_no_service radio w' l s Hnull Hid Hsvc)
  end.
  reflexivity.
Qed.

(** X12.  The paths that do check the proxy.  With no Radio HAL service
    registered, [InitRil] (which stores the callback), [processResponse]
    and [processIndication] return without a call through the null
    proxy: nothing is sent and the proxy stays null, where a forwarding
    method faults. *)
Theorem entry_points_that_guard_the_proxy
        (radio : RadioHal) (st : State) (callback : bool)
        (responseType : RadioResponseType) (indicationType : RadioIndicationType) :
  mRadioProxy (self st) = None ->
  0 <= mClientId (self st) < 3 ->
  (forall name, getService radio name = false) ->
  let init := invoke radio (InitRil callback) st in
  let response := processResponse radio responseType st in
  let indication := processIndication radio indicationType st in
  (fst init = Returned NS_OK
   /\ sent (snd init) = sent st
   /\ mRadioProxy (self (snd init)) = None
   /\ mRilCallback (self (snd init)) = callback)
  /\ (fst response = Returned tt
      /\ sent (snd response) = sent st /\ self (snd response) = self st)
  /\ (fst indication = Returned tt
      /\ sent (snd indication) = sent st /\ self (snd indication) = self st).
Proof.
  intros Hnull Hid Hsvc init response indication.
  split; [| split].
  - unfold init. destruct st as [w lg snt]. cbn [self] in Hnull, Hid.
    rewrite (InitRil_no_service radio w lg snt callback Hnull Hid Hsvc).
    cbn. now repeat split.
  - now apply processResponse_no_service.
  - now apply processIndication_no_service.
Qed.

(** X12 on a fresh worker of slot 0 with no service registered. *)
Lemma entry_points_that_guard_the_proxy_witness :
  fst (invoke no_radio (InitRil true) (fresh_worker 0)) = Returned NS_OK
  /\ fst (processResponse no_radio SOLICITED_ACK_EXP (fresh_worker 0)) = Returned tt
  /\ fst (processIndication no_radio UNSOLICITED_ACK_EXP (fresh_worker 0))
     = Returned tt.
Proof.
  pose proof (entry_points_that_guard_the_proxy no_radio (fresh_worker 0) true
                SOLICITED_ACK_EXP UNSOLICITED_ACK_EXP eq_refl
                ltac:(simpl; lia) (fun _ => eq_refl)) as H.
  cbv zeta in H.
  split; [exact (proj1 (proj1 H)) | split].
  - exact (proj1 (proj1 (proj2 H))).
  - exact (proj1 (proj2 (proj2 H))).
Defined.

(** *** What the requests are marshalled into *)

(** X13.  No method of the worker sets call forwarding: no request is
    marshalled into the HAL method [setCallForward], and
    [SetCallForwardStatus] sends [getCallForwardStatus], the method
    [GetCallForwardStatus] sends, with the action in the status field. *)
Theorem call_forwarding_is_only_queried :
  (forall (r : Request) (c : HalCall),
      marshal r = Some c -> hal_method c <> "setCallForward")
  /\ (forall (serial action cfReason serviceClass : Z) (number : string)
             (toaNumber : Z),
        marshal (SetCallForwardStatus serial action cfReason serviceClass
                                      number toaNumber)
        = Some (hal "getCallForwardStatus"
                    [AInt serial;
                     AStruct [AInt action; AInt cfReason; AInt serviceClass;
                              AInt toaNumber; AStr (c_str number); AInt 0]])
        /\ marshal (GetCallForwardStatus serial cfReason serviceClass
                                         number toaNumber)
           = Some (hal "getCallForwardStatus"
                       [AInt serial;
                        AStruct [AUninit; AInt cfReason; AInt serviceClass;
                                 AInt toaNumber; AStr (c_str number); AInt 0]])).
Proof.
  split.
  - intros r c. destruct r; simpl; intros [= <-]; simpl; discriminate.
  - intros. split; reflexivity.
Qed.

(** X13 on a request to register an unconditional forwarding. *)
Lemma call_forwarding_is_only_queried_witness :
  hal_method (hal "getCallForwardStatus"
                  [AInt 5; AStruct [AInt 3; AInt 0; AInt 1; AInt 145;
                                    AStr "+15550100"; AInt 0]])
  <> "setCallForward".
Proof.
  apply (proj1 call_forwarding_is_only_queried
           (SetCallForwardStatus 5 3 0 1 "+15550100" 145)).
  reflexivity.
Defined.

(** X14.  Every request that is passed on carries its own serial number as
    the first argument of the HAL call. *)
Theorem serial_is_first_argument (r : Request) (c : HalCall) :
  marshal r = Some c ->
  exists serial rest,
    serial_of r = Some serial /\ hal_args c = AInt serial :: rest.
Proof.
  destruct r; simpl; intros [= <-]; do 2 eexists; split; reflexivity.
Qed.

(** X14 on a dial request. *)
Lemma serial_is_first_argument_witness :
  exists serial rest,
    serial_of (RequestDial 17 "112" 0 0 0 "") = Some serial
    /\ hal_args (hal "dial" [AInt 17;
                             AStruct [AStr "112"; AInt 0;
                                      AVec [AStruct [AInt 0; AInt 0; ANull]]]])
       = AInt serial :: rest.
Proof.
  apply (serial_is_first_argument (RequestDial 17 "112" 0 0 0 "")).
  reflexivity.
Defined.

(** *** From the HAL callbacks to the listener *)

Lemma receive_dispatches (th : Threads) (e : HalCallback) :
  self (worker (receive th e)) = self (worker th)
  /\ handled (receive th e) = handled th
  /\ main_thread (receive th e) = main_thread th ++ dispatched_for e.
Proof.
  destruct e as [i | r]; unfold receive, sendRilIndicationResult,
    sendRilResponseResult, dispatched_for; cbn.
  - repeat split.
  - destruct (0 <? mRilMessageToken r); cbn; rewrite ?List.app_nil_r; repeat split.
Qed.

Lemma receive_all_dispatches (events : list HalCallback) (th : Threads) :
  self (worker (fold_left receive events th)) = self (worker th)
  /\ handled (fold_left receive events th) = handled th
  /\ main_thread (fold_left receive events th)
     = main_thread th ++ flat_map dispatched_for events.
Proof.
  revert th. induction events as [| e events IH]; intro th; simpl.
  - now rewrite List.app_nil_r.
  - destruct (IH (receive th e)) as (Hs & Hh & Hq).
    destruct (receive_dispatches th e) as (Hs' & Hh' & Hq').
    rewrite Hs, Hh, Hq, Hs', Hh', Hq', <- app_assoc. now repeat split.
Qed.

Lemma Run_delivers (runnable : RilResultDispatcher) (th : Threads) :
  fst (Run runnable th) = NS_OK
  /\ self (worker (snd (Run runnable th))) = self (worker th)
  /\ main_thread (snd (Run runnable th)) = main_thread th
  /\ handled (snd (Run runnable th))
     = handled th ++ (if mRilCallback (self (worker th))
                      then delivered_by runnable else []).
Proof.
  unfold Run, delivered_by.
  destruct (mRilCallback (self (worker th))), (mResponse runnable),
    (mIndication runnable); cbn; rewrite ?List.app_nil_r; repeat split.
Qed.

Lemma Run_all_delivers (queue : list RilResultDispatcher) (th : Threads) :
  let after := fold_left (fun th runnable => snd (Run runnable th)) queue th in
  self (worker after) = self (worker th)
  /\ main_thread after = main_thread th
  /\ handled after
     = handled th ++ (if mRilCallback (self (worker th))
                      then flat_map delivered_by queue else []).
Proof.
  revert th. induction queue as [| r queue IH]; intro th; simpl.
  - destruct (mRilCallback (self (worker th))); now rewrite List.app_nil_r.
  - destruct (IH (snd (Run r th))) as (Hs & Hq & Hh).
    destruct (Run_delivers r th) as (_ & Hs' & Hq' & Hh').
    rewrite Hs, Hq, Hh, Hs', Hq', Hh', <- app_assoc.
    repeat split. now destruct (mRilCallback (self (worker th))).
Qed.

Lemma delivered_of_dispatched (events : list HalCallback) :
  flat_map delivered_by (flat_map dispatched_for events)
  = flat_map for_the_listener events.
Proof.
  induction events as [| e events IH]; [reflexivity |].
  simpl. rewrite flat_map_app, IH. f_equal.
  destruct e as [i | r]; simpl; [reflexivity |].
  now destruct (0 <? mRilMessageToken r).
Qed.

(** X15.  What the HAL hands to the worker reaches the listener in the
    order of arrival: once the main thread has run, [mRilCallback] has
    received every indication and every response with a positive token,
    each once and in order; a response whose token is not positive (an
    internal request) is never handed on; and with no callback registered
    by then, everything is dropped and nothing is kept for later. *)
Theorem results_reach_the_listener_in_order
        (th : Threads) (events : list HalCallback) :
  main_thread th = [] ->
  let after := main_thread_runs (fold_left receive events th) in
  handled after
  = handled th ++ (if mRilCallback (self (worker th))
                   then flat_map for_the_listener events else [])
  /\ main_thread after = []
  /\ self (worker after) = self (worker th).
Proof.
  intros Hempty after. unfold after, main_thread_runs.
  destruct (receive_all_dispatches events th) as (Hs & Hh & Hq).
  rewrite Hempty in Hq. cbn [app] in Hq.
  match goal with
  | |- context [fold_left ?f ?q ?start] =>
    destruct (Run_all_delivers q start) as (Hs' & Hq' & Hh')
  end.
  cbv zeta in Hs', Hq', Hh'. cbn [worker main_thread handled] in Hs', Hq', Hh'.
  rewrite Hh', Hq', Hs', Hs, Hh, Hq, delivered_of_dispatched.
  now repeat split.
Qed.

(** X15 on a worker with its listener: an indication, the response to an
    internal request and the response to request 12 arrive; and the same
    three before any listener is registered. *)
Lemma results_reach_the_listener_in_order_witness :
  let indication := {| ind_mRilMessageType := "signalstrengthchange" |} in
  let internal := {| mRilMessageToken := 0; resp_mRilMessageType := "getICCStatus" |} in
  let answer := {| mRilMessageToken := 12; resp_mRilMessageType := "dial" |} in
  let events := [GotIndication indication; GotResponse internal; GotResponse answer] in
  handled (main_thread_runs (fold_left receive events listening))
    = [HandleRilIndication indication; HandleRilResponse answer]
  /\ handled (main_thread_runs (fold_left receive events not_listening)) = [].
Proof.
  intros indication internal answer events. split.
  - apply (proj1 (results_reach_the_listener_in_order listening events eq_refl)).
  - apply (proj1 (results_reach_the_listener_in_order not_listening events eq_refl)).
Defined.

End RilFacts.

(* --------------------------------------------------------------------- *)
(** ** Wi-Fi orchestrator                                                  *)
(* --------------------------------------------------------------------- *)

Module WifiFacts.

Import Wifi Inputs.

Section AnyVendor.

Variable W : Type.
Variable handle : forall R : Type, VendorCall R -> W -> R * W.

Lemma run_bind {A B : Type} (p : Prog A) (f : A -> Prog B) (w : W) :
  run W handle (bind p f) w =
    let '(a, w1, t1) := run W handle p w in
    let '(b, w2, t2) := run W handle (f a) w1 in
    (b, w2, t1 ++ t2).
Proof.
  revert w. induction p as [a | R c k IH]; intro w; simpl.
  - now destruct (run W handle (f a) w) as [[b w2] t2].
  - destruct (handle R c w) as [r w']. rewrite IH.
    destruct (run W handle (k r) w') as [[a w1] t1].
    now destruct (run W handle (f a) w1) as [[b w2] t2].
Qed.

Lemma result_of_bind_ret {A B : Type} (p : Prog A) (g : A -> B) (w : W) :
  result_of W handle (bind p (fun a => Ret (g a))) w = g (result_of W handle p w).
Proof.
  unfold result_of. rewrite run_bind.
  now destruct (run W handle p w) as [[a w1] t1].
Qed.

(** *** The polling loop *)

(** A loop none of whose polls finds the interface ready makes as many
    rounds of poll-then-sleep as it has tries and ends unconnected. *)
Lemma wait_until_ready_never (c : VendorCall bool) (tries : nat) :
  (forall w, fst (handle bool c w) = false) ->
  forall w,
    result_of W handle (wait_until_ready c tries) w = false
    /\ trace_of W handle (wait_until_ready c tries) w
       = List.concat (repeat (failed_poll c) tries).
Proof.
  intro Hnever. unfold result_of, trace_of.
  induction tries as [| n IH]; intro w; simpl; [now split |].
  pose proof (Hnever w) as Hw.
  destruct (handle bool c w) as [ready w1]. simpl in Hw. subst ready. simpl.
  destruct (handle unit (usleep CONNECTION_RETRY_INTERVAL_US) w1) as [[] w2].
  destruct (IH w2) as [Hres Htr].
  destruct (run W handle (wait_until_ready c n) w2) as [[b w3] t]. simpl in *.
  subst. now split.
Qed.

(** A loop whose first poll finds the interface ready ends connected after
    that one call. *)
Lemma wait_until_ready_first (c : VendorCall bool) (tries : nat) (w : W) :
  fst (handle bool c w) = true ->
  run W handle (wait_until_ready c (S tries)) w
  = (true, snd (handle bool c w), [Ev c true]).
Proof.
  intro H. simpl. destruct (handle bool c w) as [ready w1]. simpl in *.
  now subst ready.
Qed.

Lemma StartSupplicant_never_ready (w : W) :
  (forall w, fst (handle bool Supplicant_IsInterfaceReady w) = false) ->
  (forall w, fst (handle Result_t Supplicant_InitInterface w) = SUCCESS) ->
  (forall w, fst (handle Result_t Wificond_StartSupplicant w) = SUCCESS) ->
  result_of W handle StartSupplicant w = ERROR_COMMAND_FAILED
  /\ trace_of W handle StartSupplicant w =
       [Ev Supplicant_IsInterfaceReady false;
        Ev Supplicant_InitInterface SUCCESS;
        Ev Wificond_StartSupplicant SUCCESS]
       ++ List.concat (repeat (failed_poll Supplicant_IsInterfaceReady)
                         (Z.to_nat CONNECTION_RETRY_TIMES)).
Proof.
  intros Hnever Hinit Hstart.
  unfold result_of, trace_of, StartSupplicant.
  cbn -[wait_until_ready Z.to_nat].
  pose proof (Hnever w) as H0.
  destruct (handle bool Supplicant_IsInterfaceReady w) as [r0 w1].
  simpl in H0. subst r0. cbn -[wait_until_ready Z.to_nat].
  pose proof (Hinit w1) as H1.
  destruct (handle Result_t Supplicant_InitInterface w1) as [r1 w2].
  simpl in H1. subst r1. cbn -[wait_until_ready Z.to_nat].
  pose proof (Hstart w2) as H2.
  destruct (handle Result_t Wificond_StartSupplicant w2) as [r2 w3].
  simpl in H2. subst r2. cbn -[wait_until_ready Z.to_nat].
  rewrite run_bind.
  destruct (wait_until_ready_never Supplicant_IsInterfaceReady
              (Z.to_nat CONNECTION_RETRY_TIMES) Hnever w3) as [Hres Htr].
  unfold result_of, trace_of in Hres, Htr.
  destruct (run W handle (wait_until_ready Supplicant_IsInterfaceReady
                            (Z.to_nat CONNECTION_RETRY_TIMES)) w3)
    as [[connected w4] t].
  simpl in Hres, Htr. subst connected t.
  cbn -[wait_until_ready Z.to_nat List.concat repeat]. rewrite ?List.app_nil_r. now split.
Qed.

Lemma StartSupplicant_first_poll_ready (w : W) :
  let guard := handle bool Supplicant_IsInterfaceReady w in
  let init :=
    if fst guard then (SUCCESS, snd guard)
    else handle Result_t Supplicant_InitInterface (snd guard) in
  let started := handle Result_t Wificond_StartSupplicant (snd init) in
  let poll := handle bool Supplicant_IsInterfaceReady (snd started) in
  fst init = SUCCESS -> fst started = SUCCESS -> fst poll = true ->
  result_of W handle StartSupplicant w = SUCCESS
  /\ trace_of W handle StartSupplicant w =
       Ev Supplicant_IsInterfaceReady (fst guard)
       :: (if fst guard then [] else [Ev Supplicant_InitInterface SUCCESS])
       ++ [Ev Wificond_StartSupplicant SUCCESS;
           Ev Supplicant_IsInterfaceReady true].
Proof.
  unfold result_of, trace_of, StartSupplicant.
  cbn -[wait_until_ready Z.to_nat].
  destruct (handle bool Supplicant_IsInterfaceReady w) as [r0 w1].
  destruct r0; cbn -[wait_until_ready Z.to_nat].
  - destruct (handle Result_t Wificond_StartSupplicant w1) as [r2 w3].
    cbn -[wait_until_ready Z.to_nat]. intros _ -> Hpoll.
    cbn -[wait_until_ready Z.to_nat]. rewrite run_bind.
    change (Z.to_nat CONNECTION_RETRY_TIMES) with (S 49).
    rewrite wait_until_ready_first by exact Hpoll. now split.
  - destruct (handle Result_t Supplicant_InitInterface w1) as [r1 w2].
    cbn -[wait_until_ready Z.to_nat]. intros ->.
    cbn -[wait_until_ready Z.to_nat].
    destruct (handle Result_t Wificond_StartSupplicant w2) as [r2 w3].
    cbn -[wait_until_ready Z.to_nat]. intros -> Hpoll.
    cbn -[wait_until_ready Z.to_nat]. rewrite run_bind.
    change (Z.to_nat CONNECTION_RETRY_TIMES) with (S 49).
    rewrite wait_until_ready_first by exact Hpoll. now split.
Qed.

Lemma StartAndConnectHostapd_never_ready (w : W) :
  (forall w, fst (handle bool Softap_IsInterfaceReady w) = false) ->
  (forall w, fst (handle Result_t Softap_InitInterface w) = SUCCESS) ->
  result_of W handle StartAndConnectHostapd w = ERROR_COMMAND_FAILED
  /\ trace_of W handle StartAndConnectHostapd w =
       [Ev Softap_InitInterface SUCCESS]
       ++ List.concat (repeat (failed_poll Softap_IsInterfaceReady)
                         (Z.to_nat CONNECTION_RETRY_TIMES)).
Proof.
  intros Hnever Hinit.
  unfold result_of, trace_of, StartAndConnectHostapd.
  cbn -[wait_until_ready Z.to_nat].
  pose proof (Hinit w) as H1.
  destruct (handle Result_t Softap_InitInterface w) as [r1 w2].
  simpl in H1. subst r1. cbn -[wait_until_ready Z.to_nat].
  rewrite run_bind.
  destruct (wait_until_ready_never Softap_IsInterfaceReady
              (Z.to_nat CONNECTION_RETRY_TIMES) Hnever w2) as [Hres Htr].
  unfold result_of, trace_of in Hres, Htr.
  destruct (run W handle (wait_until_ready Softap_IsInterfaceReady
                            (Z.to_nat CONNECTION_RETRY_TIMES)) w2)
    as [[connected w4] t].
  simpl in Hres, Htr. subst connected t.
  cbn -[wait_until_ready Z.to_nat List.concat repeat]. rewrite ?List.app_nil_r. now split.
Qed.

Lemma StartAndConnectHostapd_first_poll_ready (w : W) :
  let init := handle Result_t Softap_InitInterface w in
  let poll := handle bool Softap_IsInterfaceReady (snd init) in
  fst init = SUCCESS -> fst poll = true ->
  result_of W handle StartAndConnectHostapd w = SUCCESS
  /\ trace_of W handle StartAndConnectHostapd w =
       [Ev Softap_InitInterface SUCCESS; Ev Softap_IsInterfaceReady true].
Proof.
  unfold result_of, trace_of, StartAndConnectHostapd.
  cbn -[wait_until_ready Z.to_nat].
  destruct (handle Result_t Softap_InitInterface w) as [r1 w2].
  cbn -[wait_until_ready Z.to_nat]. intros -> Hpoll.
  cbn -[wait_until_ready Z.to_nat]. rewrite run_bind.
  change (Z.to_nat CONNECTION_RETRY_TIMES) with (S 49).
  rewrite wait_until_ready_first by exact Hpoll. now split.
Qed.

End AnyVendor.

(** C3.  Against every vendor.  In [StartSupplicant], once the supplicant
    HAL is initialised and the daemon is started: if no readiness check
    ever answers true, the loop polls [CONNECTION_RETRY_TIMES] = 50 times,
    sleeps [CONNECTION_RETRY_INTERVAL_US] after each of these polls and the
    function then fails; if the first poll of the loop answers true, the
    function answers [SUCCESS] at once, with no sleep.  (The readiness check
    that guards [InitInterface] comes before the loop.)  The same holds for
    [StartAndConnectHostapd] once the hostapd interface is initialised. *)
Theorem startup_retry_loop_bounded
        (W : Type) (handle : forall R : Type, VendorCall R -> W -> R * W) (w : W) :
  (* StartSupplicant, never ready *)
  ((forall w, fst (handle bool Supplicant_IsInterfaceReady w) = false) ->
   (forall w, fst (handle Result_t Supplicant_InitInterface w) = SUCCESS) ->
   (forall w, fst (handle Result_t Wificond_StartSupplicant w) = SUCCESS) ->
   let loop := List.concat (repeat (failed_poll Supplicant_IsInterfaceReady)
                                   (Z.to_nat CONNECTION_RETRY_TIMES)) in
   result_of W handle StartSupplicant w = ERROR_COMMAND_FAILED
   /\ trace_of W handle StartSupplicant w =
        [Ev Supplicant_IsInterfaceReady false;
         Ev Supplicant_InitInterface SUCCESS;
         Ev Wificond_StartSupplicant SUCCESS] ++ loop
   /\ List.length (filter is_readiness_check loop) = 50%nat
   /\ List.length (filter is_sleep loop) = 50%nat
   /\ List.length loop = 100%nat)
  (* StartSupplicant, first poll ready *)
  /\ (let guard := handle bool Supplicant_IsInterfaceReady w in
      let init :=
        if fst guard then (SUCCESS, snd guard)
        else handle Result_t Supplicant_InitInterface (snd guard) in
      let started := handle Result_t Wificond_StartSupplicant (snd init) in
      let poll := handle bool Supplicant_IsInterfaceReady (snd started) in
      fst init = SUCCESS -> fst started = SUCCESS -> fst poll = true ->
      result_of W handle StartSupplicant w = SUCCESS
      /\ trace_of W handle StartSupplicant w =
           Ev Supplicant_IsInterfaceReady (fst guard)
           :: (if fst guard then [] else [Ev Supplicant_InitInterface SUCCESS])
           ++ [Ev Wificond_StartSupplicant SUCCESS;
               Ev Supplicant_IsInterfaceReady true])
  (* StartAndConnectHostapd, never ready *)
  /\ ((forall w, fst (handle bool Softap_IsInterfaceReady w) = false) ->
      (forall w, fst (handle Result_t Softap_InitInterface w) = SUCCESS) ->
      let loop := List.concat (repeat (failed_poll Softap_IsInterfaceReady)
                                      (Z.to_nat CONNECTION_RETRY_TIMES)) in
      result_of W handle StartAndConnectHostapd w = ERROR_COMMAND_FAILED
      /\ trace_of W handle StartAndConnectHostapd w =
           [Ev Softap_InitInterface SUCCESS] ++ loop
      /\ List.length (filter is_readiness_check loop) = 50%nat
      /\ List.length (filter is_sleep loop) = 50%nat
      /\ List.length loop = 100%nat)
  (* StartAndConnectHostapd, first poll ready *)
  /\ (let init := handle Result_t Softap_InitInterface w in
      let poll := handle bool Softap_IsInterfaceReady (snd init) in
      fst init = SUCCESS -> fst poll = true ->
      result_of W handle StartAndConnectHostapd w = SUCCESS
      /\ trace_of W handle StartAndConnectHostapd w =
           [Ev Softap_InitInterface SUCCESS; Ev Softap_IsInterfaceReady true]).
Proof.
  split; [| split; [| split]].
  - intros Hnever Hinit Hstart loop.
    destruct (StartSupplicant_never_ready W handle w Hnever Hinit Hstart) as [Hr Ht].
    repeat split; try assumption; reflexivity.
  - apply StartSupplicant_first_poll_ready.
  - intros Hnever Hinit loop.
    destruct (StartAndConnectHostapd_never_ready W handle w Hnever Hinit) as [Hr Ht].
    repeat split; try assumption; reflexivity.
  - apply StartAndConnectHostapd_first_poll_ready.
Qed.

(** C3 on two scripted vendors: one that is never ready, one that is ready
    at once. *)
Lemma startup_retry_loop_bounded_witness :
  result_of unit (scripted (@never_ready)) StartSupplicant tt = ERROR_COMMAND_FAILED
  /\ result_of unit (scripted (@all_ok)) StartSupplicant tt = SUCCESS
  /\ result_of unit (scripted (@never_ready)) StartAndConnectHostapd tt
     = ERROR_COMMAND_FAILED
  /\ result_of unit (scripted (@all_ok)) StartAndConnectHostapd tt = SUCCESS.
Proof.
  split; [| split; [| split]].
  - apply (proj1 (startup_retry_loop_bounded unit (scripted (@never_ready)) tt));
      intro; reflexivity.
  - apply (proj1 (proj2 (startup_retry_loop_bounded unit (scripted (@all_ok)) tt)));
      reflexivity.
  - apply (proj1 (proj2 (proj2
             (startup_retry_loop_bounded unit (scripted (@never_ready)) tt))));
      intro; reflexivity.
  - apply (proj2 (proj2 (proj2
             (startup_retry_loop_bounded unit (scripted (@all_ok)) tt))));
      reflexivity.
Defined.

(** When the steps before the loop fail, the loop is not entered. *)
Lemma StartSupplicant_init_failure_sample :
  run unit (scripted (@init_interface_fails)) StartSupplicant tt =
    (ERROR_UNKNOWN, tt,
     [Ev Supplicant_IsInterfaceReady false; Ev Supplicant_InitInterface ERROR_UNKNOWN]).
Proof. reflexivity. Qed.

(** *** Failures of vendor calls *)

Section Failures.

Variable W : Type.
Variable handle : forall R : Type, VendorCall R -> W -> R * W.

Lemma first_failure_skip (l rest : list Event) :
  Forall (fun e => event_status e = None) l ->
  first_failure (l ++ rest) = first_failure rest.
Proof.
  induction 1 as [| e l He _ IH]; simpl; [reflexivity |].
  now rewrite He.
Qed.

Lemma first_failure_filter_skip (g : Event -> bool) (l rest : list Event) :
  Forall (fun e => event_status e = None) l ->
  first_failure (filter g (l ++ rest)) = first_failure (filter g rest).
Proof.
  intro Hl. rewrite filter_app. apply first_failure_skip.
  rewrite Forall_forall in *. intros e He.
  apply filter_In in He as [He _]. now apply Hl.
Qed.

Lemma first_failure_filter_none (g : Event -> bool) (l : list Event) :
  Forall (fun e => event_status e = None) l ->
  first_failure (filter g l) = None.
Proof.
  intro Hl. rewrite <- (List.app_nil_r l).
  now rewrite first_failure_filter_skip.
Qed.

(** The polling loops make no call that has a status. *)
Lemma wait_until_ready_no_status (tries : nat) (w : W) :
  Forall (fun e => event_status e = None)
         (trace_of W handle (wait_until_ready Supplicant_IsInterfaceReady tries) w)
  /\ Forall (fun e => event_status e = None)
         (trace_of W handle (wait_until_ready Softap_IsInterfaceReady tries) w).
Proof.
  unfold trace_of. revert w. induction tries as [| n IH]; intro w; simpl.
  - split; constructor.
  - split.
    + destruct (handle bool Supplicant_IsInterfaceReady w) as [[|] w1]; simpl.
      * repeat constructor.
      * destruct (handle unit (usleep CONNECTION_RETRY_INTERVAL_US) w1) as [[] w2].
        destruct (IH w2) as [H _].
        destruct (run W handle (wait_until_ready Supplicant_IsInterfaceReady n) w2)
          as [[b w3] t].
        simpl in *. repeat constructor. exact H.
    + destruct (handle bool Softap_IsInterfaceReady w) as [[|] w1]; simpl.
      * repeat constructor.
      * destruct (handle unit (usleep CONNECTION_RETRY_INTERVAL_US) w1) as [[] w2].
        destruct (IH w2) as [_ H].
        destruct (run W handle (wait_until_ready Softap_IsInterfaceReady n) w2)
          as [[b w3] t].
        simpl in *. repeat constructor. exact H.
Qed.

End Failures.

(** Run the next vendor call of the goal and split on its answer. *)
Ltac vendor_step handle :=
  match goal with
  | |- context [handle Result_t ?c ?w] =>
    let r := fresh "r" in let w' := fresh "w" in
    destruct (handle Result_t c w) as [r w']; destruct r
  | |- context [handle (Result_t * string)%type ?c ?w] =>
    let r := fresh "r" in let n := fresh "n" in let w' := fresh "w" in
    destruct (handle (Result_t * string)%type c w) as [[r n] w']; destruct r
  | |- context [handle bool ?c ?w] =>
    let r := fresh "r" in let w' := fresh "w" in
    destruct (handle bool c w) as [r w']; destruct r
  | |- context [handle unit ?c ?w] =>
    let w' := fresh "w" in
    destruct (handle unit c w) as [[] w']
  end; cbn -[wait_until_ready Z.to_nat].










(** Step over a polling loop and split on what it found. *)
Ltac through_loop W handle :=
  rewrite !run_bind;
  match goal with
  | |- context [run W handle (wait_until_ready ?c ?n) ?w] =>
    let H1 := fresh "Hloop" in let H2 := fresh "Hloop" in
    pose proof (wait_until_ready_no_status W handle n w) as [H1 H2];
    unfold trace_of in H1, H2;
    let connected := fresh "connected" in
    destruct (run W handle (wait_until_ready c n) w) as [[connected ?] ?];
    cbn -[wait_until_ready Z.to_nat] in H1, H2;
    destruct connected; cbn -[wait_until_ready Z.to_nat]
  end.






(** *** [StartWifi], step by step *)

(** C4.  Chip configuration fails with [ERROR_UNKNOWN] and every other
    step succeeds.  [StartWifi] goes on through all the later steps; with
    the interface name left from an earlier start it answers [SUCCESS],
    and on a fresh object it answers [ERROR_COMMAND_FAILED] only at the
    very end, for the empty interface name.  In neither run is the error
    of the failed step handed back or the sequence cut short. *)
Theorem StartWifi_chip_configuration_failure_ignored :
  run unit (scripted (@config_chip_fails)) (StartWifi restarted_wifi "") tt =
    ((SUCCESS, restarted_wifi, "wlan0"), tt,
     [Ev WifiHal_StartWifiModule SUCCESS;
      Ev (WifiHal_ConfigChipAndCreateIface STA "wlan0") (ERROR_UNKNOWN, "wlan0");
      Ev (WificondEventService_CreateService "wlan0") true;
      Ev WificondEventService_RegisterEventCallback tt;
      Ev Supplicant_IsInterfaceReady true;
      Ev Wificond_StartSupplicant SUCCESS;
      Ev Supplicant_IsInterfaceReady true;
      Ev Supplicant_RegisterDeathHandler tt;
      Ev (Wificond_SetupClientIface "wlan0") SUCCESS;
      Ev (Supplicant_SetupStaInterface "wlan0") SUCCESS])
  /\ run unit (scripted (@config_chip_fails)) (StartWifi fresh_wifi "") tt =
    ((ERROR_COMMAND_FAILED, fresh_wifi, ""), tt,
     [Ev WifiHal_StartWifiModule SUCCESS;
      Ev (WifiHal_ConfigChipAndCreateIface STA "") (ERROR_UNKNOWN, "");
      Ev (WificondEventService_CreateService "") true;
      Ev WificondEventService_RegisterEventCallback tt;
      Ev Supplicant_IsInterfaceReady true;
      Ev Wificond_StartSupplicant SUCCESS;
      Ev Supplicant_IsInterfaceReady true;
      Ev Supplicant_RegisterDeathHandler tt;
      Ev (Wificond_SetupClientIface "") SUCCESS;
      Ev (Supplicant_SetupStaInterface "") SUCCESS]).
Proof. split; reflexivity. Qed.

(** [StartSoftAp], for comparison, stops at a failed chip configuration. *)
Lemma StartSoftAp_chip_configuration_failure_sample :
  run unit (scripted (@config_chip_fails))
      (StartSoftAp fresh_wifi {| mSoftapCountryCode := "US" |} "") tt =
    ((ERROR_UNKNOWN, fresh_wifi, ""), tt,
     [Ev WifiHal_StartWifiModule SUCCESS;
      Ev Softap_InitInterface SUCCESS;
      Ev Softap_IsInterfaceReady true;
      Ev (WifiHal_ConfigChipAndCreateIface AP "") (ERROR_UNKNOWN, "")]).
Proof. reflexivity. Qed.

(** Against every vendor: after a failed chip configuration [StartWifi]
    takes the next step. *)
Lemma StartWifi_continues_after_chip_failure
      (W : Type) (handle : forall R : Type, VendorCall R -> W -> R * W)
      (self : WifiNative) (aIfaceName : string) (w : W) :
  let module := handle Result_t WifiHal_StartWifiModule w in
  let chip :=
    handle (Result_t * string)%type
           (WifiHal_ConfigChipAndCreateIface STA (mStaInterfaceName self))
           (snd module) in
  fst module = SUCCESS ->
  fst (fst chip) <> SUCCESS ->
  exists created rest,
    trace_of W handle (StartWifi self aIfaceName) w =
      Ev WifiHal_StartWifiModule SUCCESS
      :: Ev (WifiHal_ConfigChipAndCreateIface STA (mStaInterfaceName self)) (fst chip)
      :: Ev (WificondEventService_CreateService (snd (fst chip))) created
      :: rest.
Proof.
  unfold trace_of, StartWifi. cbn -[StartSupplicant].
  destruct (handle Result_t WifiHal_StartWifiModule w) as [r w1].
  cbn -[StartSupplicant]. intros -> _. cbn -[StartSupplicant].
  destruct (handle (Result_t * string)%type
              (WifiHal_ConfigChipAndCreateIface STA (mStaInterfaceName self)) w1)
    as [[r1 n] w2].
  cbn -[StartSupplicant].
  destruct (handle bool (WificondEventService_CreateService n) w2) as [created w3].
  match goal with
  | |- context [run W handle ?p w3] => destruct (run W handle p w3) as [[a w4] t]
  end.
  now exists created, t.
Qed.

(** X23.  The other steps of [StartWifi] do end it: against every vendor,
    the first status failure other than that of chip configuration is what
    [StartWifi] answers, and the only call that may follow it is the
    tear-down of the wificond client interface after a failed set-up. *)
Lemma StartWifi_checked_failures_abort (self : WifiNative) (aIfaceName : string) :
  hands_up_first_failure (fun r => fst (fst r)) is_chip_configuration
                         is_client_teardown (StartWifi self aIfaceName).
Proof.
  unfold hands_up_first_failure, trace_of, result_of, StartWifi, StartSupplicant.
  intros W handle w.
  cbn -[wait_until_ready Z.to_nat].
  vendor_step handle; try (split; [reflexivity | now left]).
  destruct (handle (Result_t * string)%type
              (WifiHal_ConfigChipAndCreateIface STA (mStaInterfaceName self)) w0)
    as [[r1 n] w1].
  cbn -[wait_until_ready Z.to_nat].
  vendor_step handle; try exact I.
  vendor_step handle.
  vendor_step handle.
  - vendor_step handle; try (split; [reflexivity | now left]).
    through_loop W handle.
    + repeat vendor_step handle;
        rewrite ?List.app_nil_r, ?first_failure_filter_skip by assumption;
        cbn; try exact I;
        try (split; [reflexivity | first [now left | right; eauto]]).
    + rewrite ?List.app_nil_r, first_failure_filter_none by assumption.
      exact I.
  - vendor_step handle; try (split; [reflexivity | now left]).
    vendor_step handle; try (split; [reflexivity | now left]).
    through_loop W handle.
    + repeat vendor_step handle;
        rewrite ?List.app_nil_r, ?first_failure_filter_skip by assumption;
        cbn; try exact I;
        try (split; [reflexivity | first [now left | right; eauto]]).
    + rewrite ?List.app_nil_r, first_failure_filter_none by assumption.
      exact I.
Qed.

(** X24.  A failed creation of the scan event service ends [StartWifi] as
    well: once the driver module is started, a null event service makes
    [StartWifi] answer [ERROR_COMMAND_FAILED] after these three calls, with
    the supplicant never started. *)
Lemma StartWifi_event_service_failure
      (W : Type) (handle : forall R : Type, VendorCall R -> W -> R * W)
      (self : WifiNative) (aIfaceName : string) (w : W) :
  let module := handle Result_t WifiHal_StartWifiModule w in
  let chip :=
    handle (Result_t * string)%type
           (WifiHal_ConfigChipAndCreateIface STA (mStaInterfaceName self))
           (snd module) in
  let service :=
    handle bool (WificondEventService_CreateService (snd (fst chip))) (snd chip) in
  fst module = SUCCESS ->
  fst service = false ->
  fst (fst (result_of W handle (StartWifi self aIfaceName) w)) = ERROR_COMMAND_FAILED
  /\ trace_of W handle (StartWifi self aIfaceName) w =
       [Ev WifiHal_StartWifiModule SUCCESS;
        Ev (WifiHal_ConfigChipAndCreateIface STA (mStaInterfaceName self)) (fst chip);
        Ev (WificondEventService_CreateService (snd (fst chip))) false].
Proof.
  unfold trace_of, result_of, StartWifi. cbn -[StartSupplicant].
  destruct (handle Result_t WifiHal_StartWifiModule w) as [r w1].
  cbn -[StartSupplicant]. intros ->. cbn -[StartSupplicant].
  destruct (handle (Result_t * string)%type
              (WifiHal_ConfigChipAndCreateIface STA (mStaInterfaceName self)) w1)
    as [[r1 n] w2].
  cbn -[StartSupplicant].
  destruct (handle bool (WificondEventService_CreateService n) w2) as [created w3].
  cbn -[StartSupplicant]. intros ->. now split.
Qed.

(** *** [ExecuteCommand] *)

Section Commands.

Variable ConvertMacToString : list Z -> string.
Variable W : Type.
Variable handle : forall R : Type, VendorCall R -> W -> R * W.

Lemma result_of_bind_ind {A B : Type} (p : Prog A) (f : A -> Prog B)
      (P : B -> Prop) (w : W) :
  (forall a w', P (result_of W handle (f a) w')) ->
  P (result_of W handle (bind p f) w).
Proof.
  intro H. unfold result_of in *. rewrite run_bind.
  destruct (run W handle p w) as [[a w1] t1]. specialize (H a w1).
  now destruct (run W handle (f a) w1) as [[b w2] t2].
Qed.

(** C9.  For every command options value, every result record to fill and
    every vendor, the result record [ExecuteCommand] leaves has [mId] equal
    to the [mId] of the options: on the paths that hand back [true], on
    the unknown-command path, on the empty-scan-result path and whatever
    status the command's handler came back with. *)
Theorem ExecuteCommand_correlates_ids
        (self : WifiNative) (aOptions : CommandOptions) (aResult : nsWifiResult)
        (aInterface : string) (w : W) :
  res_mId (snd (result_of W handle
                  (ExecuteCommand ConvertMacToString self aOptions aResult aInterface)
                  w))
  = mId aOptions.
Proof.
  unfold ExecuteCommand, status_only.
  destruct (mCmd aOptions);
    first
      [ reflexivity
      | apply (result_of_bind_ind _ _
                 (fun r : bool * WifiNative * nsWifiResult =>
                    res_mId (snd r) = mId aOptions));
        intros a w';
        repeat match goal with
               | |- context [match ?x with _ => _ end] => destruct x
               end;
        reflexivity ].
Qed.

End Commands.

(** The unknown-command path and the empty-scan path hand back [false]
    with the id already in place. *)
Lemma ExecuteCommand_false_paths_sample (cm : list Z -> string)
      (opts : CommandOptions) (res : nsWifiResult) :
  (forall code, mCmd opts = OTHER_COMMAND code ->
     result_of unit (scripted (@all_ok)) (ExecuteCommand cm fresh_wifi opts res "") tt
     = (false, fresh_wifi, set_mId res (mId opts)))
  /\ (mCmd opts = GET_SCAN_RESULTS ->
     result_of unit (scripted (@all_ok)) (ExecuteCommand cm fresh_wifi opts res "") tt
     = (false, fresh_wifi, set_mStatus (set_mId res (mId opts)) SUCCESS)).
Proof.
  split; [intros code H | intros H]; unfold ExecuteCommand; rewrite H; reflexivity.
Qed.

(** *** How long a command may sleep *)

Section Sleep.

Variable W : Type.
Variable handle : forall R : Type, VendorCall R -> W -> R * W.

Lemma total_sleep_app (t1 t2 : list Event) :
  total_sleep (t1 ++ t2) = total_sleep t1 + total_sleep t2.
Proof.
  induction t1 as [| e t1 IH]; simpl; [reflexivity |].
  unfold total_sleep in *. simpl. lia.
Qed.

Lemma trace_of_bind {A B : Type} (p : Prog A) (f : A -> Prog B) (w : W) :
  trace_of W handle (bind p f) w
  = trace_of W handle p w
    ++ trace_of W handle (f (result_of W handle p w)) (state_after W handle p w).
Proof.
  unfold trace_of, result_of, state_after. rewrite run_bind.
  destruct (run W handle p w) as [[a w1] t1]. simpl.
  now destruct (run W handle (f a) w1) as [[b w2] t2].
Qed.

Lemma trace_of_Vis {A R : Type} (c : VendorCall R) (k : R -> Prog A) (w : W) :
  trace_of W handle (Vis c k) w
  = Ev c (fst (handle R c w))
    :: trace_of W handle (k (fst (handle R c w))) (snd (handle R c w)).
Proof.
  unfold trace_of. simpl. destruct (handle R c w) as [r w']. simpl.
  now destruct (run W handle (k r) w') as [[a w''] t].
Qed.

End Sleep.

Lemma sleep_bound_Ret {A : Type} (a : A) : sleep_bound 0 (Ret a).
Proof. intros W handle w. unfold trace_of. simpl. unfold total_sleep. simpl. lia. Qed.

Lemma sleep_bound_Vis {A R : Type} (c : VendorCall R) (k : R -> Prog A) (b : Z) :
  sleep_of_call c = 0 ->
  (forall r, sleep_bound b (k r)) ->
  sleep_bound b (Vis c k).
Proof.
  intros Hc Hk W handle w. rewrite trace_of_Vis.
  specialize (Hk (fst (handle R c w)) W handle (snd (handle R c w))).
  unfold total_sleep in *. simpl. lia.
Qed.

Lemma sleep_bound_bind {A B : Type} (p : Prog A) (f : A -> Prog B) (b1 b2 : Z) :
  sleep_bound b1 p ->
  (forall a, sleep_bound b2 (f a)) ->
  sleep_bound (b1 + b2) (bind p f).
Proof.
  intros Hp Hf W handle w. rewrite trace_of_bind, total_sleep_app.
  specialize (Hp W handle w).
  specialize (Hf (result_of W handle p w) W handle (state_after W handle p w)).
  lia.
Qed.

Lemma sleep_bound_if {A : Type} (c : bool) (p q : Prog A) (b1 b2 : Z) :
  sleep_bound b1 p -> sleep_bound b2 q ->
  sleep_bound (Z.max b1 b2) (if c then p else q).
Proof.
  intros Hp Hq W handle w.
  destruct c; [specialize (Hp W handle w) | specialize (Hq W handle w)]; lia.
Qed.

Lemma sleep_bound_weaken {A : Type} (p : Prog A) (b b' : Z) :
  sleep_bound b p -> b <= b' -> sleep_bound b' p.
Proof. intros Hp Hb W handle w. specialize (Hp W handle w). lia. Qed.

(** The polling loop sleeps one interval per try at most. *)
Lemma sleep_bound_wait_until_ready (c : VendorCall bool) (tries : nat) :
  sleep_of_call c = 0 ->
  sleep_bound (Z.of_nat tries * CONNECTION_RETRY_INTERVAL_US)
              (wait_until_ready c tries).
Proof.
  intro Hc. induction tries as [| n IH].
  - apply sleep_bound_Ret.
  - intros W handle w. cbn [wait_until_ready bind call].
    rewrite trace_of_Vis.
    destruct (fst (handle bool c w)).
    + unfold trace_of, total_sleep. cbn. rewrite Hc.
      unfold CONNECTION_RETRY_INTERVAL_US. lia.
    + cbn [bind]. rewrite trace_of_Vis.
      specialize (IH W handle
                     (snd (handle unit (usleep CONNECTION_RETRY_INTERVAL_US)
                             (snd (handle bool c w))))).
      unfold total_sleep in *. cbn [fold_right slept_us sleep_of_call].
      rewrite Hc. unfold CONNECTION_RETRY_INTERVAL_US in *. lia.
Qed.

(** Take a program apart along its calls, sequencings and branches. *)
Ltac sleep_bound_step :=
  lazymatch goal with
  | |- sleep_bound _ (Ret _) => apply sleep_bound_Ret
  | |- sleep_bound _ (wait_until_ready _ _) =>
    apply sleep_bound_wait_until_ready; reflexivity
  | |- sleep_bound _ (Vis _ _) =>
    eapply sleep_bound_Vis; [reflexivity | intro]
  | |- sleep_bound _ (bind _ _) =>
    eapply sleep_bound_bind; [| intro]
  | |- sleep_bound _ (match ?x with _ => _ end) =>
    first [eapply sleep_bound_if | destruct x]
  end.

Ltac sleep_bound_of_program :=
  eapply sleep_bound_weaken;
  [ cbn -[wait_until_ready Z.to_nat map]; repeat sleep_bound_step
  | vm_compute; discriminate ].

(** X16.  Whatever the command and whatever the vendor does, the calling
    thread sleeps for no more than [CONNECTION_RETRY_TIMES] intervals of
    [CONNECTION_RETRY_INTERVAL_US] (50 times 100 ms) inside
    [ExecuteCommand]. *)
Theorem no_command_sleeps_beyond_the_retry_budget
        (ConvertMacToString : list Z -> string)
        (W : Type) (handle : forall R : Type, VendorCall R -> W -> R * W)
        (self : WifiNative) (aOptions : CommandOptions) (aResult : nsWifiResult)
        (aInterface : string) (w : W) :
  0 <= total_sleep
         (trace_of W handle
            (ExecuteCommand ConvertMacToString self aOptions aResult aInterface) w)
    <= CONNECTION_RETRY_TIMES * CONNECTION_RETRY_INTERVAL_US.
Proof.
  revert W handle w.
  change (sleep_bound (CONNECTION_RETRY_TIMES * CONNECTION_RETRY_INTERVAL_US)
            (ExecuteCommand ConvertMacToString self aOptions aResult aInterface)).
  unfold ExecuteCommand, status_only.
  destruct (mCmd aOptions);
    unfold InitHal, StartWifi, StopWifi, StartSupplicant, StopSupplicant,
      StartSoftAp, StopSoftAp, StartAndConnectHostapd, StopHostapd, Connect,
      GetClientInterfaceName, GetSoftApInterfaceName;
    sleep_bound_of_program.
Qed.

(** *** The polling loop, in general *)

(** X17.  Against every vendor the polling loop is a run of failed polls,
    each followed by one sleep, that ends either with the first poll that
    finds the interface ready (before the tries are used up, and with no
    sleep after it) or, unconnected, when all the tries are used up. *)
Theorem polling_stops_at_the_first_ready_poll
        (W : Type) (handle : forall R : Type, VendorCall R -> W -> R * W)
        (c : VendorCall bool) (tries : nat) (w : W) :
  let connected := result_of W handle (wait_until_ready c tries) w in
  exists failed : nat,
    trace_of W handle (wait_until_ready c tries) w
    = List.concat (repeat (failed_poll c) failed)
      ++ (if connected then [Ev c true] else [])
    /\ (if connected then (failed < tries)%nat else failed = tries).
Proof.
  cbv zeta. unfold result_of, trace_of. revert w.
  induction tries as [| n IH]; intro w.
  - exists 0%nat. now split.
  - cbn -[CONNECTION_RETRY_INTERVAL_US].
    destruct (handle bool c w) as [[|] w1]; cbn -[CONNECTION_RETRY_INTERVAL_US].
    + exists 0%nat. split; [reflexivity | lia].
    + destruct (handle unit (usleep CONNECTION_RETRY_INTERVAL_US) w1) as [[] w2].
      destruct (IH w2) as (failed & Htr & Hk).
      destruct (run W handle (wait_until_ready c n) w2) as [[connected w3] t].
      cbn in Htr, Hk |- *. exists (S failed). subst t.
      split; [reflexivity | destruct connected; lia].
Qed.

(** *** What [ExecuteCommand] hands back *)

Section Answers.

Variable ConvertMacToString : list Z -> string.
Variable W : Type.
Variable handle : forall R : Type, VendorCall R -> W -> R * W.

(** X18.  [ExecuteCommand] hands back [false] in two cases only: the
    command is none of those it knows, or the command is
    [GET_SCAN_RESULTS] and wificond came back with no scan result at all
    (whatever status came with it).  The status of the command plays no
    part: every other command hands back [true], failed or not. *)
Theorem ExecuteCommand_false_only_for_unknown_or_empty_scan
        (self : WifiNative) (aOptions : CommandOptions) (aResult : nsWifiResult)
        (aInterface : string) (w : W) :
  fst (fst (result_of W handle
              (ExecuteCommand ConvertMacToString self aOptions aResult aInterface)
              w)) = false
  <-> (exists code, mCmd aOptions = OTHER_COMMAND code)
      \/ (mCmd aOptions = GET_SCAN_RESULTS
          /\ snd (fst (handle _ (Wificond_GetScanResults []) w)) = []).
Proof.
  unfold ExecuteCommand, status_only.
  destruct (mCmd aOptions) eqn:Hcmd;
    try solve
        [ match goal with
          | |- fst (fst ?answered) = false <-> _ =>
            assert (fst (fst answered) = true) as ->;
            [ first
                [ reflexivity
                | apply (result_of_bind_ind W handle _ _
                           (fun r : bool * WifiNative * nsWifiResult =>
                              fst (fst r) = true));
                  intros a w';
                  repeat match goal with
                         | |- context [match ?x with _ => _ end] => destruct x
                         end;
                  reflexivity ]
            | split; [discriminate | intros [[code H] | [H _]]; discriminate H] ]
          end ].
  - (* GET_SCAN_RESULTS *)
    unfold result_of, GetScanResults. cbn.
    destruct (handle _ (Wificond_GetScanResults []) w) as [[status results] w'].
    destruct results; cbn; split; try discriminate; auto.
    intros [[code H] | [_ H]]; discriminate H.
  - (* any other value *)
    cbn. split; eauto.
Qed.


Lemma trace_of_Vis_not_empty {A R : Type} (c : VendorCall R) (k : R -> Prog A)
      (w : W) :
  trace_of W handle (Vis c k) w <> [].
Proof. rewrite trace_of_Vis. discriminate. Qed.

(** X20.  Six commands are answered without any call on the layers below:
    the three PNO commands, which do nothing and report [SUCCESS],
    [GET_STA_IFACE] and [GET_AP_IFACE], which read the remembered names,
    and an unknown command.  Every other command makes at least one
    vendor call. *)
Theorem commands_answered_without_the_vendor
        (self : WifiNative) (aOptions : CommandOptions) (aResult : nsWifiResult)
        (aInterface : string) (w : W) :
  let command := ExecuteCommand ConvertMacToString self aOptions aResult aInterface in
  (trace_of W handle command w = [] <-> answered_locally (mCmd aOptions) = true)
  /\ (is_pno_command (mCmd aOptions) = true ->
      result_of W handle command w
      = (true, self, set_mStatus (set_mId aResult (mId aOptions)) SUCCESS)).
Proof.
  cbv zeta. unfold ExecuteCommand, status_only.
  destruct (mCmd aOptions); cbn [answered_locally is_pno_command];
    (split; [| try discriminate; try (intros _; reflexivity)]);
    try (split; [reflexivity | reflexivity]);
    (split; [| discriminate]);
    intro H; exfalso; revert H;
    unfold InitHal, StartWifi, StopWifi, StopSupplicant, StartSoftAp, StopSoftAp,
      StartAndConnectHostapd, StopHostapd, Connect, StartSupplicant;
    cbn -[wait_until_ready Z.to_nat map];
    apply trace_of_Vis_not_empty.
Qed.

End Answers.


(** X20 on the PNO scan start. *)
Lemma commands_answered_without_the_vendor_witness :
  result_of unit (scripted (@never_ready))
    (ExecuteCommand (fun _ => "") fresh_wifi (options_for START_PNO_SCAN)
                    blank_result "") tt
  = (true, fresh_wifi, set_mStatus (set_mId blank_result 7) SUCCESS).
Proof.
  apply (proj2 (commands_answered_without_the_vendor (fun _ => "") unit
                  (scripted (@never_ready)) fresh_wifi
                  (options_for START_PNO_SCAN) blank_result "" tt)).
  reflexivity.
Defined.

(** *** The interface names *)

(** Close a path of a start method: a failure leaves the out-parameter as
    the caller passed it, the final check decides on the name. *)
Ltac name_at_end_of_path :=
  solve [ cbn; repeat split;
          first [ discriminate
                | reflexivity
                | intros _; now left ] ].

Ltac name_at_final_check n :=
  destruct (c_str n); cbn; repeat split;
  first [ discriminate
        | reflexivity
        | intros _; now right
        | let H := fresh in intro H; exfalso; apply H; reflexivity ].

(** X21.  [StartWifi] and the station interface name.  Against every
    vendor: when [StartWifi] answers [SUCCESS], the name it hands out is
    not empty, is the name the object remembers read as a C string (up to
    its first zero byte), and is what [GetClientInterfaceName] answers
    from then on, with [SUCCESS]; when it fails, the out-parameter is as
    the caller passed it or empty.  The access-point name is not
    touched. *)
Theorem StartWifi_hands_out_the_remembered_name
        (W : Type) (handle : forall R : Type, VendorCall R -> W -> R * W)
        (self : WifiNative) (aIfaceName : string) (w : W) :
  let started := result_of W handle (StartWifi self aIfaceName) w in
  let status := fst (fst started) in
  let self' := snd (fst started) in
  let iface := snd started in
  mApInterfaceName self' = mApInterfaceName self
  /\ (status = SUCCESS ->
      iface <> ""
      /\ iface = c_str (mStaInterfaceName self')
      /\ GetClientInterfaceName self' = (SUCCESS, iface))
  /\ (status <> SUCCESS -> iface = aIfaceName \/ iface = "").
Proof.
  cbv zeta. unfold result_of, StartWifi, StartSupplicant, GetClientInterfaceName.
  cbn -[wait_until_ready Z.to_nat].
  vendor_step handle; try name_at_end_of_path.
  destruct (handle (Result_t * string)%type
              (WifiHal_ConfigChipAndCreateIface STA (mStaInterfaceName self)) w0)
    as [[r1 n] w1].
  cbn -[wait_until_ready Z.to_nat].
  vendor_step handle; try name_at_end_of_path.
  vendor_step handle.
  vendor_step handle.
  - vendor_step handle; try name_at_end_of_path.
    through_loop W handle; try name_at_end_of_path.
    repeat vendor_step handle; try name_at_end_of_path.
    name_at_final_check n.
  - vendor_step handle; try name_at_end_of_path.
    vendor_step handle; try name_at_end_of_path.
    through_loop W handle; try name_at_end_of_path.
    repeat vendor_step handle; try name_at_end_of_path.
    name_at_final_check n.
Qed.

(** X21 on a vendor that names the station interface wlan0. *)
Lemma StartWifi_hands_out_the_remembered_name_witness :
  let started := result_of unit (scripted (@names_interfaces))
                           (StartWifi fresh_wifi "") tt in
  snd started <> ""
  /\ snd started = c_str (mStaInterfaceName (snd (fst started)))
  /\ GetClientInterfaceName (snd (fst started)) = (SUCCESS, snd started).
Proof.
  apply (proj1 (proj2 (StartWifi_hands_out_the_remembered_name unit
                         (scripted (@names_interfaces)) fresh_wifi "" tt))).
  reflexivity.
Defined.

(** X22.  [StartSoftAp] and the access-point interface name, likewise:
    on [SUCCESS] the name handed out is not empty, is the one the object
    remembers read as a C string (up to its first zero byte) and is what
    [GetSoftApInterfaceName] answers from then on; on failure the
    out-parameter is as the caller passed it or empty.  The station name
    is not touched. *)
Theorem StartSoftAp_hands_out_the_remembered_name
        (W : Type) (handle : forall R : Type, VendorCall R -> W -> R * W)
        (self : WifiNative) (aSoftapConfig : SoftapConfigurationOptions)
        (aIfaceName : string) (w : W) :
  let started := result_of W handle (StartSoftAp self aSoftapConfig aIfaceName) w in
  let status := fst (fst started) in
  let self' := snd (fst started) in
  let iface := snd started in
  mStaInterfaceName self' = mStaInterfaceName self
  /\ (status = SUCCESS ->
      iface <> ""
      /\ iface = c_str (mApInterfaceName self')
      /\ GetSoftApInterfaceName self' = (SUCCESS, iface))
  /\ (status <> SUCCESS -> iface = aIfaceName \/ iface = "").
Proof.
  cbv zeta.
  unfold result_of, StartSoftAp, StartAndConnectHostapd, GetSoftApInterfaceName.
  cbn -[wait_until_ready Z.to_nat].
  vendor_step handle; try name_at_end_of_path.
  vendor_step handle; try name_at_end_of_path.
  through_loop W handle; try name_at_end_of_path.
  vendor_step handle; try name_at_end_of_path.
  repeat vendor_step handle; try name_at_end_of_path.
  name_at_final_check n.
Qed.

(** X22 on a vendor that names the access-point interface ap0. *)
Lemma StartSoftAp_hands_out_the_remembered_name_witness :
  let started := result_of unit (scripted (@names_interfaces))
                           (StartSoftAp fresh_wifi {| mSoftapCountryCode := "US" |} "")
                           tt in
  snd started <> ""
  /\ snd started = c_str (mApInterfaceName (snd (fst started)))
  /\ GetSoftApInterfaceName (snd (fst started)) = (SUCCESS, snd started).
Proof.
  apply (proj1 (proj2 (StartSoftAp_hands_out_the_remembered_name unit
                         (scripted (@names_interfaces)) fresh_wifi
                         {| mSoftapCountryCode := "US" |} "" tt))).
  reflexivity.
Defined.

(** Names with a zero byte in them: the station name is handed out up to
    that byte while the object remembers all of it; the access-point name
    reads as empty, and [StartSoftAp] fails at its last line after every
    call went through. *)
Lemma interface_names_with_zero_byte_sample :
  result_of unit (scripted (@names_with_zero_byte)) (StartWifi fresh_wifi "") tt
  = (SUCCESS, {| mStaInterfaceName := wl_zero_an0; mApInterfaceName := "" |}, "wl")
  /\ GetClientInterfaceName
       {| mStaInterfaceName := wl_zero_an0; mApInterfaceName := "" |}
     = (SUCCESS, "wl")
  /\ result_of unit (scripted (@names_with_zero_byte))
       (StartSoftAp fresh_wifi {| mSoftapCountryCode := "US" |} "") tt
     = (ERROR_COMMAND_FAILED,
        {| mStaInterfaceName := ""; mApInterfaceName := zero_ap0 |}, "")
  /\ GetSoftApInterfaceName
       {| mStaInterfaceName := ""; mApInterfaceName := zero_ap0 |}
     = (ERROR_COMMAND_FAILED, "").
Proof. repeat split. Qed.

(** A scan result whose SSID holds a zero byte is stored up to that
    byte. *)
Lemma to_nsScanResult_zero_byte_sample :
  sr_ssid (to_nsScanResult (fun _ => "00:11:22:33:44:55")
             {| ssid := wl_zero_an0; bssid := [0; 17; 34; 51; 68; 85];
                info_element := []; frequency := 2412; signal_mbm := -5000;
                tsf := 0; capability := 1; associated := false |})
  = "wl".
Proof. reflexivity. Qed.

(** X24 on a vendor that cannot create the scan event service. *)
Lemma StartWifi_event_service_failure_witness :
  fst (fst (result_of unit (scripted (@event_service_fails))
              (StartWifi fresh_wifi "") tt)) = ERROR_COMMAND_FAILED
  /\ trace_of unit (scripted (@event_service_fails)) (StartWifi fresh_wifi "") tt =
       [Ev WifiHal_StartWifiModule SUCCESS;
        Ev (WifiHal_ConfigChipAndCreateIface STA "") (SUCCESS, "");
        Ev (WificondEventService_CreateService "") false].
Proof.
  apply (StartWifi_event_service_failure unit (scripted (@event_service_fails))
           fresh_wifi "" tt); reflexivity.
Defined.

(** X25.  Only the two commands that create an interface change what
    [WifiNative] remembers: after every command other than [START_WIFI]
    and [START_SOFTAP] the object is as it was, whatever the vendor
    did. *)
Theorem only_start_commands_change_the_object
        (ConvertMacToString : list Z -> string)
        (W : Type) (handle : forall R : Type, VendorCall R -> W -> R * W)
        (self : WifiNative) (aOptions : CommandOptions) (aResult : nsWifiResult)
        (aInterface : string) (w : W) :
  starts_an_interface (mCmd aOptions) = false ->
  snd (fst (result_of W handle
              (ExecuteCommand ConvertMacToString self aOptions aResult aInterface)
              w)) = self.
Proof.
  unfold ExecuteCommand, status_only.
  destruct (mCmd aOptions); cbn [starts_an_interface]; intro Hcmd;
    try discriminate Hcmd;
    first
      [ reflexivity
      | apply (result_of_bind_ind W handle _ _
                 (fun r : bool * WifiNative * nsWifiResult => snd (fst r) = self));
        intros a w';
        repeat match goal with
               | |- context [match ?x with _ => _ end] => destruct x
               end;
        reflexivity ].
Qed.

(** X25 on [STOP_WIFI] after an earlier start. *)
Lemma only_start_commands_change_the_object_witness :
  snd (fst (result_of unit (scripted (@teardown_fails))
              (ExecuteCommand (fun _ => "") restarted_wifi (options_for STOP_WIFI)
                              blank_result "") tt))
  = restarted_wifi.
Proof.
  apply (only_start_commands_change_the_object (fun _ => "") unit
           (scripted (@teardown_fails)) restarted_wifi (options_for STOP_WIFI)
           blank_result "" tt).
  reflexivity.
Defined.

End WifiFacts.
